(** * Battery file-format conversion: csv_to_parquet.py and npy_to_parquet.py

    A shallow embedding of the two conversion scripts.  Both are
    straight-line module-level programs: they read the parsed command
    line, walk a directory tree with [Path.glob], load files through
    pandas or numpy, write Parquet files and print a summary.

    The embedding keeps
    - the file tree as a value ([node]), read and written through the
      pathlib operations the scripts call;
    - the module-level variables of each script as a record;
    - exceptions as a result type, the state surviving a raise (what was
      written before the raise stays written);
    - a log of the file-system and library calls, in call order;
    - pandas, numpy and the Parquet writer as an interface ([Libs]):
      the scripts only pass values to them and branch on whether they
      raise.

    Paths compare and match as on a POSIX system (case matters).  A
    string is a sequence of characters, each with a code below 256;
    names and patterns with other characters, symbolic links and
    permissions are not modelled.  The [tqdm] progress bars only
    display; they are left out. *)

From Stdlib Require Import ZArith Ascii String Sorted Permutation.
From stdpp Require Import base option list sorting strings pretty gmap.

Local Open Scope Z_scope.
Local Open Scope string_scope.
Local Open Scope list_scope.

(** ** Strings and paths *)

(** [str.startswith]. *)
Definition startswith (p s : string) : bool := String.prefix p s.

(** [str.rfind] for one character: index of its last occurrence. *)
Fixpoint rfind (c : ascii) (s : string) : option nat :=
  match s with
  | EmptyString => None
  | String a s' =>
      match rfind c s' with
      | Some i => Some (S i)
      | None => if Ascii.eqb a c then Some 0%nat else None
      end
  end.

(** [str.replace(old, new)] for single characters. *)
Fixpoint replace (old new : ascii) (s : string) : string :=
  match s with
  | EmptyString => EmptyString
  | String a s' => String (if Ascii.eqb a old then new else a) (replace old new s')
  end.

(** A [pathlib.Path] is kept as the list of its parts; [Path(".")] has
    none.  Paths are relative to the root of the modelled file tree. *)
Definition Path := list string.

Fixpoint join (sep : string) (parts : list string) : string :=
  match parts with
  | [] => ""
  | [x] => x
  | x :: rest => x +:+ sep +:+ join sep rest
  end.

(** [str(path)]. *)
Definition str (p : Path) : string :=
  match p with
  | [] => "."
  | _ => join "/" p
  end.

(** [path.name]: the last part, empty for [Path(".")]. *)
Definition name (p : Path) : string := List.last p "".

(** [path / child]. *)
Definition child (p : Path) (n : string) : Path := p ++ [n].

(** [PurePath.suffix] of a file name: from the last dot on, unless that
    dot is the first or the last character. *)
Definition suffix (nm : string) : string :=
  match rfind "." nm with
  | Some i =>
      if ((0 <? i)%nat && (i <? String.length nm - 1)%nat)%bool
      then String.substring i (String.length nm - i) nm
      else ""
  | None => ""
  end.

(** [path.with_name(name)].  pathlib raises [ValueError] on a path with
    no name; the scripts only apply it to results of [glob]. *)
Definition with_name (p : Path) (nm : string) : Path :=
  match p with
  | [] => []
  | _ => removelast p ++ [nm]
  end.

(** [path.with_suffix(suffix)]: the old suffix, if any, is cut off the
    name and the new one appended. *)
Definition with_suffix (p : Path) (suf : string) : Path :=
  let nm := name p in
  with_name p
    (String.substring 0 (String.length nm - String.length (suffix nm)) nm +:+ suf).

(** Order of [Path] objects: the tuples of parts, compared as Python
    compares sequences of strings. *)
Fixpoint path_compare (p q : Path) : comparison :=
  match p, q with
  | [], [] => Eq
  | [], _ :: _ => Lt
  | _ :: _, [] => Gt
  | a :: p', b :: q' =>
      match String.compare a b with
      | Eq => path_compare p' q'
      | c => c
      end
  end.

Definition path_le (p q : Path) : Prop := path_compare p q <> Gt.

(** ** Glob patterns

    One component of a [Path.glob] pattern is matched against the names
    of a directory's entries with the rules of [fnmatch] ([*], [?],
    [[seq]], [[!seq]], ranges [a-z]), character by character; case
    matters.  Unlike the [glob] module, pathlib gives a leading dot no
    special treatment. *)

Inductive glob_token :=
  | GStar
  | GAny
  | GClass (negate : bool) (body : list ascii)
  | GLit (c : ascii).

(** Characters up to the closing bracket, and the rest after it. *)
Fixpoint until_bracket (p : list ascii) : option (list ascii * list ascii) :=
  match p with
  | [] => None
  | c :: r =>
      if Ascii.eqb c "]" then Some ([], r)
      else match until_bracket r with
           | Some (body, r') => Some (c :: body, r')
           | None => None
           end
  end.

(** What follows an opening bracket: an optional [!], then the body, in
    which a bracket in first position is a member.  [None] when the
    class is not closed (the opening bracket is then an ordinary
    character). *)
Definition split_class (p : list ascii) : option (bool * list ascii * list ascii) :=
  let '(neg, p1) :=
    match p with
    | c :: r => if Ascii.eqb c "!" then (true, r) else (false, p)
    | [] => (false, p)
    end in
  match p1 with
  | c :: r =>
      if Ascii.eqb c "]" then
        match until_bracket r with
        | Some (body, rest) => Some (neg, c :: body, rest)
        | None => None
        end
      else
        match until_bracket p1 with
        | Some (body, rest) => Some (neg, body, rest)
        | None => None
        end
  | [] => None
  end.

Fixpoint tokens (fuel : nat) (p : list ascii) : list glob_token :=
  match fuel with
  | O => []
  | S fuel' =>
      match p with
      | [] => []
      | c :: r =>
          if Ascii.eqb c "*" then GStar :: tokens fuel' r
          else if Ascii.eqb c "?" then GAny :: tokens fuel' r
          else if Ascii.eqb c "[" then
            match split_class r with
            | Some (neg, body, rest) => GClass neg body :: tokens fuel' rest
            | None => GLit c :: tokens fuel' r
            end
          else GLit c :: tokens fuel' r
      end
  end.

Definition ascii_le (a b : ascii) : bool := (nat_of_ascii a <=? nat_of_ascii b)%nat.

(** Membership in the body of a class, ranges included. *)
Fixpoint in_class (body : list ascii) (c : ascii) : bool :=
  match body with
  | [] => false
  | a :: r =>
      match r with
      | d :: b :: r' =>
          if Ascii.eqb d "-"
          then (ascii_le a c && ascii_le c b) || in_class r' c
          else Ascii.eqb a c || in_class r c
      | _ => Ascii.eqb a c || in_class r c
      end
  end.

Definition token_matches (t : glob_token) (c : ascii) : bool :=
  match t with
  | GStar | GAny => true
  | GClass neg body => xorb neg (in_class body c)
  | GLit a => Ascii.eqb a c
  end.

Fixpoint match_tokens (ts : list glob_token) (s : list ascii) : bool :=
  match ts with
  | [] => match s with [] => true | _ => false end
  | GStar :: ts' =>
      (fix star (s : list ascii) : bool :=
         match_tokens ts' s ||
         match s with
         | [] => false
         | _ :: s' => star s'
         end) s
  | t :: ts' =>
      match s with
      | [] => false
      | c :: s' => token_matches t c && match_tokens ts' s'
      end
  end.

Definition fnmatch (nm pattern : string) : bool :=
  let p := list_ascii_of_string pattern in
  match_tokens (tokens (length p) p) (list_ascii_of_string nm).

(** [sub in s]. *)
Fixpoint occurs (sub s : string) : bool :=
  String.prefix sub s ||
  match s with
  | EmptyString => false
  | String _ s' => occurs sub s'
  end.

(** The patterns [Path.glob] matches against the entries of the one
    directory it is called on: not empty, without a separator, without
    [**], and neither [.] nor [..]. *)
Definition one_component (pattern : string) : bool :=
  negb (String.eqb pattern "") && negb (occurs "/" pattern) &&
  negb (occurs "**" pattern) &&
  negb (String.eqb pattern ".") && negb (String.eqb pattern "..").

(** ** Tables

    The part of a pandas [DataFrame] the scripts depend on: the row
    labels, and the columns in order, each with its dtype and its
    values.  Numbers are carried as they are; their arithmetic belongs
    to pandas and numpy. *)

Inductive dtype :=
  float64 | int64 | uint64 | float32 | int32 | bool_ | object_ | datetime64.

#[global] Instance dtype_eq_dec : EqDecision dtype.
Proof. solve_decision. Defined.


Inductive cell := NaN | Num (z : Z) | Text (s : string) | Timestamp (t : Z).

Record Series := { s_dtype : dtype; s_values : list cell }.

Record DataFrame := { df_index : list cell; df_columns : list (string * Series) }.

Definition labels (df : DataFrame) : list string := (df_columns df).*1.

Definition nrows (df : DataFrame) : nat := length (df_index df).

(** [df[label]]: the column, if there is one. *)
Fixpoint lookup_column (label : string) (cols : list (string * Series)) : option Series :=
  match cols with
  | [] => None
  | (l, s) :: rest => if String.eqb l label then Some s else lookup_column label rest
  end.

Definition getitem (df : DataFrame) (label : string) : option Series :=
  lookup_column label (df_columns df).

(** [d[label] = s] on an insertion-ordered mapping: an existing label
    keeps its place, a new one goes last. *)
Fixpoint dict_set {A} (label : string) (s : A) (cols : list (string * A)) : list (string * A) :=
  match cols with
  | [] => [(label, s)]
  | (l, s') :: rest =>
      if String.eqb l label then (l, s) :: rest else (l, s') :: dict_set label s rest
  end.

Definition setitem (df : DataFrame) (label : string) (s : Series) : DataFrame :=
  {| df_index := df_index df; df_columns := dict_set label s (df_columns df) |}.

(** [df.select_dtypes(d)], as the labels it iterates over. *)
Definition select_dtypes (df : DataFrame) (d : dtype) : list string :=
  (filter (fun c => s_dtype c.2 = d) (df_columns df)).*1.

(** [df.rename(columns={c: f(c) for c in df.columns}, inplace=True)]. *)
Definition rename (f : string -> string) (df : DataFrame) : DataFrame :=
  {| df_index := df_index df; df_columns := map (fun c => (f c.1, c.2)) (df_columns df) |}.

(** A raw array as [numpy.load] returns it, by its number of
    dimensions: two ([Matrix]), fewer than two ([Flat]), or three and
    more ([Stacked], with the length of the second axis). *)
Inductive NDArray :=
  | Matrix (d : dtype) (ncols : nat) (rows : list (list cell))
  | Flat
  | Stacked (ncols : nat).

(** What [array[:, idx]] gives: a column of values, or, cut out of
    three dimensions or more, an array that is not one-dimensional. *)
Inductive slice :=
  | Column (s : Series)
  | Block.

(** [array[:, idx]]; [None] stands for its [IndexError] (an index past
    the second axis, or no second axis). *)
Definition array_column (a : NDArray) (idx : nat) : option slice :=
  match a with
  | Matrix d ncols rows =>
      if (idx <? ncols)%nat
      then Some (Column {| s_dtype := d; s_values := map (fun r => nth idx r NaN) rows |})
      else None
  | Flat => None
  | Stacked ncols => if (idx <? ncols)%nat then Some Block else None
  end.

(** A value of the mapping [yaml.safe_load] returns for a format file:
    a sequence of names, a mapping from names to unit codes, or a
    boolean.  Other YAML values are outside this model. *)
Inductive format_value :=
  | FList (names : list string)
  | FDict (items : list (string * string))
  | FBool (b : bool).

(** ** The file tree *)

#[warnings="-register-all"]
Inductive node :=
  | File (data : string)
  | Dir (entries : list (string * node)).

Fixpoint get_entry (nm : string) (es : list (string * node)) : option node :=
  match es with
  | [] => None
  | (n, x) :: rest => if String.eqb n nm then Some x else get_entry nm rest
  end.

Fixpoint lookup_path (p : Path) (t : node) : option node :=
  match p with
  | [] => Some t
  | nm :: p' =>
      match t with
      | Dir es =>
          match get_entry nm es with
          | Some x => lookup_path p' x
          | None => None
          end
      | File _ => None
      end
  end.

(** Writing a file: its directory must exist, and the name must not be
    that of a directory.  An existing file is replaced. *)
Fixpoint write_file (p : Path) (data : string) (t : node) : option node :=
  match p, t with
  | [nm], Dir es =>
      match get_entry nm es with
      | Some (Dir _) => None
      | _ => Some (Dir (dict_set nm (File data) es))
      end
  | nm :: p', Dir es =>
      match get_entry nm es with
      | Some x =>
          match write_file p' data x with
          | Some x' => Some (Dir (dict_set nm x' es))
          | None => None
          end
      | None => None
      end
  | _, _ => None
  end.

(** [st_size]: the length of a file; for a directory, the size of its
    own block, which no run of the scripts gets to report. *)
Definition st_size (x : node) : Z :=
  match x with
  | File data => Z.of_nat (String.length data)
  | Dir _ => 4096
  end.

(** The entries of a directory whose names match a pattern of one
    component, in the order the directory lists them; none if the
    path is not that of a directory. *)
Definition listing (dir : Path) (pattern : string) (t : node) : list Path :=
  match lookup_path dir t with
  | Some (Dir es) => map (child dir) (filter (fun nm => fnmatch nm pattern = true) es.*1)
  | _ => []
  end.

(** ** Calls and exceptions

    The calls a run makes to the file system and to the libraries, the
    exceptions it can end with, and the outcome of a computation. *)

Inductive call :=
  | Glob (p : Path) (pattern : string)
  | IsDir (p : Path)
  | PathExists (p : Path)
  | Stat (p : Path)
  | ReadCsv (p : Path)
  | NumpyLoad (p : Path)
  | Open (p : Path)
  | ToParquet (p : Path)
  | WriteText (p : Path).

Inductive exn :=
  | Exception (msg : string)          (* raised by the scripts *)
  | AttributeError (attribute : string)
  | NameError (variable : string)
  | KeyError (key : string)
  | TypeError
  | IndexError
  | ValueError
  | ZeroDivisionError
  | LibraryError (c : call).          (* raised inside the call *)

Inductive result (A : Type) :=
  | Return (a : A)
  | Raise (e : exn).
Arguments Return {A} a.
Arguments Raise {A} e.

(** ** Libraries

    What pandas, numpy, the Parquet engine and, for compound patterns,
    pathlib compute.  [None] stands for a raised exception. *)
Class Libs := {
  (** [pandas.read_csv(file, parse_dates=.., infer_datetime_format=True,
      index_col=..)] on the text of a file *)
  pandas_read_csv : string -> option string -> option string -> option DataFrame;
  (** [numpy.load(file)] on the bytes of a file *)
  numpy_load : string -> option NDArray;
  (** [pandas.to_datetime(series, unit=..)] *)
  pandas_to_datetime : Series -> string -> option Series;
  (** the conversion of one value by [Series.astype] *)
  numpy_cast : dtype -> cell -> cell;
  (** the dtype [pandas.concat] gives a column, from the dtypes it has
      in the frames ([None] where a frame lacks it) *)
  common_type : list (option dtype) -> dtype;
  (** the bytes [DataFrame.to_parquet(index=False, engine=..,
      compression=..)] writes *)
  parquet_bytes : DataFrame -> string -> string -> option string;
  (** [yaml.safe_load] on the text of a format file *)
  safe_load : string -> option (gmap string format_value);
  (** [list(directory.glob(pattern))] on a file tree, for the patterns
      that are not of one component (a separator, [**], [.] or [..]) *)
  glob_compound : node -> Path -> string -> result (list Path);
}.

Section Frames.
Context `{Libs}.

(** [series.astype(d)]. *)
Definition astype (s : Series) (d : dtype) : Series :=
  {| s_dtype := d; s_values := map (numpy_cast d) (s_values s) |}.

(** The values a frame contributes to a column of the concatenation:
    its own, or one missing value per row. *)
Definition column_or_nan (label : string) (df : DataFrame) : list cell :=
  match getitem df label with
  | Some s => s_values s
  | None => List.repeat NaN (nrows df)
  end.

(** The labels of the frames, each once, in order of first
    appearance. *)
Definition union_labels (dfs : list DataFrame) : list string :=
  reverse (remove_dups (reverse (mjoin (map labels dfs)))).

(** [pandas.concat(dataframes)]: rows stacked in the order of the
    list, over the union of the columns in order of first appearance.
    Each frame has distinct labels, as [read_csv] returns them. *)
Definition pandas_concat (dfs : list DataFrame) : DataFrame :=
  {| df_index := mjoin (map df_index dfs);
     df_columns :=
       map (fun l =>
              (l, {| s_dtype := common_type (map (fun df => s_dtype <$> getitem df l) dfs);
                     s_values := mjoin (map (column_or_nan l) dfs) |}))
           (union_labels dfs) |}.
End Frames.

(** ** Globbing

    [list(directory.glob(pattern))].  An empty pattern is refused with
    [ValueError]; a pattern of one component selects among the entries
    of the directory; any other pattern is left to the library. *)
Definition globbed `{Libs} (dir : Path) (pattern : string) (t : node) : result (list Path) :=
  if String.eqb pattern "" then Raise ValueError
  else if one_component pattern then Return (listing dir pattern t)
  else glob_compound t dir pattern.

(** The paths the glob yields, none when it raises. *)
Definition matching `{Libs} (dir : Path) (pattern : string) (t : node) : list Path :=
  match globbed dir pattern t with
  | Return found => found
  | Raise _ => []
  end.

(** ** Runs: the state of a run and what it prints *)

(** A printed line.  The compression factor is a float; it is kept as
    the two integers of the division. *)
Inductive output :=
  | Line (s : string)
  | Smaller (converted original parquet : Z).

Record world := { tree : node; calls : list call; stdout : list output }.

(** A computation over the world and the module-level variables [V] of
    a script.  Both survive an exception. *)
Definition M (V A : Type) : Type := world -> V -> result A * world * V.

Section Monad.
Context {V : Type}.

Definition ret {A} (a : A) : M V A := fun w v => (Return a, w, v).

Definition bind {A B} (m : M V A) (k : A -> M V B) : M V B :=
  fun w v =>
    match m w v with
    | (Return a, w', v') => k a w' v'
    | (Raise e, w', v') => (Raise e, w', v')
    end.

Definition raise {A} (e : exn) : M V A := fun w v => (Raise e, w, v).

(** [try: m  except: handler]. *)
Definition try_except {A} (m : M V A) (handler : exn -> M V A) : M V A :=
  fun w v =>
    match m w v with
    | (Raise e, w', v') => handler e w' v'
    | r => r
    end.

Definition get : M V V := fun w v => (Return v, w, v).
Definition modify (f : V -> V) : M V unit := fun w v => (Return tt, w, f v).

Definition log (c : call) : M V unit :=
  fun w v => (Return tt, {| tree := tree w; calls := calls w ++ [c]; stdout := stdout w |}, v).

Definition read_tree : M V node := fun w v => (Return (tree w), w, v).

Definition set_tree (t : node) : M V unit :=
  fun w v => (Return tt, {| tree := t; calls := calls w; stdout := stdout w |}, v).

Definition print (o : output) : M V unit :=
  fun w v => (Return tt, {| tree := tree w; calls := calls w; stdout := stdout w ++ [o] |}, v).
End Monad.

Declare Scope run_scope.
Delimit Scope run_scope with run.
Notation "x <- m ;; k" := (bind m (fun x => k))
  (at level 100, m at next level, right associativity) : run_scope.
Notation "m ;; k" := (bind m (fun _ => k))
  (at level 100, right associativity) : run_scope.
Local Open Scope run_scope.

Section Calls.
Context `{Libs} {V : Type}.

(** [for x in l: body]. *)
Fixpoint for_each {A} (l : list A) (body : A -> M V unit) : M V unit :=
  match l with
  | [] => ret tt
  | x :: l' => body x ;; for_each l' body
  end.

(** [[f(x) for x in l]]. *)
Fixpoint comprehension {A B} (l : list A) (f : A -> M V B) : M V (list B) :=
  match l with
  | [] => ret []
  | x :: l' => y <- f x ;; ys <- comprehension l' f ;; ret (y :: ys)
  end.

(** [list(directory.glob(pattern))], or the comprehension over it. *)
Definition glob (dir : Path) (pattern : string) : M V (list Path) :=
  log (Glob dir pattern) ;;
  t <- read_tree ;;
  match globbed dir pattern t with
  | Return found => ret found
  | Raise e => raise e
  end.

Definition is_dir (p : Path) : M V bool :=
  log (IsDir p) ;;
  t <- read_tree ;;
  ret (match lookup_path p t with Some (Dir _) => true | _ => false end).

Definition exists_ (p : Path) : M V bool :=
  log (PathExists p) ;;
  t <- read_tree ;;
  ret (bool_decide (is_Some (lookup_path p t))).

(** [p.stat().st_size]. *)
Definition stat_size (p : Path) : M V Z :=
  log (Stat p) ;;
  t <- read_tree ;;
  match lookup_path p t with
  | Some x => ret (st_size x)
  | None => raise (LibraryError (Stat p))
  end.

Definition read_csv (p : Path) (parse_dates index_col : option string) : M V DataFrame :=
  log (ReadCsv p) ;;
  t <- read_tree ;;
  match lookup_path p t with
  | Some (File data) =>
      match pandas_read_csv data parse_dates index_col with
      | Some df => ret df
      | None => raise (LibraryError (ReadCsv p))
      end
  | _ => raise (LibraryError (ReadCsv p))
  end.

Definition load (p : Path) : M V NDArray :=
  log (NumpyLoad p) ;;
  t <- read_tree ;;
  match lookup_path p t with
  | Some (File data) =>
      match numpy_load data with
      | Some a => ret a
      | None => raise (LibraryError (NumpyLoad p))
      end
  | _ => raise (LibraryError (NumpyLoad p))
  end.

Definition to_parquet (df : DataFrame) (p : Path) (engine compression : string) : M V unit :=
  log (ToParquet p) ;;
  t <- read_tree ;;
  match parquet_bytes df engine compression with
  | Some data =>
      match write_file p data t with
      | Some t' => set_tree t'
      | None => raise (LibraryError (ToParquet p))
      end
  | None => raise (LibraryError (ToParquet p))
  end.

(** [open(p)], read by the YAML loader. *)
Definition open_text (p : Path) : M V string :=
  log (Open p) ;;
  t <- read_tree ;;
  match lookup_path p t with
  | Some (File data) => ret data
  | _ => raise (LibraryError (Open p))
  end.

Definition write_text (p : Path) (text : string) : M V unit :=
  log (WriteText p) ;;
  t <- read_tree ;;
  match write_file p text t with
  | Some t' => set_tree t'
  | None => raise (LibraryError (WriteText p))
  end.
End Calls.

#[global] Instance path_le_dec : RelDecision path_le.
Proof. intros p q. unfold path_le. destruct (path_compare p q); [left | left | right]; congruence. Defined.

(** [list.sort()] on paths. *)
Definition sort (l : list Path) : list Path := merge_sort path_le l.

(** Truth value of an optional string argument: [None] and the empty
    string are false. *)
Definition given (o : option string) : bool :=
  match o with
  | Some s => negb (String.eqb s "")
  | None => false
  end.

Definition newline : string := String "010" EmptyString.

(** The items of a glob kept by
    [if item.is_dir() and not item.name.startswith('.')]. *)
Fixpoint directories `{Libs} {V} (items : list Path) : M V (list Path) :=
  match items with
  | [] => ret []
  | item :: rest =>
      d <- is_dir item ;;
      kept <- directories rest ;;
      ret (if d && negb (startswith "." (name item)) then item :: kept else kept)
  end.

(** * csv_to_parquet.py *)
Module Csv.

Definition GLOB_DIRECTORY_PATTERN : string := "*".
Definition GLOB_SUBDIRECTORY_PATTERN : string := "*".
Definition GLOB_CSV_PATTERN : string := "*.[Cc][Ss][Vv]".
Definition PARQUET_COMPRESSION : string := "gzip".
Definition PARQUET_ENGINE : string := "fastparquet".

(** The namespace [parser.parse_args()] returns. *)
Record arguments := {
  datetimes : option string;
  index : option string;
  start_directory : Path;
  overwrite : bool;
  high_precision : bool;
  verbose : bool;
  csv_pattern : string;
  directory_pattern : string;
  subdirectory_pattern : string;
  parquet_engine : string;
  parquet_compression : string;
}.

(** The command line with no option given. *)
Definition defaults : arguments :=
  {| datetimes := None; index := None; start_directory := [];
     overwrite := false; high_precision := false; verbose := false;
     csv_pattern := GLOB_CSV_PATTERN;
     directory_pattern := GLOB_DIRECTORY_PATTERN;
     subdirectory_pattern := GLOB_SUBDIRECTORY_PATTERN;
     parquet_engine := PARQUET_ENGINE;
     parquet_compression := PARQUET_COMPRESSION |}.

(** The module-level variables the loops assign.  [csv_filename] is
    the variable of the loop that sums the sizes; it is unbound until
    that loop first runs. *)
Record variables := {
  original_sizes : Z;
  parquet_sizes : Z;
  num_files_converted : Z;
  num_files_skipped : Z;
  empty_directories : list string;
  csv_filename : option Path;
}.

Definition initial : variables :=
  {| original_sizes := 0; parquet_sizes := 0; num_files_converted := 0;
     num_files_skipped := 0; empty_directories := []; csv_filename := None |}.

Definition add_original (n : Z) (v : variables) : variables :=
  {| original_sizes := original_sizes v + n; parquet_sizes := parquet_sizes v;
     num_files_converted := num_files_converted v;
     num_files_skipped := num_files_skipped v;
     empty_directories := empty_directories v; csv_filename := csv_filename v |}.

Definition add_parquet (n : Z) (v : variables) : variables :=
  {| original_sizes := original_sizes v; parquet_sizes := parquet_sizes v + n;
     num_files_converted := num_files_converted v;
     num_files_skipped := num_files_skipped v;
     empty_directories := empty_directories v; csv_filename := csv_filename v |}.

Definition count_converted (v : variables) : variables :=
  {| original_sizes := original_sizes v; parquet_sizes := parquet_sizes v;
     num_files_converted := num_files_converted v + 1;
     num_files_skipped := num_files_skipped v;
     empty_directories := empty_directories v; csv_filename := csv_filename v |}.

Definition count_skipped (v : variables) : variables :=
  {| original_sizes := original_sizes v; parquet_sizes := parquet_sizes v;
     num_files_converted := num_files_converted v;
     num_files_skipped := num_files_skipped v + 1;
     empty_directories := empty_directories v; csv_filename := csv_filename v |}.

Definition append_empty (entry : string) (v : variables) : variables :=
  {| original_sizes := original_sizes v; parquet_sizes := parquet_sizes v;
     num_files_converted := num_files_converted v;
     num_files_skipped := num_files_skipped v;
     empty_directories := empty_directories v ++ [entry];
     csv_filename := csv_filename v |}.

Definition assign_csv_filename (p : Path) (v : variables) : variables :=
  {| original_sizes := original_sizes v; parquet_sizes := parquet_sizes v;
     num_files_converted := num_files_converted v;
     num_files_skipped := num_files_skipped v;
     empty_directories := empty_directories v; csv_filename := Some p |}.

Section Script.
Context `{Libs}.
Variable args : arguments.

(** Lines 205-210: the two loops over [select_dtypes]. *)
Definition cast_columns (from to : dtype) (df : DataFrame) : DataFrame :=
  fold_left
    (fun df column =>
       match getitem df column with
       | Some s => setitem df column (astype s to)
       | None => df
       end)
    (select_dtypes df from) df.

Definition downcast (df : DataFrame) : DataFrame :=
  cast_columns int64 int32 (cast_columns float64 float32 df).

(** Lines 204-210: the precision step. *)
Definition precision (df : DataFrame) : DataFrame :=
  if high_precision args then df else downcast df.

(** Lines 195-199: the message of the exception raised when a read
    fails. *)
Definition failed_to_read (file : Path) : string :=
  "Failed to read '" +:+ str file +:+ "'." +:+
  (if given (index args)
   then " Is index column '" +:+ default "" (index args) +:+ "' correct?" else "") +:+
  (if given (datetimes args)
   then " Is datetime column '" +:+ default "" (datetimes args) +:+ "' correct?" else "").

(** Lines 164-229: what is done for an experiment that is not
    skipped. *)
Definition convert (experiment_directory : Path) : M variables unit :=
  found <- glob experiment_directory (csv_pattern args) ;;
  let csv_filenames := sort found in
  match csv_filenames with
  | [] =>
      modify (append_empty
                (str experiment_directory +:+ ": No files matching '" +:+
                 csv_pattern args +:+ "'"))
  | _ =>
      for_each csv_filenames (fun file =>
        modify (assign_csv_filename file) ;;
        size <- stat_size file ;;
        modify (add_original size)) ;;
      dataframes <-
        try_except
          (comprehension csv_filenames (fun file =>
             read_csv file
               (if given (datetimes args) then datetimes args else None)
               (if given (index args) then index args else None)))
          (fun error =>
             v <- get ;;
             match csv_filename v with
             | Some file => raise (Exception (failed_to_read file))
             | None => raise (NameError "csv_filename")
             end) ;;
      let dataframe := pandas_concat dataframes in
      let dataframe := precision dataframe in
      let dataframe := rename (replace " " "_") dataframe in
      let parquet_filename := with_suffix experiment_directory ".parquet" in
      to_parquet dataframe parquet_filename (parquet_engine args) (parquet_compression args) ;;
      size <- stat_size parquet_filename ;;
      modify (add_parquet size) ;;
      modify count_converted
  end.

(** Lines 154-229: the body of the loop over the experiments. *)
Definition experiment (experiment_directory : Path) : M variables unit :=
  present <- exists_ (with_suffix experiment_directory ".parquet") ;;
  if present && negb (overwrite args)
  then modify count_skipped
  else convert experiment_directory.

(** Lines 142-235: the body of the loop over the campaigns. *)
Definition campaign (campaign_directory : Path) : M variables unit :=
  items <- glob campaign_directory (subdirectory_pattern args) ;;
  experiment_directories <- directories items ;;
  for_each experiment_directories experiment ;;
  match experiment_directories with
  | [] =>
      modify (append_empty
                (str campaign_directory +:+ ": No subdirectories matching '" +:+
                 subdirectory_pattern args +:+ "'"))
  | _ => ret tt
  end.

(** Lines 243-256. *)
Definition final_feedback : M variables unit :=
  v <- get ;;
  if negb (Z.eqb (num_files_converted v) 0) then
    if Z.eqb (parquet_sizes v) 0 then raise ZeroDivisionError
    else print (Smaller (num_files_converted v) (original_sizes v) (parquet_sizes v))
  else if negb (overwrite args) && negb (Z.eqb (num_files_skipped v) 0) then
    print (Line ("No files converted, but " +:+ pretty (num_files_skipped v) +:+
                 " pre-existing Parquet file(s) skipped"))
  else
    print (Line "No files converted.").

(** Lines 131-241: the traversal.  The namespace has no attribute
    [directory]: formatting the entry of line 239 raises before
    anything is appended. *)
Definition scan : M variables unit :=
  items <- glob (start_directory args) (directory_pattern args) ;;
  campaign_directories <- directories items ;;
  for_each campaign_directories campaign ;;
  match campaign_directories with
  | [] => raise (AttributeError "directory")
  | _ => ret tt
  end.

(** The script, from the first [print] on. *)
Definition main : M variables unit :=
  print (Line ("Converting campaigns in '" +:+ str (start_directory args) +:+
               "' matching '" +:+ directory_pattern args +:+ "' to Parquet")) ;;
  scan ;;
  final_feedback ;;
  if verbose args then
    v <- get ;;
    print (Line "") ;;
    print (Line (join newline (empty_directories v)))
  else ret tt.

(** A run of the script on a file tree. *)
Definition run (t : node) : result unit * world * variables :=
  main {| tree := t; calls := []; stdout := [] |} initial.
End Script.
End Csv.

(** * npy_to_parquet.py *)
Module Npy.

Definition GLOB_NPY_PATTERN : string := "*.[Nn][Pp][Yy]".
Definition PARQUET_COMPRESSION : string := "gzip".
Definition PARQUET_ENGINE : string := "fastparquet".
Definition NPY_FORMAT_DEFAULT : string :=
  join newline
    ["columns: "; "  - Time"; "  - Current"; "  - Voltage"; "  - Temperature";
     "date_column:"; "  Time: s"; "float32: False"].

(** The mapping [safe_load(NPY_FORMAT_DEFAULT)] is. *)
Definition default_format : gmap string format_value :=
  <["columns" := FList ["Time"; "Current"; "Voltage"; "Temperature"]]>
    (<["date_column" := FDict [("Time", "s")]]>
       (<["float32" := FBool false]> ∅)).

Record arguments := {
  start_directory : Path;
  overwrite : bool;
  npy_pattern : string;
  format : option Path;
  parquet_engine : string;
  parquet_compression : string;
}.

Definition defaults : arguments :=
  {| start_directory := []; overwrite := false; npy_pattern := GLOB_NPY_PATTERN;
     format := None; parquet_engine := PARQUET_ENGINE;
     parquet_compression := PARQUET_COMPRESSION |}.

(** The module-level counters.  The script keeps no list of empty
    locations. *)
Record variables := {
  original_sizes : Z;
  parquet_sizes : Z;
  num_files_converted : Z;
  num_files_skipped : Z;
}.

Definition initial : variables :=
  {| original_sizes := 0; parquet_sizes := 0; num_files_converted := 0;
     num_files_skipped := 0 |}.

Definition add_original (n : Z) (v : variables) : variables :=
  {| original_sizes := original_sizes v + n; parquet_sizes := parquet_sizes v;
     num_files_converted := num_files_converted v;
     num_files_skipped := num_files_skipped v |}.

Definition add_parquet (n : Z) (v : variables) : variables :=
  {| original_sizes := original_sizes v; parquet_sizes := parquet_sizes v + n;
     num_files_converted := num_files_converted v;
     num_files_skipped := num_files_skipped v |}.

Definition count_converted (v : variables) : variables :=
  {| original_sizes := original_sizes v; parquet_sizes := parquet_sizes v;
     num_files_converted := num_files_converted v + 1;
     num_files_skipped := num_files_skipped v |}.

Definition count_skipped (v : variables) : variables :=
  {| original_sizes := original_sizes v; parquet_sizes := parquet_sizes v;
     num_files_converted := num_files_converted v;
     num_files_skipped := num_files_skipped v + 1 |}.

Section Script.
Context `{Libs}.
Variable args : arguments.

(** [enumerate(npy_format['columns'])]: the names, in order.  Iterating
    a mapping gives its keys; a boolean cannot be iterated. *)
Definition column_names (npy_format : gmap string format_value) : result (list string) :=
  match npy_format !! "columns" with
  | None => Raise (KeyError "columns")
  | Some (FList names) => Return names
  | Some (FDict items) => Return items.*1
  | Some (FBool _) => Raise TypeError
  end.

(** [npy_format['date_column'].items()]. *)
Definition date_items (npy_format : gmap string format_value) : result (list (string * string)) :=
  match npy_format !! "date_column" with
  | None => Raise (KeyError "date_column")
  | Some (FDict items) => Return items
  | Some _ => Raise (AttributeError "items")
  end.

(** Lines 128-130: [{name: array[:, idx] for idx, name in enumerate(..)}],
    from position [idx] on. *)
Fixpoint column_dict (array : NDArray) (idx : nat) (names : list string)
    (d : list (string * slice)) : result (list (string * slice)) :=
  match names with
  | [] => Return d
  | nm :: rest =>
      match array_column array idx with
      | Some s => column_dict array (S idx) rest (dict_set nm s d)
      | None => Raise IndexError
      end
  end.

(** The values of a mapping from names to slices, when each of them
    is a column. *)
Fixpoint columns_of (d : list (string * slice)) : option (list (string * Series)) :=
  match d with
  | [] => Some []
  | (nm, Column s) :: rest =>
      match columns_of rest with
      | Some cols => Some ((nm, s) :: cols)
      | None => None
      end
  | (_, Block) :: _ => None
  end.

(** [DataFrame(d)] on a mapping from names to slices of one array: the
    rows are numbered from 0.  A value that is not one-dimensional is
    refused with [ValueError]. *)
Definition DataFrame_of (d : list (string * slice)) : result DataFrame :=
  match columns_of d with
  | Some cols =>
      Return
        {| df_index :=
             match cols with
             | [] => []
             | (_, s) :: _ => map (fun i => Num (Z.of_nat i)) (seq 0 (length (s_values s)))
             end;
           df_columns := cols |}
  | None => Raise ValueError
  end.

(** Lines 133-136: the loop over the date columns. *)
Fixpoint convert_dates (items : list (string * string)) (dataframe : DataFrame)
    : result DataFrame :=
  match items with
  | [] => Return dataframe
  | (date_name, date_units) :: rest =>
      match getitem dataframe date_name with
      | None => Raise (KeyError date_name)
      | Some s =>
          match pandas_to_datetime s date_units with
          | Some s' => convert_dates rest (setitem dataframe date_name s')
          | None => Raise ValueError
          end
      end
  end.

(** Lines 127-136: the body of the [try]. *)
Definition mapping (npy_format : gmap string format_value) (array : NDArray)
    : result DataFrame :=
  match column_names npy_format with
  | Raise e => Raise e
  | Return names =>
      match column_dict array 0 names [] with
      | Raise e => Raise e
      | Return d =>
          match DataFrame_of d with
          | Raise e => Raise e
          | Return dataframe =>
              match date_items npy_format with
              | Raise e => Raise e
              | Return items => convert_dates items dataframe
              end
          end
      end
  end.

Definition lift {A} (r : result A) : M variables A :=
  match r with
  | Return a => ret a
  | Raise e => raise e
  end.

(** The name of the template written beside a file that does not fit. *)
Definition format_file (npy_filename : Path) : Path :=
  with_name npy_filename (name npy_filename +:+ "_format.yml").

Definition does_not_fit (npy_filename : Path) : string :=
  "'" +:+ str npy_filename +:+ "' does not fit the expected format. " +:+
  "Creating a new format file '" +:+ str (format_file npy_filename) +:+
  "'. Edit it to reflect the file format, " +:+
  "then re-run using '-f FORMAT_FILE_NAME'.".

(** Lines 118-159: what is done for a file that is not skipped. *)
Definition convert (npy_format : gmap string format_value) (npy_filename : Path)
    : M variables unit :=
  size <- stat_size npy_filename ;;
  modify (add_original size) ;;
  array <- load npy_filename ;;
  dataframe <-
    try_except (lift (mapping npy_format array))
      (fun _ =>
         write_text (format_file npy_filename) NPY_FORMAT_DEFAULT ;;
         raise (Exception (does_not_fit npy_filename))) ;;
  let parquet_filename := with_suffix npy_filename ".parquet" in
  to_parquet dataframe parquet_filename (parquet_engine args) (parquet_compression args) ;;
  size <- stat_size parquet_filename ;;
  modify (add_parquet size) ;;
  modify count_converted.

(** Lines 108-159: the body of the loop over the files. *)
Definition file (npy_format : gmap string format_value) (npy_filename : Path)
    : M variables unit :=
  present <- exists_ (with_suffix npy_filename ".parquet") ;;
  if present && negb (overwrite args)
  then modify count_skipped
  else convert npy_format npy_filename.

(** Lines 161-174. *)
Definition final_feedback : M variables unit :=
  v <- get ;;
  if negb (Z.eqb (num_files_converted v) 0) then
    if Z.eqb (parquet_sizes v) 0 then raise ZeroDivisionError
    else print (Smaller (num_files_converted v) (original_sizes v) (parquet_sizes v))
  else if negb (overwrite args) && negb (Z.eqb (num_files_skipped v) 0) then
    print (Line ("No files converted, but " +:+ pretty (num_files_skipped v) +:+
                 " pre-existing Parquet file(s) skipped"))
  else
    print (Line "No files converted.").

(** Lines 98-159: the traversal. *)
Definition scan (npy_format : gmap string format_value) : M variables unit :=
  npy_filenames <- glob (start_directory args) (npy_pattern args) ;;
  for_each npy_filenames (file npy_format).

(** Lines 87-174: the script once the format is loaded. *)
Definition script (npy_format : gmap string format_value) : M variables unit :=
  print (Line ("Converting files in '" +:+ str (start_directory args) +:+
               "' matching '" +:+ npy_pattern args +:+ "' to Parquet. ")) ;;
  scan npy_format ;;
  final_feedback.

(** Lines 82-85: the format, from the file given or from the default. *)
Definition load_format : M variables (gmap string format_value) :=
  text <- match format args with
          | Some p => open_text p
          | None => ret NPY_FORMAT_DEFAULT
          end ;;
  match safe_load text with
  | Some npy_format => ret npy_format
  | None => raise ValueError
  end.

Definition main : M variables unit :=
  npy_format <- load_format ;;
  script npy_format.

Definition run (t : node) : result unit * world * variables :=
  main {| tree := t; calls := []; stdout := [] |} initial.

(** A run with the format already loaded. *)
Definition run_with (npy_format : gmap string format_value) (t : node)
    : result unit * world * variables :=
  script npy_format {| tree := t; calls := []; stdout := [] |} initial.
End Script.
End Npy.

(** * A stand-in for the libraries

    Used to run the scripts on examples.  A text starting with [!] is
    one that pandas and numpy refuse.  Any other text is read by
    [read_csv] as one integer column, a row per character, and by
    [numpy.load] as a matrix of floats with a row per line and a column
    per character. *)
Module Sample.

Definition refused (text : string) : bool := startswith "!" text.

Definition digits (text : string) : list cell :=
  map (fun c => Num (Z.of_nat (nat_of_ascii c) - 48)) (list_ascii_of_string text).

Definition read_csv (text : string) (parse_dates index_col : option string)
    : option DataFrame :=
  if refused text then None
  else Some {| df_index := map (fun i => Num (Z.of_nat i)) (seq 0 (String.length text));
               df_columns := [("Cell Voltage", {| s_dtype := int64; s_values := digits text |})] |}.

(** The lines of a text. *)
Fixpoint lines (cur : string) (text : string) : list string :=
  match text with
  | EmptyString => [String.rev cur]
  | String c rest =>
      if Ascii.eqb c "010" then String.rev cur :: lines "" rest
      else lines (String c cur) rest
  end.

Definition load (text : string) : option NDArray :=
  if refused text then None
  else
    let rows := lines "" text in
    Some (Matrix float64 (String.length (hd "" rows)) (map digits rows)).

Definition to_datetime (s : Series) (unit : string) : option Series :=
  if bool_decide (unit ∈ ["D"; "s"; "ms"; "us"; "ns"])
  then Some {| s_dtype := datetime64;
               s_values := map (fun c => match c with Num z => Timestamp z | _ => c end)
                               (s_values s) |}
  else None.

Definition common (ds : list (option dtype)) : dtype :=
  match ds with
  | Some d :: _ => d
  | _ => float64
  end.

(** A Parquet file, as its magic number around the column names. *)
Definition encode (df : DataFrame) (engine compression : string) : option string :=
  Some ("PAR1" +:+ join "," (labels df) +:+ "PAR1").

Definition load_yaml (text : string) : option (gmap string format_value) :=
  if String.eqb text Npy.NPY_FORMAT_DEFAULT then Some Npy.default_format else None.

#[local] Instance libs : Libs :=
  {| pandas_read_csv := read_csv;
     numpy_load := load;
     pandas_to_datetime := to_datetime;
     numpy_cast := fun _ c => c;
     common_type := common;
     parquet_bytes := encode;
     safe_load := load_yaml;
     glob_compound := fun _ _ _ => Return [] |}.

End Sample.

(** * Auxiliary definitions *)

(** The world before the first call. *)
Definition at_start (t : node) : world := {| tree := t; calls := []; stdout := [] |}.

(** The world after some more calls, and after one more printed line. *)
Definition logged (cs : list call) (w : world) : world :=
  {| tree := tree w; calls := calls w ++ cs; stdout := stdout w |}.

Definition printed (o : output) (w : world) : world :=
  {| tree := tree w; calls := calls w; stdout := stdout w ++ [o] |}.

(** The test of the directory comprehensions, on a given tree. *)
Definition is_directory (t : node) (p : Path) : bool :=
  match lookup_path p t with
  | Some (Dir _) => true
  | _ => false
  end.

Definition hidden (p : Path) : bool := startswith "." (name p).

Definition kept (t : node) (items : list Path) : list Path :=
  filter (fun p => is_directory t p && negb (hidden p) = true) items.

(** What [read_csv] returns on a file of a tree, under the options of
    the command line. *)
Definition parsed `{Libs} (args : Csv.arguments) (t : node) (p : Path) : option DataFrame :=
  match lookup_path p t with
  | Some (File data) =>
      pandas_read_csv data
        (if given (Csv.datetimes args) then Csv.datetimes args else None)
        (if given (Csv.index args) then Csv.index args else None)
  | _ => None
  end.

(** Two formats that agree on every key but [float32]. *)
Definition same_but_float32 (fmt1 fmt2 : gmap string format_value) : Prop :=
  forall key : string, key <> "float32" -> fmt1 !! key = fmt2 !! key.


(** The size [stat] reports for a path of a tree. *)
Definition size_at (t : node) (p : Path) : Z :=
  match lookup_path p t with
  | Some x => st_size x
  | None => 0
  end.

(** The variables after the loop that sums the sizes. *)
Definition after_sizes (t : node) (files : list Path) (v : Csv.variables) : Csv.variables :=
  fold_left (fun v file => Csv.add_original (size_at t file) (Csv.assign_csv_filename file v))
    files v.

(** A property of the variables that a computation keeps whenever it
    returns. *)
Definition keeps {V A} (J : V -> Prop) (m : M V A) : Prop :=
  forall w v, J v ->
    match m w v with
    | (Return _, _, v') => J v'
    | (Raise _, _, _) => True
    end.

(** The counters the summary divides: no file converted, or a positive
    total of Parquet bytes. *)
Definition totals_ok (converted parquet : Z) : Prop :=
  0 <= converted /\ 0 <= parquet /\ (converted <> 0 -> parquet <> 0).

Definition csv_ok (v : Csv.variables) : Prop :=
  totals_ok (Csv.num_files_converted v) (Csv.parquet_sizes v).

Definition npy_ok (v : Npy.variables) : Prop :=
  totals_ok (Npy.num_files_converted v) (Npy.parquet_sizes v).

(** A quantity of the variables that grows by [n] whenever the
    computation returns. *)
Definition adds {V A} (f : V -> Z) (n : Z) (m : M V A) : Prop :=
  forall w v,
    match m w v with
    | (Return _, _, v') => f v' = f v + n
    | (Raise _, _, _) => True
    end.

(** The candidates the tabular script has dealt with: converted,
    skipped, or recorded as empty. *)
Definition csv_handled (v : Csv.variables) : Z :=
  Csv.num_files_converted v + Csv.num_files_skipped v +
  Z.of_nat (length (Csv.empty_directories v)).

Definition npy_handled (v : Npy.variables) : Z :=
  Npy.num_files_converted v + Npy.num_files_skipped v.

(** The table the tabular script writes for the tables it read. *)
Definition written_table `{Libs} (args : Csv.arguments) (dfs : list DataFrame) : DataFrame :=
  rename (replace " " "_") (Csv.precision args (pandas_concat dfs)).

(** The content of a file of a tree. *)
Definition read_file (p : Path) (t : node) : option string :=
  match lookup_path p t with
  | Some (File data) => Some data
  | _ => None
  end.

(** A relation between the world before and the world after, that a
    computation always establishes, whether it returns or raises. *)
Definition always {V A} (R : world -> world -> Prop) (m : M V A) : Prop :=
  forall w v, R w (m w v).1.2.

(** Names that end in a given text. *)
Definition ends_with (ending nm : string) : Prop :=
  exists stem, nm = stem +:+ ending.

(** The files both worlds hold with the same content, among those whose
    name a predicate spares. *)
Definition same_files (spared : string -> Prop) (w w' : world) : Prop :=
  forall q, spared (name q) -> read_file q (tree w') = read_file q (tree w).

(** A relation that holds across every successful write to a path. *)
Definition may_write (R : world -> world -> Prop) (p : Path) : Prop :=
  forall w data t',
    write_file p data (tree w) = Some t' ->
    R w {| tree := t'; calls := calls w; stdout := stdout w |}.

(** Nothing more was printed. *)
Definition same_output (w w' : world) : Prop := stdout w' = stdout w.

(** The first line each script prints. *)
Definition csv_header (args : Csv.arguments) : output :=
  Line ("Converting campaigns in '" +:+ str (Csv.start_directory args) +:+
        "' matching '" +:+ Csv.directory_pattern args +:+ "' to Parquet").

Definition npy_header (args : Npy.arguments) : output :=
  Line ("Converting files in '" +:+ str (Npy.start_directory args) +:+
        "' matching '" +:+ Npy.npy_pattern args +:+ "' to Parquet. ").

(** The lines printed on request after the summary of the tabular
    script. *)
Definition csv_verbose_lines (args : Csv.arguments) (v : Csv.variables) : list output :=
  if Csv.verbose args
  then [Line ""; Line (join newline (Csv.empty_directories v))]
  else [].

(** Column [idx] of a two-dimensional array. *)
Definition column_at (d : dtype) (rows : list (list cell)) (idx : nat) : Series :=
  {| s_dtype := d; s_values := map (fun r => nth idx r NaN) rows |}.



(** ** Sample inputs *)

(** The start directory, as a campaign for the tabular script and as
    a directory of raw arrays for the other, before any conversion... *)
Definition fresh_tree : node :=
  Dir [("C1", Dir [("E1", Dir [("b.csv", File "12"); ("a.csv", File "345")])]);
       ("a.npy", File "1234")].

(** ... and with the outputs of an earlier run in place, the files of
    the experiment having been removed since. *)
Definition converted_tree : node :=
  Dir [("C1", Dir [("E1", Dir []); ("E1.parquet", File "PAR1PAR1")]);
       ("a.npy", File "1234"); ("a.parquet", File "PAR1PAR1")].

(** A campaign whose experiment holds no file, and a campaign that
    holds no experiment. *)
Definition empty_tree : node :=
  Dir [("C1", Dir [("E1", Dir [])]); ("C2", Dir [("notes.txt", File "x")])].


(** The files of an experiment of which the first in sorted order is
    refused by [read_csv]. *)
Definition unreadable_tree : node :=
  Dir [("C1", Dir [("E1", Dir [("b.csv", File "12"); ("a.csv", File "!345")])])].

(** A raw file with three columns, and one that [numpy.load] refuses. *)
Definition narrow_tree : node := Dir [("a.npy", File "123")].
Definition corrupt_tree : node := Dir [("a.npy", File "!")].

(** Outputs of an earlier run beside sources that are still there, and
    the command lines that ask to overwrite them. *)
Definition rerun_tree : node :=
  Dir [("C1", Dir [("E1", Dir [("b.csv", File "12"); ("a.csv", File "345")]);
                   ("E1.parquet", File "old")]);
       ("a.npy", File "1234"); ("a.parquet", File "old")].

Definition csv_overwrite : Csv.arguments :=
  {| Csv.datetimes := None; Csv.index := None; Csv.start_directory := [];
     Csv.overwrite := true; Csv.high_precision := false; Csv.verbose := true;
     Csv.csv_pattern := Csv.GLOB_CSV_PATTERN;
     Csv.directory_pattern := Csv.GLOB_DIRECTORY_PATTERN;
     Csv.subdirectory_pattern := Csv.GLOB_SUBDIRECTORY_PATTERN;
     Csv.parquet_engine := Csv.PARQUET_ENGINE;
     Csv.parquet_compression := Csv.PARQUET_COMPRESSION |}.

Definition npy_overwrite : Npy.arguments :=
  {| Npy.start_directory := []; Npy.overwrite := true;
     Npy.npy_pattern := Npy.GLOB_NPY_PATTERN; Npy.format := None;
     Npy.parquet_engine := Npy.PARQUET_ENGINE;
     Npy.parquet_compression := Npy.PARQUET_COMPRESSION |}.


(** A table with a column of each kind. *)
Definition sample_table : DataFrame :=
  {| df_index := [Num 0; Num 1];
     df_columns :=
       [("Test Time", {| s_dtype := float64; s_values := [Num 1; Num 2] |});
        ("Cycle", {| s_dtype := int64; s_values := [Num 7; Num 7] |});
        ("Step", {| s_dtype := object_; s_values := [Text "rest"; Text "charge"] |})] |}.

(** * Properties *)

(** ** Loops and calls *)

Section Loops.
Context `{Libs} {V : Type}.

Lemma logged_logged cs ds w : logged ds (logged cs w) = logged (cs ++ ds) w.
Proof. unfold logged; simpl. by rewrite <- app_assoc. Qed.

Lemma tree_logged cs w : tree (logged cs w) = tree w.
Proof. done. Qed.

Lemma logged_nil w : logged [] w = w.
Proof. destruct w; unfold logged; simpl. by rewrite app_nil_r. Qed.

Lemma for_each_congr {A} (l : list A) (f g : A -> M V unit) :
  (forall x w v, f x w v = g x w v) ->
  forall w v, for_each l f w v = for_each l g w v.
Proof.
  intros Hfg. induction l as [|x l IH]; intros w v; simpl; [done|].
  unfold bind. rewrite Hfg. destruct (g x w v) as [[[[]|e] w'] v']; auto.
Qed.

(** An exception in the body ends the loop where it is raised. *)
Lemma for_each_raise {A} (l1 l2 : list A) (x : A) (body : A -> M V unit) e w v w1 v1 w2 v2 :
  for_each l1 body w v = (Return tt, w1, v1) ->
  body x w1 v1 = (Raise e, w2, v2) ->
  for_each (l1 ++ x :: l2) body w v = (Raise e, w2, v2).
Proof.
  revert w v. induction l1 as [|y l1 IH]; intros w v; simpl.
  - intros [= <- <-] Hx. unfold bind. by rewrite Hx.
  - unfold bind. destruct (body y w v) as [[[[]|e'] w'] v']; [|done].
    intros Hl Hx. by apply IH.
Qed.

Lemma directories_eq (items : list Path) (w : world) (v : V) :
  directories items w v = (Return (kept (tree w) items), logged (map IsDir items) w, v).
Proof.
  revert w. induction items as [|item rest IH]; intros w.
  - simpl. by rewrite logged_nil.
  - simpl. unfold bind at 1. unfold is_dir at 1. unfold bind, log, read_tree, ret; simpl.
    fold (logged [IsDir item] w).
    specialize (IH (logged [IsDir item] w)). unfold bind in IH. rewrite IH.
    rewrite logged_logged. simpl. f_equal. f_equal.
    change (match lookup_path item (tree w) with Some (Dir _) => true | _ => false end)
      with (is_directory (tree w) item).
    change (startswith "." (name item)) with (hidden item).
    unfold kept. rewrite filter_cons.
    destruct (is_directory (tree w) item && negb (hidden item)); by case_decide.
Qed.

(** The glob returns or raises as the library does; the call is
    logged in both cases. *)
Lemma glob_eq (dir : Path) (pattern : string) (w : world) (v : V) :
  glob dir pattern w v = (globbed dir pattern (tree w), logged [Glob dir pattern] w, v).
Proof.
  unfold glob, bind, log, read_tree. simpl. by destruct (globbed dir pattern (tree w)).
Qed.

Lemma globbed_matching (dir : Path) (pattern : string) (t : node) (found : list Path) :
  globbed dir pattern t = Return found -> matching dir pattern t = found.
Proof. unfold matching. by intros ->. Qed.

(** Paths are found only by a glob that returns. *)
Lemma matching_globbed (dir : Path) (pattern : string) (t : node) :
  matching dir pattern t <> [] -> globbed dir pattern t = Return (matching dir pattern t).
Proof. unfold matching. by destruct (globbed dir pattern t). Qed.




Lemma globbed_empty_pattern (dir : Path) (t : node) : globbed dir "" t = Raise ValueError.
Proof. done. Qed.

Lemma sorted_globbed (dir : Path) (pattern : string) (t : node) :
  sort (matching dir pattern t) <> [] ->
  globbed dir pattern t = Return (matching dir pattern t).
Proof.
  intros Hsort. apply matching_globbed. intros Hnone. apply Hsort. by rewrite Hnone.
Qed.

Lemma exists_eq (p : Path) (w : world) (v : V) :
  exists_ p w v =
  (Return (bool_decide (is_Some (lookup_path p (tree w)))), logged [PathExists p] w, v).
Proof. done. Qed.
End Loops.

(** ** The skip check *)

Section Skip.
Context `{Libs}.

Lemma csv_experiment_skipped (args : Csv.arguments) (e : Path) (w : world) (v : Csv.variables) :
  is_Some (lookup_path (with_suffix e ".parquet") (tree w)) ->
  Csv.overwrite args = false ->
  Csv.experiment args e w v =
  (Return tt, logged [PathExists (with_suffix e ".parquet")] w, Csv.count_skipped v).
Proof.
  intros Hex Hov. unfold Csv.experiment, bind. rewrite exists_eq, Hov.
  by rewrite bool_decide_eq_true_2.
Qed.

Lemma csv_experiment_proceeds (args : Csv.arguments) (e : Path) (w : world) (v : Csv.variables) :
  lookup_path (with_suffix e ".parquet") (tree w) = None \/ Csv.overwrite args = true ->
  Csv.experiment args e w v =
  Csv.convert args e (logged [PathExists (with_suffix e ".parquet")] w) v.
Proof.
  intros Hcase. unfold Csv.experiment, bind. rewrite exists_eq.
  destruct Hcase as [Hno | Hov].
  - rewrite bool_decide_eq_false_2; [done|]. rewrite Hno. by intros [? ?].
  - rewrite Hov. by rewrite andb_false_r.
Qed.

Lemma npy_file_skipped (args : Npy.arguments) fmt (f : Path) (w : world) (v : Npy.variables) :
  is_Some (lookup_path (with_suffix f ".parquet") (tree w)) ->
  Npy.overwrite args = false ->
  Npy.file args fmt f w v =
  (Return tt, logged [PathExists (with_suffix f ".parquet")] w, Npy.count_skipped v).
Proof.
  intros Hex Hov. unfold Npy.file, bind. rewrite exists_eq, Hov.
  by rewrite bool_decide_eq_true_2.
Qed.

Lemma npy_file_proceeds (args : Npy.arguments) fmt (f : Path) (w : world) (v : Npy.variables) :
  lookup_path (with_suffix f ".parquet") (tree w) = None \/ Npy.overwrite args = true ->
  Npy.file args fmt f w v =
  Npy.convert args fmt f (logged [PathExists (with_suffix f ".parquet")] w) v.
Proof.
  intros Hcase. unfold Npy.file, bind. rewrite exists_eq.
  destruct Hcase as [Hno | Hov].
  - rewrite bool_decide_eq_false_2; [done|]. rewrite Hno. by intros [? ?].
  - rewrite Hov. by rewrite andb_false_r.
Qed.

(** C10.  In the tabular script the existence check comes before the
    glob for source files: an experiment directory whose [.parquet]
    sibling exists, overwrite not being requested, is counted as
    skipped; its body logs the existence check and nothing else, so the
    directory is not globbed, and the list of empty directories is left
    as it was, whatever the directory contains. *)
Theorem skipped_before_glob (args : Csv.arguments) (e : Path) (w : world)
    (v : Csv.variables) :
  is_Some (lookup_path (with_suffix e ".parquet") (tree w)) ->
  Csv.overwrite args = false ->
  exists w' v',
    Csv.experiment args e w v = (Return tt, w', v') /\
    Csv.num_files_skipped v' = Csv.num_files_skipped v + 1 /\
    Csv.empty_directories v' = Csv.empty_directories v /\
    (exists cs, calls w' = calls w ++ cs /\
                forall pattern, Glob e pattern ∉ cs).
Proof.
  intros Hex Hov. eexists _, _. split; [by apply csv_experiment_skipped|].
  repeat split. exists [PathExists (with_suffix e ".parquet")]. split; [done|].
  intros pattern Hin. apply list_elem_of_singleton in Hin. discriminate.
Qed.
End Skip.

Lemma skipped_before_glob_witness :
  exists w' v',
    @Csv.experiment Sample.libs Csv.defaults ["C1"; "E1"] (at_start converted_tree) Csv.initial
      = (Return tt, w', v') /\
    Csv.num_files_skipped v' = 1 /\
    Csv.empty_directories v' = [] /\
    (exists cs, calls w' = cs /\ forall pattern, Glob ["C1"; "E1"] pattern ∉ cs).
Proof.
  apply (@skipped_before_glob Sample.libs Csv.defaults ["C1"; "E1"]
           (at_start converted_tree) Csv.initial).
  - vm_compute. eexists. reflexivity.
  - reflexivity.
Defined.

(** ** The summary *)



(** ** Discovery *)

Section Discovery.
Context `{Libs}.



Lemma csv_campaign_eq (args : Csv.arguments) (c : Path) (w : world) (v : Csv.variables)
    (items : list Path) :
  globbed c (Csv.subdirectory_pattern args) (tree w) = Return items ->
  Csv.campaign args c w v =
  (for_each (kept (tree w) items) (Csv.experiment args) ;;
   match kept (tree w) items with
   | [] =>
       modify (Csv.append_empty
                 (str c +:+ ": No subdirectories matching '" +:+
                  Csv.subdirectory_pattern args +:+ "'"))
   | _ => ret tt
   end)%run
    (logged (Glob c (Csv.subdirectory_pattern args) :: map IsDir items) w) v.
Proof.
  intros Hitems. unfold Csv.campaign. unfold bind at 1. rewrite glob_eq, Hitems.
  unfold bind at 1. rewrite directories_eq. rewrite logged_logged. done.
Qed.

End Discovery.





(** On [empty_tree] the run of the tabular script records both empty
    locations and completes. *)
Example csv_run_records_empty_locations :
  @Csv.run Sample.libs Csv.defaults empty_tree =
    (Return tt,
     {| tree := empty_tree;
        calls := [Glob [] "*"; IsDir ["C1"]; IsDir ["C2"];
                  Glob ["C1"] "*"; IsDir ["C1"; "E1"];
                  PathExists ["C1"; "E1.parquet"];
                  Glob ["C1"; "E1"] "*.[Cc][Ss][Vv]"; Glob ["C2"] "*";
                  IsDir ["C2"; "notes.txt"]];
        stdout := [Line "Converting campaigns in '.' matching '*' to Parquet";
                   Line "No files converted."] |},
     {| Csv.original_sizes := 0; Csv.parquet_sizes := 0;
        Csv.num_files_converted := 0; Csv.num_files_skipped := 0;
        Csv.empty_directories :=
          ["C1/E1: No files matching '*.[Cc][Ss][Vv]'";
           "C2: No subdirectories matching '*'"];
        Csv.csv_filename := None |}).
Proof. vm_compute. reflexivity. Qed.

(** X20.  When the glob under the start directory returns and none
    of its items is kept as a campaign directory, the tabular script
    ends in the [AttributeError]; the tree and the variables are
    unchanged. *)
Lemma csv_no_campaign_raises `{Libs} (args : Csv.arguments) (t : node) (items : list Path) :
  globbed (Csv.start_directory args) (Csv.directory_pattern args) t = Return items ->
  kept t items = [] ->
  exists w, Csv.run args t = (Raise (AttributeError "directory"), w, Csv.initial) /\
            tree w = t.
Proof.
  intros Hitems Hnone. unfold Csv.run, Csv.main, Csv.scan, bind, print. rewrite glob_eq.
  simpl. rewrite Hitems. rewrite directories_eq. simpl. rewrite Hnone. simpl.
  eexists. split; done.
Qed.

(** ** A read that fails *)

(** C2 at [unreadable_tree]: [a.csv] is the file whose read fails (the
    last call is its [ReadCsv]; [b.csv] is never read), and the run
    ends with an exception, but the message names [b.csv].  The handler
    reads the module-level [csv_filename], which the loop over the sizes
    left at the last file; the variable of the comprehension is local
    to it. *)
Theorem failed_read_names_last_file :
  @Csv.run Sample.libs Csv.defaults unreadable_tree =
    (Raise (Exception "Failed to read 'C1/E1/b.csv'."),
     {| tree := unreadable_tree;
        calls :=
          [Glob [] "*"; IsDir ["C1"]; Glob ["C1"] "*"; IsDir ["C1"; "E1"];
           PathExists ["C1"; "E1.parquet"]; Glob ["C1"; "E1"] "*.[Cc][Ss][Vv]";
           Stat ["C1"; "E1"; "a.csv"]; Stat ["C1"; "E1"; "b.csv"];
           ReadCsv ["C1"; "E1"; "a.csv"]];
        stdout := [Line "Converting campaigns in '.' matching '*' to Parquet"] |},
     {| Csv.original_sizes := 6; Csv.parquet_sizes := 0;
        Csv.num_files_converted := 0; Csv.num_files_skipped := 0;
        Csv.empty_directories := [];
        Csv.csv_filename := Some ["C1"; "E1"; "b.csv"] |}).
Proof. vm_compute. reflexivity. Qed.

(** ** Writing and reading back *)

Lemma get_entry_dict_set (nm : string) (x : node) (es : list (string * node)) :
  get_entry nm (dict_set nm x es) = Some x.
Proof.
  induction es as [|[n y] es IH]; simpl.
  - by rewrite String.eqb_refl.
  - destruct (String.eqb n nm) eqn:E; simpl; by rewrite E.
Qed.

Lemma lookup_write_file (p : Path) (data : string) (t t' : node) :
  write_file p data t = Some t' -> lookup_path p t' = Some (File data).
Proof.
  revert t t'. induction p as [|nm p IH]; intros t t'; [done|].
  destruct t as [|es]; [by destruct p|].
  destruct p as [|nm' p].
  - simpl. destruct (get_entry nm es) as [[|]|]; intros [= <-]; simpl;
      by rewrite get_entry_dict_set.
  - change (write_file (nm :: nm' :: p) data (Dir es))
      with (match get_entry nm es with
            | Some x =>
                match write_file (nm' :: p) data x with
                | Some x' => Some (Dir (dict_set nm x' es))
                | None => None
                end
            | None => None
            end).
    destruct (get_entry nm es) as [x|]; [|done].
    destruct (write_file (nm' :: p) data x) as [x'|] eqn:Hw; [|done].
    intros [= <-]. change (lookup_path (nm :: nm' :: p) (Dir (dict_set nm x' es)))
      with (match get_entry nm (dict_set nm x' es) with
            | Some y => lookup_path (nm' :: p) y
            | None => None
            end).
    rewrite get_entry_dict_set. by apply IH with x.
Qed.

(** ** The format of the array script *)

Section Format.
Context `{Libs}.

Lemma mapping_same (fmt1 fmt2 : gmap string format_value) (array : NDArray) :
  same_but_float32 fmt1 fmt2 -> Npy.mapping fmt1 array = Npy.mapping fmt2 array.
Proof.
  intros Hsame. unfold Npy.mapping, Npy.column_names, Npy.date_items.
  by rewrite (Hsame "columns"), (Hsame "date_column").
Qed.

Lemma convert_same (args : Npy.arguments) (fmt1 fmt2 : gmap string format_value)
    (f : Path) (w : world) (v : Npy.variables) :
  same_but_float32 fmt1 fmt2 -> Npy.convert args fmt1 f w v = Npy.convert args fmt2 f w v.
Proof.
  intros Hsame. unfold Npy.convert, bind.
  destruct (stat_size f w v) as [[[size|e] w1] v1]; [|done].
  destruct (modify (Npy.add_original size) w1 v1) as [[[[]|e] w2] v2]; [|done].
  destruct (load f w2 v2) as [[[array|e] w3] v3]; [|done].
  by rewrite (mapping_same fmt1 fmt2 array Hsame).
Qed.

Lemma file_same (args : Npy.arguments) (fmt1 fmt2 : gmap string format_value)
    (f : Path) (w : world) (v : Npy.variables) :
  same_but_float32 fmt1 fmt2 -> Npy.file args fmt1 f w v = Npy.file args fmt2 f w v.
Proof.
  intros Hsame. unfold Npy.file, bind.
  destruct (exists_ _ w v) as [[[present|e] w1] v1]; [|done].
  destruct (present && negb (Npy.overwrite args)); [done|].
  by apply convert_same.
Qed.

(** C9.  The array script reads the keys [columns] and [date_column]
    of the format and no other.  For two formats that differ at most in
    what they hold under [float32], the mapping gives the same table on
    every array, and the whole run (result, file tree with every file
    written, calls, output and counters) is the same on every tree. *)
Theorem float32_never_read (args : Npy.arguments)
    (fmt1 fmt2 : gmap string format_value) (t : node) :
  same_but_float32 fmt1 fmt2 ->
  (forall array, Npy.mapping fmt1 array = Npy.mapping fmt2 array) /\
  Npy.run_with args fmt1 t = Npy.run_with args fmt2 t.
Proof.
  intros Hsame. split; [intros array; by apply mapping_same|].
  unfold Npy.run_with, Npy.script, Npy.scan, bind.
  destruct (print _ _ _) as [[[[]|e] w1] v1]; [|done].
  destruct (glob _ _ w1 v1) as [[[files|e] w2] v2]; [|done].
  rewrite (for_each_congr files (Npy.file args fmt1) (Npy.file args fmt2)); [done|].
  intros f w v. by apply file_same.
Qed.
End Format.

Lemma float32_never_read_witness :
  Npy.mapping (H := Sample.libs) Npy.default_format
    (Matrix float64 4 [[Num 0; Num 1; Num 2; Num 3]]) =
  Npy.mapping (H := Sample.libs) (<["float32" := FBool true]> Npy.default_format)
    (Matrix float64 4 [[Num 0; Num 1; Num 2; Num 3]]) /\
  @Npy.run_with Sample.libs Npy.defaults Npy.default_format fresh_tree =
  @Npy.run_with Sample.libs Npy.defaults (<["float32" := FBool true]> Npy.default_format)
    fresh_tree.
Proof.
  pose proof (@float32_never_read Sample.libs Npy.defaults Npy.default_format
                (<["float32" := FBool true]> Npy.default_format) fresh_tree) as Hw.
  destruct Hw as [Hmap Hrun].
  - intros key Hkey. symmetry. by apply lookup_insert_ne.
  - split; [apply Hmap | apply Hrun].
Defined.

(** ** Format mismatch *)

Section Mismatch.
Context `{Libs}.

Lemma stat_size_eq {V : Type} (p : Path) (x : node) (w : world) (v : V) :
  lookup_path p (tree w) = Some x ->
  stat_size p w v = (Return (st_size x), logged [Stat p] w, v).
Proof. intros Hx. unfold stat_size, bind, log, read_tree. simpl. by rewrite Hx. Qed.

Lemma load_eq {V : Type} (p : Path) (data : string) (array : NDArray) (w : world) (v : V) :
  lookup_path p (tree w) = Some (File data) ->
  numpy_load data = Some array ->
  load p w v = (Return array, logged [NumpyLoad p] w, v).
Proof.
  intros Hp Hload. unfold load, bind, log, read_tree. simpl. by rewrite Hp, Hload.
Qed.

Lemma load_refused {V : Type} (p : Path) (data : string) (w : world) (v : V) :
  lookup_path p (tree w) = Some (File data) ->
  numpy_load data = None ->
  load p w v = (Raise (LibraryError (NumpyLoad p)), logged [NumpyLoad p] w, v).
Proof.
  intros Hp Hload. unfold load, bind, log, read_tree. simpl. by rewrite Hp, Hload.
Qed.

(** Fewer columns in the array than names in the format. *)
Lemma column_dict_short (d0 : dtype) (ncols : nat) (rows : list (list cell))
    (names : list string) (idx : nat) (d : list (string * slice)) :
  (idx <= ncols)%nat ->
  (ncols < idx + length names)%nat ->
  Npy.column_dict (Matrix d0 ncols rows) idx names d = Raise IndexError.
Proof.
  revert idx d. induction names as [|nm names IH]; intros idx d Hle Hlt; simpl in *.
  - lia.
  - destruct (Nat.ltb_spec idx ncols) as [Hin|Hout]; [|done].
    apply IH; lia.
Qed.

(** X15.  An array with fewer columns than the format has names does
    not fit: the mapping raises [IndexError] at the first name without
    a column, whatever the rows and the date columns. *)
Lemma mapping_column_count (fmt : gmap string format_value) (names : list string)
    (d0 : dtype) (ncols : nat) (rows : list (list cell)) :
  fmt !! "columns" = Some (FList names) ->
  (ncols < length names)%nat ->
  Npy.mapping fmt (Matrix d0 ncols rows) = Raise IndexError.
Proof.
  intros Hcols Hlt. unfold Npy.mapping, Npy.column_names. rewrite Hcols.
  rewrite column_dict_short; [done | lia | done].
Qed.

(** An array of fewer than two dimensions, with at least one name:
    [array[:, 0]] raises. *)
Lemma mapping_flat (fmt : gmap string format_value) (nm : string) (names : list string) :
  fmt !! "columns" = Some (FList (nm :: names)) ->
  Npy.mapping fmt Flat = Raise IndexError.
Proof. intros Hcols. unfold Npy.mapping, Npy.column_names. by rewrite Hcols. Qed.

Lemma columns_of_block (d : list (string * slice)) (nm : string) :
  (nm, Block) ∈ d -> Npy.columns_of d = None.
Proof.
  induction d as [|[n [s|]] d IH]; simpl.
  - by intros ?%elem_of_nil.
  - intros [[=]|Hin]%elem_of_cons. by rewrite IH.
  - done.
Qed.

Lemma dict_set_block (d : list (string * slice)) (nm n : string) :
  (nm, Block) ∈ d -> (nm, Block) ∈ dict_set n Block d.
Proof.
  induction d as [|[l x] d IH]; simpl; [by intros ?%elem_of_nil|].
  intros [[= <- <-]|Hin]%elem_of_cons.
  - destruct (String.eqb nm n); apply elem_of_cons; by left.
  - destruct (String.eqb l n); apply elem_of_cons; right; auto.
Qed.

Lemma dict_set_elem {A} (d : list (string * A)) (n : string) (x : A) :
  exists l, (l, x) ∈ dict_set n x d.
Proof.
  induction d as [|[l y] d IH]; simpl.
  - exists n. apply elem_of_cons. by left.
  - destruct (String.eqb l n).
    + exists l. apply elem_of_cons. by left.
    + destruct IH as [l' Hl']. exists l'. apply elem_of_cons. by right.
Qed.

Lemma column_dict_stacked (ncols : nat) (names : list string) (idx : nat)
    (d d' : list (string * slice)) (nm : string) :
  (nm, Block) ∈ d ->
  Npy.column_dict (Stacked ncols) idx names d = Return d' ->
  exists nm', (nm', Block) ∈ d'.
Proof.
  revert idx d nm. induction names as [|n names IH]; intros idx d nm Hin; simpl.
  - intros [= <-]. by exists nm.
  - destruct (idx <? ncols)%nat; [|done]. apply (IH _ _ nm). by apply dict_set_block.
Qed.

(** An array of three dimensions or more, with at least one name: the
    columns are cut, or an index is past the second axis, and the
    [DataFrame] constructor refuses what was cut. *)
Lemma mapping_stacked (fmt : gmap string format_value) (nm : string) (names : list string)
    (ncols : nat) :
  fmt !! "columns" = Some (FList (nm :: names)) ->
  Npy.mapping fmt (Stacked ncols) = Raise IndexError \/
  Npy.mapping fmt (Stacked ncols) = Raise ValueError.
Proof.
  intros Hcols. unfold Npy.mapping, Npy.column_names. rewrite Hcols. simpl.
  destruct (0 <? ncols)%nat; [|by left].
  destruct (Npy.column_dict (Stacked ncols) 1 names [(nm, Block)]) as [d'|e] eqn:Hd.
  - right. apply (column_dict_stacked _ _ _ _ _ nm) in Hd as [nm' Hin];
      [|apply elem_of_cons; by left].
    unfold Npy.DataFrame_of. by rewrite (columns_of_block d' nm').
  - left. clear Hcols. revert Hd. generalize 1%nat, [(nm, Block)].
    induction names as [|n names IH]; intros idx d; simpl; [done|].
    destruct (idx <? ncols)%nat; [apply IH | by intros [= <-]].
Qed.

(** A unit that [to_datetime] refuses, among the date columns. *)
Lemma convert_dates_invalid_unit (items : list (string * string)) (nm unit : string)
    (df : DataFrame) :
  (nm, unit) ∈ items ->
  (forall s, pandas_to_datetime s unit = None) ->
  exists e, Npy.convert_dates items df = Raise e.
Proof.
  intros Hin Hbad. revert df. induction items as [|[n u] items IH]; intros df.
  - by apply elem_of_nil in Hin.
  - simpl. destruct (getitem df n) as [s|]; [|by eexists].
    apply elem_of_cons in Hin as [[= <- <-]|Hin].
    + rewrite Hbad. by eexists.
    + destruct (pandas_to_datetime s u); [by apply IH | by eexists].
Qed.

Lemma mapping_invalid_unit (fmt : gmap string format_value)
    (items : list (string * string)) (nm unit : string) (array : NDArray) :
  fmt !! "date_column" = Some (FDict items) ->
  (nm, unit) ∈ items ->
  (forall s, pandas_to_datetime s unit = None) ->
  exists e, Npy.mapping fmt array = Raise e.
Proof.
  intros Hdates Hin Hbad. unfold Npy.mapping.
  destruct (Npy.column_names fmt) as [names|e]; [|by eexists].
  destruct (Npy.column_dict array 0 names []) as [d|e]; [|by eexists].
  destruct (Npy.DataFrame_of d) as [dataframe|e]; [|by eexists].
  unfold Npy.date_items. rewrite Hdates. by eapply convert_dates_invalid_unit.
Qed.

(** A date column that the table does not have. *)
Lemma convert_dates_missing (nm unit : string) (rest : list (string * string))
    (df : DataFrame) :
  getitem df nm = None ->
  Npy.convert_dates ((nm, unit) :: rest) df = Raise (KeyError nm).
Proof. intros Hget. simpl. by rewrite Hget. Qed.

(** The run of the array script ends where the loop over the files
    raises. *)
Lemma npy_run_with_raises (args : Npy.arguments) (fmt : gmap string format_value)
    (t : node) (before after : list Path) (f : Path) (e : exn) (w1 w2 : world)
    (v1 v2 : Npy.variables) :
  matching (Npy.start_directory args) (Npy.npy_pattern args) t = before ++ f :: after ->
  for_each before (Npy.file args fmt)
    (logged [Glob (Npy.start_directory args) (Npy.npy_pattern args)]
       (printed (npy_header args) (at_start t)))
    Npy.initial = (Return tt, w1, v1) ->
  Npy.file args fmt f w1 v1 = (Raise e, w2, v2) ->
  Npy.run_with args fmt t = (Raise e, w2, v2).
Proof.
  intros Hfiles Hbefore Hf. unfold Npy.run_with, Npy.script, Npy.scan.
  unfold bind at 1. unfold print at 1.
  unfold bind at 1. unfold bind at 1. rewrite glob_eq. simpl tree.
  rewrite matching_globbed by (rewrite Hfiles; by destruct before).
  rewrite Hfiles.
  by rewrite (for_each_raise before after f (Npy.file args fmt) e _ _ w1 v1 w2 v2).
Qed.

(** The conversion of a file that does not fit, and of a file that
    [numpy.load] refuses. *)
Lemma npy_convert_mismatch (args : Npy.arguments) (fmt : gmap string format_value)
    (f : Path) (w : world) (v : Npy.variables) (data : string) (array : NDArray)
    (e : exn) (t' : node) :
  lookup_path f (tree w) = Some (File data) ->
  numpy_load data = Some array ->
  Npy.mapping fmt array = Raise e ->
  write_file (with_name f (name f +:+ "_format.yml")) Npy.NPY_FORMAT_DEFAULT (tree w)
    = Some t' ->
  Npy.convert args fmt f w v =
    (Raise (Exception (Npy.does_not_fit f)),
     {| tree := t';
        calls := calls w ++ [Stat f; NumpyLoad f;
                             WriteText (with_name f (name f +:+ "_format.yml"))];
        stdout := stdout w |},
     Npy.add_original (Z.of_nat (String.length data)) v).
Proof.
  intros Hf Hload Hmap Hwrite.
  unfold Npy.convert. unfold bind at 1. rewrite (stat_size_eq f (File data)) by done.
  unfold bind at 1. unfold modify at 1.
  unfold bind at 1. rewrite (load_eq f data array) by done.
  unfold bind at 1. unfold try_except. rewrite Hmap. simpl.
  unfold bind at 1. unfold write_text, Npy.format_file, bind, log, read_tree. simpl.
  rewrite Hwrite. simpl. by rewrite <- !app_assoc.
Qed.

Lemma npy_convert_template_refused (args : Npy.arguments) (fmt : gmap string format_value)
    (f : Path) (w : world) (v : Npy.variables) (data : string) (array : NDArray) (e : exn) :
  lookup_path f (tree w) = Some (File data) ->
  numpy_load data = Some array ->
  Npy.mapping fmt array = Raise e ->
  write_file (with_name f (name f +:+ "_format.yml")) Npy.NPY_FORMAT_DEFAULT (tree w)
    = None ->
  Npy.convert args fmt f w v =
    (Raise (LibraryError (WriteText (with_name f (name f +:+ "_format.yml")))),
     logged [Stat f; NumpyLoad f; WriteText (with_name f (name f +:+ "_format.yml"))] w,
     Npy.add_original (Z.of_nat (String.length data)) v).
Proof.
  intros Hf Hload Hmap Hwrite.
  unfold Npy.convert. unfold bind at 1. rewrite (stat_size_eq f (File data)) by done.
  unfold bind at 1. unfold modify at 1.
  unfold bind at 1. rewrite (load_eq f data array) by done.
  unfold bind at 1. unfold try_except. rewrite Hmap. simpl.
  unfold bind at 1. unfold write_text, Npy.format_file, bind, log, read_tree. simpl.
  rewrite Hwrite. unfold logged. simpl. by rewrite <- !app_assoc.
Qed.

Lemma npy_convert_load_refused (args : Npy.arguments) (fmt : gmap string format_value)
    (f : Path) (w : world) (v : Npy.variables) (data : string) :
  lookup_path f (tree w) = Some (File data) ->
  numpy_load data = None ->
  Npy.convert args fmt f w v =
    (Raise (LibraryError (NumpyLoad f)), logged [Stat f; NumpyLoad f] w,
     Npy.add_original (Z.of_nat (String.length data)) v).
Proof.
  intros Hf Hload.
  unfold Npy.convert. unfold bind at 1. rewrite (stat_size_eq f (File data)) by done.
  unfold bind at 1. unfold modify at 1.
  unfold bind at 1. rewrite (load_refused f data) by done.
  by rewrite logged_logged.
Qed.

(** C3, as the script has it.  [numpy.load] is called before the [try]:
    the handler covers the mapping only.  Take a file that the loop
    reaches (the body returned on the files before it) and does not
    skip.  If [numpy.load] reads it and the mapping of the columns or
    of the dates raises, whatever the exception, the script writes the
    default format text to [<name>_format.yml] beside the file and the
    run ends with the exception that names both files: the template is
    in the tree, nothing is converted, the files after it are not
    looked at and no summary is printed.  If the template cannot be
    written, the run ends with the error of that write.  If
    [numpy.load] itself raises, the run ends with its exception and no
    template is written.  In each case the size of the file has been
    added to the total of original sizes and the other counters are as
    they were before the file. *)
Theorem format_mismatch_writes_template (args : Npy.arguments)
    (fmt : gmap string format_value) (t : node) (before after : list Path) (f : Path)
    (w1 : world) (v1 : Npy.variables) (data : string) :
  matching (Npy.start_directory args) (Npy.npy_pattern args) t = before ++ f :: after ->
  for_each before (Npy.file args fmt)
    (logged [Glob (Npy.start_directory args) (Npy.npy_pattern args)]
       (printed (npy_header args) (at_start t)))
    Npy.initial = (Return tt, w1, v1) ->
  lookup_path (with_suffix f ".parquet") (tree w1) = None \/ Npy.overwrite args = true ->
  lookup_path f (tree w1) = Some (File data) ->
  let template := with_name f (name f +:+ "_format.yml") in
  let reached := [PathExists (with_suffix f ".parquet"); Stat f; NumpyLoad f] in
  let counted := Npy.add_original (Z.of_nat (String.length data)) v1 in
  (forall array e t',
     numpy_load data = Some array ->
     Npy.mapping fmt array = Raise e ->
     write_file template Npy.NPY_FORMAT_DEFAULT (tree w1) = Some t' ->
     Npy.run_with args fmt t =
       (Raise (Exception (Npy.does_not_fit f)),
        {| tree := t'; calls := calls w1 ++ reached ++ [WriteText template];
           stdout := stdout w1 |},
        counted) /\
     lookup_path template t' = Some (File Npy.NPY_FORMAT_DEFAULT)) /\
  (forall array e,
     numpy_load data = Some array ->
     Npy.mapping fmt array = Raise e ->
     write_file template Npy.NPY_FORMAT_DEFAULT (tree w1) = None ->
     Npy.run_with args fmt t =
       (Raise (LibraryError (WriteText template)),
        logged (reached ++ [WriteText template]) w1, counted)) /\
  (numpy_load data = None ->
   Npy.run_with args fmt t =
     (Raise (LibraryError (NumpyLoad f)), logged reached w1, counted)) /\
  (Npy.num_files_converted counted = Npy.num_files_converted v1 /\
   Npy.num_files_skipped counted = Npy.num_files_skipped v1 /\
   Npy.parquet_sizes counted = Npy.parquet_sizes v1 /\
   Npy.original_sizes counted = Npy.original_sizes v1 + Z.of_nat (String.length data)).
Proof.
  intros Hfiles Hbefore Hgo Hf template reached counted.
  assert (lookup_path f (tree (logged [PathExists (with_suffix f ".parquet")] w1))
          = Some (File data)) as Hf' by done.
  split; [|split; [|split]]; [| | |done].
  1: intros array e t' Hload Hmap Hwrite; split.
  - apply (npy_run_with_raises args fmt t before after f _ w1 _ v1 _); try done.
    rewrite npy_file_proceeds by done.
    rewrite (npy_convert_mismatch args fmt f _ v1 data array e t') by done.
    unfold reached. simpl. by rewrite <- app_assoc.
  - by eapply lookup_write_file.
  - intros array e Hload Hmap Hwrite.
    apply (npy_run_with_raises args fmt t before after f _ w1 _ v1 _); try done.
    rewrite npy_file_proceeds by done.
    rewrite (npy_convert_template_refused args fmt f _ v1 data array e) by done.
    by rewrite logged_logged.
  - intros Hload.
    apply (npy_run_with_raises args fmt t before after f _ w1 _ v1 _); try done.
    rewrite npy_file_proceeds by done.
    rewrite (npy_convert_load_refused args fmt f _ v1 data) by done.
    by rewrite logged_logged.
Qed.

(** X21.  An exception in the body of the loop over the files ends
    the run of the array script there: the files after it are not
    looked at and no summary is printed. *)
Lemma npy_run_aborts (args : Npy.arguments) (fmt : gmap string format_value) (t : node)
    (before after : list Path) (f : Path) (e : exn) (w1 w2 : world)
    (v1 v2 : Npy.variables) :
  matching (Npy.start_directory args) (Npy.npy_pattern args) t = before ++ f :: after ->
  for_each before (Npy.file args fmt)
    (logged [Glob (Npy.start_directory args) (Npy.npy_pattern args)]
       (printed (Line ("Converting files in '" +:+ str (Npy.start_directory args) +:+
                       "' matching '" +:+ Npy.npy_pattern args +:+ "' to Parquet. "))
          (at_start t)))
    Npy.initial = (Return tt, w1, v1) ->
  Npy.file args fmt f w1 v1 = (Raise e, w2, v2) ->
  Npy.run_with args fmt t = (Raise e, w2, v2).
Proof.
  intros Hfiles Hbefore Hf. unfold Npy.run_with, Npy.script, Npy.scan.
  unfold bind at 1. unfold print at 1.
  unfold bind at 1. unfold bind at 1. rewrite glob_eq. simpl tree.
  rewrite matching_globbed by (rewrite Hfiles; by destruct before).
  rewrite Hfiles.
  by rewrite (for_each_raise before after f (Npy.file args fmt) e _ _ w1 v1 w2 v2).
Qed.
End Mismatch.

Lemma format_mismatch_writes_template_witness :
  @Npy.run_with Sample.libs Npy.defaults Npy.default_format narrow_tree =
    (Raise (Exception (Npy.does_not_fit ["a.npy"])),
     {| tree := Dir [("a.npy", File "123");
                     ("a.npy_format.yml", File Npy.NPY_FORMAT_DEFAULT)];
        calls := [Glob [] "*.[Nn][Pp][Yy]"; PathExists ["a.parquet"];
                  Stat ["a.npy"]; NumpyLoad ["a.npy"]; WriteText ["a.npy_format.yml"]];
        stdout := [Line "Converting files in '.' matching '*.[Nn][Pp][Yy]' to Parquet. "] |},
     Npy.add_original 3 Npy.initial) /\
  lookup_path ["a.npy_format.yml"]
    (Dir [("a.npy", File "123"); ("a.npy_format.yml", File Npy.NPY_FORMAT_DEFAULT)])
    = Some (File Npy.NPY_FORMAT_DEFAULT).
Proof.
  destruct (@format_mismatch_writes_template Sample.libs Npy.defaults Npy.default_format
              narrow_tree [] [] ["a.npy"]
              (logged [Glob [] Npy.GLOB_NPY_PATTERN]
                 (printed (npy_header Npy.defaults) (at_start narrow_tree)))
              Npy.initial "123") as (Hmismatch & _ & _ & _).
  - reflexivity.
  - reflexivity.
  - left. reflexivity.
  - reflexivity.
  - apply (Hmismatch (Matrix float64 3 [[Num 1; Num 2; Num 3]]) IndexError).
    + reflexivity.
    + vm_compute. reflexivity.
    + vm_compute. reflexivity.
Defined.

(** C3 as stated fails where the load itself fails: on a file that
    [numpy.load] refuses the run ends with the exception of
    [numpy.load], and no template is written (the tree is as it was,
    and the last call is the load). *)
Lemma load_failure_writes_no_template :
  @Npy.run Sample.libs Npy.defaults corrupt_tree =
    (Raise (LibraryError (NumpyLoad ["a.npy"])),
     {| tree := corrupt_tree;
        calls := [Glob [] "*.[Nn][Pp][Yy]"; PathExists ["a.parquet"];
                  Stat ["a.npy"]; NumpyLoad ["a.npy"]];
        stdout := [Line "Converting files in '.' matching '*.[Nn][Pp][Yy]' to Parquet. "] |},
     Npy.add_original 1 Npy.initial).
Proof. vm_compute. reflexivity. Qed.

(** ** The precision step *)


Section Precision.
Context `{Libs}.


Lemma lookup_column_Some (l : string) (s : Series) (cols : list (string * Series)) :
  NoDup cols.*1 -> (l, s) ∈ cols -> lookup_column l cols = Some s.
Proof.
  induction cols as [|[l0 s0] cols IH]; simpl.
  - intros _ Hin. by apply elem_of_nil in Hin.
  - rewrite NoDup_cons, elem_of_cons. intros [Hnotin Hnodup] [[= <- <-]|Hin].
    + by rewrite String.eqb_refl.
    + destruct (String.eqb_spec l0 l) as [->|Hne]; [|auto].
      exfalso. apply Hnotin. by apply (list_elem_of_fmap_2 fst _ (l, s)).
Qed.




End Precision.

Section Downcast.
Context `{Libs}.








End Downcast.

(** ** The order of the files *)


Lemma path_compare_antisym (p q : Path) :
  path_compare p q = CompOpp (path_compare q p).
Proof.
  revert q. induction p as [|a p IH]; intros [|b q]; simpl; try done.
  rewrite (String.compare_antisym a b).
  destruct (String.compare b a); simpl; auto.
Qed.

#[global] Instance path_le_total : Total path_le.
Proof.
  intros p q. unfold path_le. rewrite (path_compare_antisym q p).
  destruct (path_compare p q); simpl; [left | left | right]; discriminate.
Qed.


Lemma name_child (dir : Path) (nm : string) : name (child dir nm) = nm.
Proof. unfold name, child. apply List.last_last. Qed.



(** ** The conversion of an experiment *)

Lemma after_sizes_fields (t : node) (files : list Path) (v : Csv.variables) :
  Csv.original_sizes (after_sizes t files v) =
    Csv.original_sizes v + foldr Z.add 0 (map (size_at t) files) /\
  Csv.parquet_sizes (after_sizes t files v) = Csv.parquet_sizes v /\
  Csv.num_files_converted (after_sizes t files v) = Csv.num_files_converted v /\
  Csv.num_files_skipped (after_sizes t files v) = Csv.num_files_skipped v /\
  Csv.empty_directories (after_sizes t files v) = Csv.empty_directories v /\
  Csv.csv_filename (after_sizes t files v) =
    match last files with Some file => Some file | None => Csv.csv_filename v end.
Proof.
  revert v. induction files as [|f files IH]; intros v; simpl.
  - repeat split. lia.
  - destruct (IH (Csv.add_original (size_at t f) (Csv.assign_csv_filename f v)))
      as (H1 & H2 & H3 & H4 & H5 & H6).
    unfold after_sizes in *. rewrite H1, H2, H3, H4, H5, H6. simpl.
    repeat split; [lia|]. rewrite last_cons. by destruct (last files).
Qed.

Section Convert.
Context `{Libs}.
Variable args : Csv.arguments.

Lemma sizes_loop (files : list Path) (w : world) (v : Csv.variables) :
  Forall (fun f => is_Some (lookup_path f (tree w))) files ->
  for_each files
    (fun file =>
       modify (Csv.assign_csv_filename file) ;;
       size <- stat_size file ;;
       modify (Csv.add_original size))%run w v =
  (Return tt, logged (map Stat files) w, after_sizes (tree w) files v).
Proof.
  revert w v. induction files as [|f files IH]; intros w v Hall; simpl.
  - by rewrite logged_nil.
  - apply Forall_cons in Hall as [[x Hx] Hall].
    unfold bind at 1. unfold bind at 1. unfold modify at 1.
    unfold bind at 1. rewrite (stat_size_eq f x) by done. unfold modify at 1.
    rewrite IH by done. rewrite logged_logged. simpl.
    unfold size_at. by rewrite Hx.
Qed.

Lemma read_csv_eq (f : Path) (w : world) (v : Csv.variables) :
  read_csv f (if given (Csv.datetimes args) then Csv.datetimes args else None)
             (if given (Csv.index args) then Csv.index args else None) w v =
  (match parsed args (tree w) f with
   | Some df => Return df
   | None => Raise (LibraryError (ReadCsv f))
   end, logged [ReadCsv f] w, v).
Proof.
  unfold read_csv, parsed, bind, log, read_tree. simpl.
  destruct (lookup_path f (tree w)) as [[data|]|]; try done.
  by destruct (pandas_read_csv data _ _).
Qed.

Lemma read_all (files : list Path) (dfs : list DataFrame) (t : node) :
  Forall2 (fun f df => parsed args t f = Some df) files dfs ->
  forall (w : world) (v : Csv.variables), tree w = t ->
  comprehension files
    (fun file =>
       read_csv file (if given (Csv.datetimes args) then Csv.datetimes args else None)
                     (if given (Csv.index args) then Csv.index args else None)) w v =
  (Return dfs, logged (map ReadCsv files) w, v).
Proof.
  induction 1 as [|f df files dfs Hf Hall IH]; intros w v Ht; simpl.
  - by rewrite logged_nil.
  - unfold bind at 1. rewrite read_csv_eq, Ht, Hf.
    unfold bind at 1. rewrite (IH (logged [ReadCsv f] w) v Ht). by rewrite logged_logged.
Qed.

(** The comprehension stops at the first file that [read_csv]
    refuses. *)
Lemma read_fails (before after : list Path) (f : Path) (dfs : list DataFrame) (t : node) :
  Forall2 (fun f df => parsed args t f = Some df) before dfs ->
  parsed args t f = None ->
  forall (w : world) (v : Csv.variables), tree w = t ->
  comprehension (before ++ f :: after)
    (fun file =>
       read_csv file (if given (Csv.datetimes args) then Csv.datetimes args else None)
                     (if given (Csv.index args) then Csv.index args else None)) w v =
  (Raise (LibraryError (ReadCsv f)), logged (map ReadCsv (before ++ [f])) w, v).
Proof.
  intros Hall Hf. induction Hall as [|g df before dfs Hg Hall IH]; intros w v Ht; simpl.
  - unfold bind at 1. by rewrite read_csv_eq, Ht, Hf.
  - unfold bind at 1. rewrite read_csv_eq, Ht, Hg.
    unfold bind at 1. rewrite (IH (logged [ReadCsv g] w) v Ht).
    by rewrite logged_logged.
Qed.

Lemma to_parquet_eq {V : Type} (df : DataFrame) (p : Path) (engine compression bytes : string)
    (t' : node) (w : world) (v : V) :
  parquet_bytes df engine compression = Some bytes ->
  write_file p bytes (tree w) = Some t' ->
  to_parquet df p engine compression w v =
  (Return tt, {| tree := t'; calls := calls w ++ [ToParquet p]; stdout := stdout w |}, v).
Proof.
  intros Hbytes Hwrite. unfold to_parquet, bind, log, read_tree. simpl.
  by rewrite Hbytes, Hwrite.
Qed.
End Convert.

Lemma last_default {A} (l : list A) (d : A) : List.last l d = default d (last l).
Proof.
  induction l as [|a l IH]; [done|]. rewrite last_cons.
  destruct l as [|b l]; [done|].
  change (List.last (a :: b :: l) d) with (List.last (b :: l) d).
  rewrite IH. destruct (last (b :: l)) eqn:Hlast; [done|].
  by apply last_None in Hlast.
Qed.

Lemma match_nonempty {A B} (l : list A) (x y : B) :
  l <> [] -> match l with [] => x | _ :: _ => y end = y.
Proof. by destruct l. Qed.

Section Experiment.
Context `{Libs}.
Variable args : Csv.arguments.

Lemma parsed_exists (t : node) (f : Path) (df : DataFrame) :
  parsed args t f = Some df -> is_Some (lookup_path f t).
Proof. unfold parsed. destruct (lookup_path f t); [by eexists | done]. Qed.

Lemma all_parsed_exist (t : node) (files : list Path) (dfs : list DataFrame) :
  Forall2 (fun f df => parsed args t f = Some df) files dfs ->
  Forall (fun f => is_Some (lookup_path f t)) files.
Proof. induction 1; constructor; eauto using parsed_exists. Qed.

(** The body of the loop on an experiment all of whose files are
    read. *)
Lemma csv_convert_success (e : Path) (w : world) (v : Csv.variables)
    (files : list Path) (dfs : list DataFrame) (bytes : string) (t' : node) :
  sort (matching e (Csv.csv_pattern args) (tree w)) = files ->
  files <> [] ->
  Forall2 (fun f df => parsed args (tree w) f = Some df) files dfs ->
  parquet_bytes (rename (replace " " "_") (Csv.precision args (pandas_concat dfs)))
    (Csv.parquet_engine args) (Csv.parquet_compression args) = Some bytes ->
  write_file (with_suffix e ".parquet") bytes (tree w) = Some t' ->
  Csv.convert args e w v =
  (Return tt,
   {| tree := t';
      calls := calls w ++ Glob e (Csv.csv_pattern args) :: map Stat files ++
               map ReadCsv files ++
               [ToParquet (with_suffix e ".parquet"); Stat (with_suffix e ".parquet")];
      stdout := stdout w |},
   Csv.count_converted
     (Csv.add_parquet (Z.of_nat (String.length bytes)) (after_sizes (tree w) files v))).
Proof.
  intros Hsort Hfiles Hread Hbytes Hwrite. unfold Csv.convert.
  unfold bind at 1. rewrite glob_eq, sorted_globbed by (by rewrite Hsort).
  simpl tree. rewrite Hsort.
  destruct files as [|f0 files0]; [done|]. cbv beta iota.
  set (files := f0 :: files0) in *.
  unfold bind at 1. rewrite sizes_loop by (by eapply all_parsed_exist).
  unfold bind at 1. unfold try_except.
  rewrite (read_all args files dfs (tree w)) by done.
  unfold bind at 1. erewrite to_parquet_eq by done.
  unfold bind at 1. erewrite stat_size_eq by (by eapply lookup_write_file).
  unfold bind, modify, logged. simpl. do 3 f_equal.
  by repeat (rewrite <- app_assoc; simpl).
Qed.

(** X19.  Whichever file [read_csv] refuses, the exception names the
    last file of the sorted list: the files before it have been read,
    the ones after it have not, the sizes of all have been added to
    the original total, and nothing is written. *)
Lemma csv_convert_read_failure (e : Path) (w : world) (v : Csv.variables)
    (before after : list Path) (f : Path) (dfs : list DataFrame) :
  sort (matching e (Csv.csv_pattern args) (tree w)) = before ++ f :: after ->
  Forall (fun f => is_Some (lookup_path f (tree w))) (before ++ f :: after) ->
  Forall2 (fun f df => parsed args (tree w) f = Some df) before dfs ->
  parsed args (tree w) f = None ->
  Csv.convert args e w v =
  (Raise (Exception (Csv.failed_to_read args (List.last after f))),
   logged (Glob e (Csv.csv_pattern args) :: map Stat (before ++ f :: after) ++
           map ReadCsv (before ++ [f])) w,
   after_sizes (tree w) (before ++ f :: after) v).
Proof.
  intros Hsort Hexist Hread Hf. unfold Csv.convert.
  unfold bind at 1. rewrite glob_eq, sorted_globbed by (rewrite Hsort; by destruct before).
  simpl tree. rewrite Hsort.
  rewrite match_nonempty by (by destruct before).
  unfold bind at 1. rewrite sizes_loop by done.
  unfold bind at 1. unfold try_except.
  rewrite (read_fails args before after f dfs (tree w)) by done.
  unfold bind at 1. unfold get at 1.
  destruct (after_sizes_fields (tree w) (before ++ f :: after) v) as (_ & _ & _ & _ & _ & Hlast).
  rewrite tree_logged, Hlast, last_app_cons, last_cons.
  rewrite !logged_logged. simpl.
  rewrite last_default. by destruct (last after).
Qed.
End Experiment.

Section Rows.
Context `{Libs}.





End Rows.




(** X18.  The array script on a file that fits: for a file that
    [numpy.load] reads, whose array the mapping accepts and whose
    output can be written, the conversion makes exactly four calls
    (size, load, write, size of the output), writes the bytes of the
    engine to the [.parquet] sibling, adds the length of the file to
    the original total and the length of the output to the Parquet
    total, and counts one more converted file. *)
Lemma npy_convert_success `{Libs} (args : Npy.arguments) (fmt : gmap string format_value)
    (f : Path) (w : world) (v : Npy.variables) (data bytes : string) (array : NDArray)
    (dataframe : DataFrame) (t' : node) :
  lookup_path f (tree w) = Some (File data) ->
  numpy_load data = Some array ->
  Npy.mapping fmt array = Return dataframe ->
  parquet_bytes dataframe (Npy.parquet_engine args) (Npy.parquet_compression args)
    = Some bytes ->
  write_file (with_suffix f ".parquet") bytes (tree w) = Some t' ->
  Npy.convert args fmt f w v =
  (Return tt,
   {| tree := t';
      calls := calls w ++ [Stat f; NumpyLoad f; ToParquet (with_suffix f ".parquet");
                           Stat (with_suffix f ".parquet")];
      stdout := stdout w |},
   Npy.count_converted
     (Npy.add_parquet (Z.of_nat (String.length bytes))
        (Npy.add_original (Z.of_nat (String.length data)) v))).
Proof.
  intros Hf Hload Hmap Hbytes Hwrite. unfold Npy.convert.
  unfold bind at 1. rewrite (stat_size_eq f (File data)) by done.
  unfold bind at 1. unfold modify at 1.
  unfold bind at 1. rewrite (load_eq f data array) by done.
  unfold bind at 1. unfold try_except. rewrite Hmap. simpl Npy.lift. unfold ret at 1.
  unfold bind at 1. erewrite to_parquet_eq by done.
  unfold bind at 1. erewrite stat_size_eq by (by eapply lookup_write_file).
  unfold bind, modify, logged. simpl. do 3 f_equal.
  by repeat (rewrite <- app_assoc; simpl).
Qed.

(** ** The skip check, both ways *)

(** C7.  In both scripts the loop body first asks whether the derived
    output path exists.  If it does and overwrite is not requested, the
    body makes no other call (nothing is globbed, read or written),
    leaves the file tree and the size totals as they were, adds one to
    the count of skipped files and returns, so the loop goes on with
    the next candidate.  If the output is absent or overwrite is
    requested, the body goes on, after the check, with the conversion
    of the candidate: when the sources are read and the output can be
    written, the calls after the check are the glob, the sizes and the
    reads (the size and the load, in the array script) and then the
    write; the output path then holds the bytes just produced, whatever
    it held before; one more file is counted as converted, the count
    of skipped files is as it was, and the size totals grow by the
    sizes of the sources and by the length of the bytes written. *)
Theorem skip_policy `{Libs} (cargs : Csv.arguments) (nargs : Npy.arguments)
    (fmt : gmap string format_value) (e f : Path) (w : world)
    (cv : Csv.variables) (nv : Npy.variables) :
  (is_Some (lookup_path (with_suffix e ".parquet") (tree w)) ->
   Csv.overwrite cargs = false ->
   exists w' v',
     Csv.experiment cargs e w cv = (Return tt, w', v') /\
     calls w' = calls w ++ [PathExists (with_suffix e ".parquet")] /\
     tree w' = tree w /\
     Csv.num_files_skipped v' = Csv.num_files_skipped cv + 1 /\
     Csv.original_sizes v' = Csv.original_sizes cv /\
     Csv.parquet_sizes v' = Csv.parquet_sizes cv /\
     Csv.num_files_converted v' = Csv.num_files_converted cv) /\
  (lookup_path (with_suffix e ".parquet") (tree w) = None \/ Csv.overwrite cargs = true ->
   Csv.experiment cargs e w cv =
     Csv.convert cargs e (logged [PathExists (with_suffix e ".parquet")] w) cv /\
   forall files dfs bytes t',
     sort (matching e (Csv.csv_pattern cargs) (tree w)) = files ->
     files <> [] ->
     Forall2 (fun file df => parsed cargs (tree w) file = Some df) files dfs ->
     parquet_bytes (written_table cargs dfs) (Csv.parquet_engine cargs)
       (Csv.parquet_compression cargs) = Some bytes ->
     write_file (with_suffix e ".parquet") bytes (tree w) = Some t' ->
     Csv.experiment cargs e w cv =
       (Return tt,
        {| tree := t';
           calls := calls w ++ PathExists (with_suffix e ".parquet") ::
                    Glob e (Csv.csv_pattern cargs) :: map Stat files ++
                    map ReadCsv files ++
                    [ToParquet (with_suffix e ".parquet"); Stat (with_suffix e ".parquet")];
           stdout := stdout w |},
        Csv.count_converted
          (Csv.add_parquet (Z.of_nat (String.length bytes))
             (after_sizes (tree w) files cv))) /\
     lookup_path (with_suffix e ".parquet") t' = Some (File bytes) /\
     let v' := Csv.count_converted
                 (Csv.add_parquet (Z.of_nat (String.length bytes))
                    (after_sizes (tree w) files cv)) in
     Csv.num_files_converted v' = Csv.num_files_converted cv + 1 /\
     Csv.num_files_skipped v' = Csv.num_files_skipped cv /\
     Csv.original_sizes v' =
       Csv.original_sizes cv + foldr Z.add 0 (map (size_at (tree w)) files) /\
     Csv.parquet_sizes v' = Csv.parquet_sizes cv + Z.of_nat (String.length bytes)) /\
  (is_Some (lookup_path (with_suffix f ".parquet") (tree w)) ->
   Npy.overwrite nargs = false ->
   exists w' v',
     Npy.file nargs fmt f w nv = (Return tt, w', v') /\
     calls w' = calls w ++ [PathExists (with_suffix f ".parquet")] /\
     tree w' = tree w /\
     Npy.num_files_skipped v' = Npy.num_files_skipped nv + 1 /\
     Npy.original_sizes v' = Npy.original_sizes nv /\
     Npy.parquet_sizes v' = Npy.parquet_sizes nv /\
     Npy.num_files_converted v' = Npy.num_files_converted nv) /\
  (lookup_path (with_suffix f ".parquet") (tree w) = None \/ Npy.overwrite nargs = true ->
   Npy.file nargs fmt f w nv =
     Npy.convert nargs fmt f (logged [PathExists (with_suffix f ".parquet")] w) nv /\
   forall data array dataframe bytes t',
     lookup_path f (tree w) = Some (File data) ->
     numpy_load data = Some array ->
     Npy.mapping fmt array = Return dataframe ->
     parquet_bytes dataframe (Npy.parquet_engine nargs) (Npy.parquet_compression nargs)
       = Some bytes ->
     write_file (with_suffix f ".parquet") bytes (tree w) = Some t' ->
     Npy.file nargs fmt f w nv =
       (Return tt,
        {| tree := t';
           calls := calls w ++ [PathExists (with_suffix f ".parquet"); Stat f; NumpyLoad f;
                                ToParquet (with_suffix f ".parquet");
                                Stat (with_suffix f ".parquet")];
           stdout := stdout w |},
        Npy.count_converted
          (Npy.add_parquet (Z.of_nat (String.length bytes))
             (Npy.add_original (Z.of_nat (String.length data)) nv))) /\
     lookup_path (with_suffix f ".parquet") t' = Some (File bytes) /\
     let v' := Npy.count_converted
                 (Npy.add_parquet (Z.of_nat (String.length bytes))
                    (Npy.add_original (Z.of_nat (String.length data)) nv)) in
     Npy.num_files_converted v' = Npy.num_files_converted nv + 1 /\
     Npy.num_files_skipped v' = Npy.num_files_skipped nv /\
     Npy.original_sizes v' = Npy.original_sizes nv + Z.of_nat (String.length data) /\
     Npy.parquet_sizes v' = Npy.parquet_sizes nv + Z.of_nat (String.length bytes)).
Proof.
  split; [|split; [|split]].
  - intros Hex Hov. eexists _, _. split; [by apply csv_experiment_skipped|]. done.
  - intros Hgo. split; [by apply csv_experiment_proceeds|].
    intros files dfs bytes t' Hsort Hfiles Hread Hbytes Hwrite.
    split; [|split; [by eapply lookup_write_file|]].
    + rewrite csv_experiment_proceeds by done.
      rewrite (csv_convert_success cargs e _ cv files dfs bytes t') by done.
      simpl. by rewrite <- app_assoc.
    + destruct (after_sizes_fields (tree w) files cv) as (H1 & H2 & H3 & H4 & _).
      simpl. by rewrite H1, H2, H3, H4.
  - intros Hex Hov. eexists _, _. split; [by apply npy_file_skipped|]. done.
  - intros Hgo. split; [by apply npy_file_proceeds|].
    intros data array dataframe bytes t' Hf Hload Hmap Hbytes Hwrite.
    split; [|split; [by eapply lookup_write_file | done]].
    rewrite npy_file_proceeds by done. unfold Npy.convert.
    unfold bind at 1. rewrite (stat_size_eq f (File data)) by done.
    unfold bind at 1. unfold modify at 1.
    unfold bind at 1. rewrite (load_eq f data array) by done.
    unfold bind at 1. unfold try_except. rewrite Hmap. simpl Npy.lift. unfold ret at 1.
    unfold bind at 1. erewrite to_parquet_eq by done.
    unfold bind at 1. erewrite stat_size_eq by (by eapply lookup_write_file).
    unfold bind, modify, logged. simpl. do 3 f_equal.
    by repeat (rewrite <- app_assoc; simpl).
Qed.

Lemma skip_policy_witness :
  (exists w' v',
     @Csv.experiment Sample.libs Csv.defaults ["C1"; "E1"] (at_start converted_tree) Csv.initial
       = (Return tt, w', v') /\
     calls w' = [PathExists ["C1"; "E1.parquet"]] /\
     tree w' = converted_tree /\
     Csv.num_files_skipped v' = 1 /\
     Csv.original_sizes v' = 0 /\ Csv.parquet_sizes v' = 0 /\
     Csv.num_files_converted v' = 0) /\
  (exists w' v',
     @Npy.file Sample.libs Npy.defaults Npy.default_format ["a.npy"]
       (at_start converted_tree) Npy.initial = (Return tt, w', v') /\
     calls w' = [PathExists ["a.parquet"]] /\
     tree w' = converted_tree /\
     Npy.num_files_skipped v' = 1 /\
     Npy.original_sizes v' = 0 /\ Npy.parquet_sizes v' = 0 /\
     Npy.num_files_converted v' = 0) /\
  @Csv.experiment Sample.libs csv_overwrite ["C1"; "E1"] (at_start rerun_tree) Csv.initial =
    (Return tt,
     {| tree :=
          Dir [("C1", Dir [("E1", Dir [("b.csv", File "12"); ("a.csv", File "345")]);
                           ("E1.parquet", File "PAR1Cell_VoltagePAR1")]);
               ("a.npy", File "1234"); ("a.parquet", File "old")];
        calls := [PathExists ["C1"; "E1.parquet"]; Glob ["C1"; "E1"] "*.[Cc][Ss][Vv]";
                  Stat ["C1"; "E1"; "a.csv"]; Stat ["C1"; "E1"; "b.csv"];
                  ReadCsv ["C1"; "E1"; "a.csv"]; ReadCsv ["C1"; "E1"; "b.csv"];
                  ToParquet ["C1"; "E1.parquet"]; Stat ["C1"; "E1.parquet"]];
        stdout := [] |},
     {| Csv.original_sizes := 5; Csv.parquet_sizes := 20;
        Csv.num_files_converted := 1; Csv.num_files_skipped := 0;
        Csv.empty_directories := [];
        Csv.csv_filename := Some ["C1"; "E1"; "b.csv"] |}) /\
  @Npy.file Sample.libs npy_overwrite Npy.default_format ["a.npy"]
    (at_start rerun_tree) Npy.initial =
    (Return tt,
     {| tree :=
          Dir [("C1", Dir [("E1", Dir [("b.csv", File "12"); ("a.csv", File "345")]);
                           ("E1.parquet", File "old")]);
               ("a.npy", File "1234");
               ("a.parquet", File "PAR1Time,Current,Voltage,TemperaturePAR1")];
        calls := [PathExists ["a.parquet"]; Stat ["a.npy"]; NumpyLoad ["a.npy"];
                  ToParquet ["a.parquet"]; Stat ["a.parquet"]];
        stdout := [] |},
     {| Npy.original_sizes := 4; Npy.parquet_sizes := 40;
        Npy.num_files_converted := 1; Npy.num_files_skipped := 0 |}).
Proof.
  pose proof (@skip_policy Sample.libs Csv.defaults Npy.defaults Npy.default_format
                ["C1"; "E1"] ["a.npy"] (at_start converted_tree) Csv.initial Npy.initial)
    as (Hc & _ & Hn & _).
  pose proof (@skip_policy Sample.libs csv_overwrite npy_overwrite Npy.default_format
                ["C1"; "E1"] ["a.npy"] (at_start rerun_tree) Csv.initial Npy.initial)
    as (_ & Hc' & _ & Hn').
  split; [apply Hc; [vm_compute; eexists; reflexivity | reflexivity]|].
  split; [apply Hn; [vm_compute; eexists; reflexivity | reflexivity]|].
  destruct (Hc' (or_intror eq_refl)) as [_ Hcsv].
  destruct (Hn' (or_intror eq_refl)) as [_ Hnpy].
  split.
  - refine (proj1 (Hcsv [["C1"; "E1"; "a.csv"]; ["C1"; "E1"; "b.csv"]]
                     [{| df_index := [Num 0; Num 1; Num 2];
                         df_columns :=
                           [("Cell Voltage",
                             {| s_dtype := int64; s_values := [Num 3; Num 4; Num 5] |})] |};
                      {| df_index := [Num 0; Num 1];
                         df_columns :=
                           [("Cell Voltage",
                             {| s_dtype := int64; s_values := [Num 1; Num 2] |})] |}]
                     "PAR1Cell_VoltagePAR1" _ _ _ _ _ _)).
    + vm_compute. reflexivity.
    + discriminate.
    + vm_compute. repeat constructor.
    + vm_compute. reflexivity.
    + vm_compute. reflexivity.
  - refine (proj1 (Hnpy "1234" (Matrix float64 4 [[Num 1; Num 2; Num 3; Num 4]])
                     match @Npy.mapping Sample.libs Npy.default_format
                             (Matrix float64 4 [[Num 1; Num 2; Num 3; Num 4]]) with
                     | Return df => df
                     | Raise _ => sample_table
                     end
                     "PAR1Time,Current,Voltage,TemperaturePAR1" _ _ _ _ _ _)).
    + reflexivity.
    + vm_compute. reflexivity.
    + vm_compute. reflexivity.
    + vm_compute. reflexivity.
    + vm_compute. reflexivity.
Defined.

(** ** An empty pattern *)

(** X23.  An empty pattern is no empty match.  With an empty campaign
    pattern the tabular script, and with an empty file pattern the
    array script, ends with the [ValueError] of the first glob,
    after the header and before anything else: the tree and the
    counters are as at the start and no summary is printed. *)
Theorem empty_pattern_raises `{Libs} (cargs : Csv.arguments) (nargs : Npy.arguments)
    (fmt : gmap string format_value) (t : node) :
  (Csv.directory_pattern cargs = "" ->
   Csv.run cargs t =
     (Raise ValueError,
      {| tree := t; calls := [Glob (Csv.start_directory cargs) ""];
         stdout := [csv_header cargs] |},
      Csv.initial)) /\
  (Npy.npy_pattern nargs = "" ->
   Npy.run_with nargs fmt t =
     (Raise ValueError,
      {| tree := t; calls := [Glob (Npy.start_directory nargs) ""];
         stdout := [npy_header nargs] |},
      Npy.initial)).
Proof.
  split.
  - intros Hempty. unfold Csv.run, Csv.main, Csv.scan, csv_header.
    unfold bind at 1. unfold print at 1. unfold bind at 1. unfold bind at 1.
    rewrite glob_eq, Hempty. reflexivity.
  - intros Hempty. unfold Npy.run_with, Npy.script, Npy.scan, npy_header.
    unfold bind at 1. unfold print at 1. unfold bind at 1. unfold bind at 1.
    rewrite glob_eq, Hempty. reflexivity.
Qed.

(** ** The totals of the summary

    A Parquet file is never empty (it starts and ends with its magic
    number).  With an engine that writes at least one byte, the total of
    Parquet bytes is positive as soon as a file is converted, so the
    division of the summary is defined whenever the traversal
    returns. *)

Section Keeps.
Context `{Libs} {V : Type}.
Implicit Types J : V -> Prop.

Lemma keeps_ret {A} J (a : A) : keeps J (ret a).
Proof. by intros w v HJ. Qed.

Lemma keeps_raise {A} J (e : exn) : keeps J (raise (A := A) e).
Proof. by intros w v HJ. Qed.

Lemma keeps_modify J (f : V -> V) : (forall v, J v -> J (f v)) -> keeps J (modify f).
Proof. intros Hf w v HJ. simpl. auto. Qed.

Lemma keeps_bind {A B} J (m : M V A) (k : A -> M V B) :
  keeps J m -> (forall a, keeps J (k a)) -> keeps J (bind m k).
Proof.
  intros Hm Hk w v HJ. unfold bind. specialize (Hm w v HJ).
  destruct (m w v) as [[[a|e] w'] v']; [|done]. by apply Hk.
Qed.

(** A handler that raises again. *)
Lemma keeps_try {A} J (m : M V A) (handler : exn -> M V A) :
  keeps J m ->
  (forall e w v, exists e' w' v', handler e w v = (Raise e', w', v')) ->
  keeps J (try_except m handler).
Proof.
  intros Hm Hh w v HJ. unfold try_except. specialize (Hm w v HJ).
  destruct (m w v) as [[[a|e] w'] v']; [done|].
  by destruct (Hh e w' v') as (e' & w'' & v'' & ->).
Qed.

Lemma keeps_for_each {A} J (l : list A) (body : A -> M V unit) :
  (forall x, keeps J (body x)) -> keeps J (for_each l body).
Proof.
  intros Hbody. induction l as [|x l IH]; simpl; [apply keeps_ret|].
  apply keeps_bind; auto.
Qed.

Lemma keeps_comprehension {A B} J (l : list A) (f : A -> M V B) :
  (forall x, keeps J (f x)) -> keeps J (comprehension l f).
Proof.
  intros Hf. induction l as [|x l IH]; simpl; [apply keeps_ret|].
  apply keeps_bind; [auto|]. intros y. apply keeps_bind; [auto|]. intros ys. apply keeps_ret.
Qed.

(** The calls leave the variables alone. *)
Lemma keeps_glob J dir pattern : keeps J (glob dir pattern).
Proof. intros w v HJ. rewrite glob_eq. by destruct (globbed dir pattern (tree w)). Qed.

Lemma keeps_exists J p : keeps J (exists_ p).
Proof. by intros w v HJ. Qed.

Lemma keeps_directories J items : keeps J (directories items).
Proof. intros w v HJ. by rewrite directories_eq. Qed.

Lemma keeps_stat_size J p : keeps J (stat_size p).
Proof.
  intros w v HJ. unfold stat_size, bind, log, read_tree. simpl.
  by destruct (lookup_path p (tree w)).
Qed.

Lemma keeps_read_csv J p parse_dates index_col : keeps J (read_csv p parse_dates index_col).
Proof.
  intros w v HJ. unfold read_csv, bind, log, read_tree. simpl.
  destruct (lookup_path p (tree w)) as [[data|]|]; try done.
  by destruct (pandas_read_csv data parse_dates index_col).
Qed.

Lemma keeps_load J p : keeps J (load p).
Proof.
  intros w v HJ. unfold load, bind, log, read_tree. simpl.
  destruct (lookup_path p (tree w)) as [[data|]|]; try done.
  by destruct (numpy_load data).
Qed.

(** Writing a Parquet file and asking for its size: the size is the
    number of bytes the engine produced. *)
Lemma to_parquet_then_stat (df : DataFrame) (p : Path) (engine compression : string)
    (k : Z -> M V unit) (w : world) (v : V) :
  (to_parquet df p engine compression ;; size <- stat_size p ;; k size)%run w v =
  match parquet_bytes df engine compression with
  | Some bytes =>
      match write_file p bytes (tree w) with
      | Some t' =>
          k (Z.of_nat (String.length bytes))
            {| tree := t'; calls := calls w ++ [ToParquet p; Stat p]; stdout := stdout w |} v
      | None => (Raise (LibraryError (ToParquet p)), logged [ToParquet p] w, v)
      end
  | None => (Raise (LibraryError (ToParquet p)), logged [ToParquet p] w, v)
  end.
Proof.
  unfold bind at 1. unfold to_parquet, bind at 1, log at 1, bind at 1, read_tree at 1. simpl.
  destruct (parquet_bytes df engine compression) as [bytes|]; [|done].
  destruct (write_file p bytes (tree w)) as [t'|] eqn:Hwrite; [|done]. simpl.
  unfold bind at 1. erewrite stat_size_eq by (by eapply lookup_write_file).
  unfold logged. simpl. by rewrite <- app_assoc.
Qed.
End Keeps.

Section Totals.
Context `{Libs}.
Hypothesis parquet_not_empty :
  forall df engine compression bytes,
    parquet_bytes df engine compression = Some bytes -> bytes <> "".

Lemma length_not_empty (bytes : string) : bytes <> "" -> 0 < Z.of_nat (String.length bytes).
Proof. destruct bytes; [done|]. simpl. lia. Qed.

Lemma csv_keeps_convert (args : Csv.arguments) (e : Path) : keeps csv_ok (Csv.convert args e).
Proof.
  unfold Csv.convert. apply keeps_bind; [apply keeps_glob|]. intros found.
  destruct (sort found) as [|f0 files0]; [by apply keeps_modify|].
  apply keeps_bind.
  { apply keeps_for_each. intros file. apply keeps_bind; [by apply keeps_modify|].
    intros _. apply keeps_bind; [apply keeps_stat_size|]. intros size.
    by apply keeps_modify. }
  intros _. apply keeps_bind.
  { apply keeps_try.
    - apply keeps_comprehension. intros file. apply keeps_read_csv.
    - intros err w v. unfold bind, get. destruct (Csv.csv_filename v); by eexists _, _, _. }
  intros dataframes w v Hok. rewrite to_parquet_then_stat.
  destruct (parquet_bytes _ _ _) as [bytes|] eqn:Hbytes; [|done].
  destruct (write_file _ bytes (tree w)); [|done].
  apply parquet_not_empty, length_not_empty in Hbytes.
  unfold bind, modify; simpl. destruct Hok as (Hc & Hp & Hcp).
  unfold csv_ok, totals_ok; simpl. lia.
Qed.

Lemma csv_keeps_experiment (args : Csv.arguments) (e : Path) :
  keeps csv_ok (Csv.experiment args e).
Proof.
  unfold Csv.experiment. apply keeps_bind; [apply keeps_exists|]. intros present.
  destruct (present && negb (Csv.overwrite args)); [by apply keeps_modify|].
  apply csv_keeps_convert.
Qed.

Lemma csv_keeps_scan (args : Csv.arguments) : keeps csv_ok (Csv.scan args).
Proof.
  unfold Csv.scan. apply keeps_bind; [apply keeps_glob|]. intros items.
  apply keeps_bind; [apply keeps_directories|]. intros campaign_directories.
  apply keeps_bind.
  { apply keeps_for_each. intros c. unfold Csv.campaign.
    apply keeps_bind; [apply keeps_glob|]. intros items'.
    apply keeps_bind; [apply keeps_directories|]. intros experiment_directories.
    apply keeps_bind; [apply keeps_for_each, csv_keeps_experiment|]. intros _.
    destruct experiment_directories; [by apply keeps_modify | apply keeps_ret]. }
  intros _. destruct campaign_directories; [apply keeps_raise | apply keeps_ret].
Qed.

Lemma npy_keeps_scan (args : Npy.arguments) (fmt : gmap string format_value) :
  keeps npy_ok (Npy.scan args fmt).
Proof.
  unfold Npy.scan. apply keeps_bind; [apply keeps_glob|]. intros files.
  apply keeps_for_each. intros f. unfold Npy.file.
  apply keeps_bind; [apply keeps_exists|]. intros present.
  destruct (present && negb (Npy.overwrite args)); [by apply keeps_modify|].
  unfold Npy.convert. apply keeps_bind; [apply keeps_stat_size|]. intros size.
  apply keeps_bind; [by apply keeps_modify|]. intros _.
  apply keeps_bind; [apply keeps_load|]. intros array.
  apply keeps_bind.
  { apply keeps_try.
    - destruct (Npy.mapping fmt array); [apply keeps_ret | apply keeps_raise].
    - intros err w v. unfold bind, write_text, bind, log, read_tree. simpl.
      destruct (write_file _ _ (tree w)); by eexists _, _, _. }
  intros dataframe w v Hok. rewrite to_parquet_then_stat.
  destruct (parquet_bytes _ _ _) as [bytes|] eqn:Hbytes; [|done].
  destruct (write_file _ bytes (tree w)); [|done].
  apply parquet_not_empty, length_not_empty in Hbytes.
  unfold bind, modify; simpl. destruct Hok as (Hc & Hp & Hcp).
  unfold npy_ok, totals_ok; simpl. lia.
Qed.

(** X16.  When the traversal of the tabular script returns, the
    summary prints its line: with an engine that never writes an empty
    file, the division by the total of Parquet bytes is never a
    division by zero. *)
Lemma csv_summary_printed (args : Csv.arguments) (w w' : world) (v' : Csv.variables) :
  Csv.scan args w Csv.initial = (Return tt, w', v') ->
  exists o, Csv.final_feedback args w' v' = (Return tt, printed o w', v').
Proof.
  intros Hscan. pose proof (csv_keeps_scan args w Csv.initial) as Hok.
  rewrite Hscan in Hok. destruct Hok as (_ & _ & Hcp).
  { unfold csv_ok, totals_ok; simpl. lia. }
  unfold Csv.final_feedback, bind, get.
  destruct (Z.eqb_spec (Csv.num_files_converted v') 0) as [Hc|Hc]; simpl.
  - destruct (negb (Csv.overwrite args) && negb (Z.eqb (Csv.num_files_skipped v') 0));
      by eexists.
  - destruct (Z.eqb_spec (Csv.parquet_sizes v') 0) as [Hp|Hp]; [by apply Hcp in Hc|].
    by eexists.
Qed.

(** X17.  The same for the array script: when its traversal returns,
    the summary prints its line. *)
Lemma npy_summary_printed (args : Npy.arguments) (fmt : gmap string format_value)
    (w w' : world) (v' : Npy.variables) :
  Npy.scan args fmt w Npy.initial = (Return tt, w', v') ->
  exists o, Npy.final_feedback args w' v' = (Return tt, printed o w', v').
Proof.
  intros Hscan. pose proof (npy_keeps_scan args fmt w Npy.initial) as Hok.
  rewrite Hscan in Hok. destruct Hok as (_ & _ & Hcp).
  { unfold npy_ok, totals_ok; simpl. lia. }
  unfold Npy.final_feedback, bind, get.
  destruct (Z.eqb_spec (Npy.num_files_converted v') 0) as [Hc|Hc]; simpl.
  - destruct (negb (Npy.overwrite args) && negb (Z.eqb (Npy.num_files_skipped v') 0));
      by eexists.
  - destruct (Z.eqb_spec (Npy.parquet_sizes v') 0) as [Hp|Hp]; [by apply Hcp in Hc|].
    by eexists.
Qed.
End Totals.

(** * Further properties *)

(** ** Column names *)

Lemma replace_length (old new : ascii) (s : string) :
  String.length (replace old new s) = String.length s.
Proof. induction s as [|a s IH]; simpl; [done | by rewrite IH]. Qed.

Lemma replace_get (old new : ascii) (s : string) (i : nat) :
  String.get i (replace old new s) =
  (fun c => if Ascii.eqb c old then new else c) <$> String.get i s.
Proof.
  revert i. induction s as [|a s IH]; intros i; simpl; [done|].
  destruct i; [done | apply IH].
Qed.

(** X1.  The renaming of lines 213-218 changes the labels only: the
    row labels and the columns' contents and order stay; each label
    becomes the label with every space turned into an underscore, of
    the same length, every other character in place, and no space
    left. *)
Theorem column_names_sanitized (df : DataFrame) :
  df_index (rename (replace " " "_") df) = df_index df /\
  (df_columns (rename (replace " " "_") df)).*2 = (df_columns df).*2 /\
  labels (rename (replace " " "_") df) = map (replace " " "_") (labels df) /\
  forall (l : string) (i : nat),
    String.length (replace " " "_" l) = String.length l /\
    String.get i (replace " " "_" l) =
      (fun c => if Ascii.eqb c " " then "_"%char else c) <$> String.get i l /\
    String.get i (replace " " "_" l) <> Some " "%char.
Proof.
  split; [done|]. split; [|split].
  - unfold rename; simpl. induction (df_columns df) as [|[l s] cols IH]; [done|].
    cbn. by f_equal.
  - unfold labels, rename; simpl. induction (df_columns df) as [|[l s] cols IH]; [done|].
    cbn. by f_equal.
  - intros l i. split; [apply replace_length|]. split; [apply replace_get|].
    rewrite replace_get. destruct (String.get i l) as [c|]; simpl; [|done].
    destruct (Ascii.eqb_spec c " ") as [->|Hc]; [done|]. congruence.
Qed.

(** ** Output paths *)

Lemma string_app_length (a b : string) :
  String.length (a +:+ b) = (String.length a + String.length b)%nat.
Proof. induction a as [|c a IH]; simpl; [done | by rewrite IH]. Qed.

Lemma substring_all (s : string) : String.substring 0 (String.length s) s = s.
Proof. induction s as [|c s IH]; simpl; [done | by rewrite IH]. Qed.

Lemma substring_app_l (a b : string) :
  String.substring 0 (String.length a) (a +:+ b) = a.
Proof. induction a as [|c a IH]; simpl; [by destruct b | by rewrite IH]. Qed.

Lemma substring_app_r (a b : string) :
  String.substring (String.length a) (String.length b) (a +:+ b) = b.
Proof. induction a as [|c a IH]; simpl; [apply substring_all | done]. Qed.

(** The last dot of [a.ext], [ext] having none, is the one written. *)
Lemma rfind_app_dot (a ext : string) :
  rfind "." ext = None ->
  rfind "." (a +:+ "." +:+ ext) = Some (String.length a).
Proof.
  intros Hext. induction a as [|c a IH].
  - change (rfind "." ("" +:+ "." +:+ ext))
      with (match rfind "." ext with
            | Some i => Some (S i)
            | None => Some 0%nat
            end).
    by rewrite Hext.
  - change (rfind "." (String c a +:+ "." +:+ ext))
      with (match rfind "." (a +:+ "." +:+ ext) with
            | Some i => Some (S i)
            | None => if Ascii.eqb c "." then Some 0%nat else None
            end).
    by rewrite IH.
Qed.

Lemma with_suffix_child (dir : Path) (nm suf : string) :
  with_suffix (child dir nm) suf =
  child dir (String.substring 0 (String.length nm - String.length (suffix nm)) nm +:+ suf).
Proof.
  unfold with_suffix, with_name. rewrite name_child. unfold child.
  destruct (dir ++ [nm]) eqn:Hp; [by destruct dir|]. rewrite <- Hp.
  by rewrite removelast_last.
Qed.

(** X2.  The output of a candidate lies in the candidate's own
    directory.  A name with no dot gets the suffix appended; a name
    [stem.ext] with a non-empty stem and a non-empty extension without
    dot has the extension replaced.  So the experiment directories
    [E] and [E.ext] of one campaign have the same output path. *)
Theorem output_beside_candidate (dir : Path) (stem ext suf : string) :
  rfind "." stem = None ->
  rfind "." ext = None ->
  stem <> "" ->
  ext <> "" ->
  with_suffix (child dir stem) suf = child dir (stem +:+ suf) /\
  with_suffix (child dir (stem +:+ "." +:+ ext)) suf = child dir (stem +:+ suf) /\
  child dir stem <> child dir (stem +:+ "." +:+ ext).
Proof.
  intros Hstem Hext Hs He. split; [|split].
  - rewrite with_suffix_child. unfold suffix. rewrite Hstem. simpl.
    by rewrite Nat.sub_0_r, substring_all.
  - rewrite with_suffix_child. unfold suffix. rewrite (rfind_app_dot stem ext Hext).
    rewrite !string_app_length. simpl String.length.
    assert (0 < String.length stem)%nat as H0 by (destruct stem; [done | simpl; lia]).
    assert (0 < String.length ext)%nat as H1 by (destruct ext; [done | simpl; lia]).
    rewrite (proj2 (Nat.ltb_lt _ _) H0).
    rewrite (proj2 (Nat.ltb_lt (String.length stem) _)) by lia. simpl andb. cbv iota.
    assert (String.length ("." +:+ ext) = S (String.length ext)) as Hlen by reflexivity.
    replace (String.length stem + S (String.length ext) - String.length stem)%nat
      with (S (String.length ext)) by lia.
    rewrite <- Hlen, substring_app_r, Hlen.
    replace (String.length stem + (1 + String.length ext) - S (String.length ext))%nat
      with (String.length stem) by lia.
    by rewrite substring_app_l.
  - unfold child. intros Heq. apply app_inj_tail in Heq as [_ Heq].
    apply (f_equal String.length) in Heq. rewrite !string_app_length in Heq.
    simpl in Heq. lia.
Qed.

Lemma output_beside_candidate_witness :
  with_suffix ["C1"; "E1"] ".parquet" = ["C1"; "E1.parquet"] /\
  with_suffix ["C1"; "E1.old"] ".parquet" = ["C1"; "E1.parquet"] /\
  ["C1"; "E1"] <> ["C1"; "E1.old"].
Proof.
  apply (output_beside_candidate ["C1"] "E1" "old" ".parquet");
    [reflexivity | reflexivity | discriminate | discriminate].
Defined.

(** ** The default patterns *)

Lemma match_star_nil (ts : list glob_token) :
  match_tokens (GStar :: ts) [] = match_tokens ts [] || false.
Proof. done. Qed.

Lemma match_star_cons (ts : list glob_token) (c : ascii) (s : list ascii) :
  match_tokens (GStar :: ts) (c :: s) =
  match_tokens ts (c :: s) || match_tokens (GStar :: ts) s.
Proof. done. Qed.

(** A star takes any prefix. *)
Lemma match_star (ts : list glob_token) (s : list ascii) :
  match_tokens (GStar :: ts) s = true <->
  exists s1 s2, s = s1 ++ s2 /\ match_tokens ts s2 = true.
Proof.
  induction s as [|c s IH].
  - rewrite match_star_nil, orb_false_r. split.
    + intros Hm. by exists [], [].
    + intros (s1 & s2 & Heq & Hm). symmetry in Heq.
      apply app_eq_nil in Heq as [_ ->]. done.
  - rewrite match_star_cons, orb_true_iff, IH. split.
    + intros [Hm | (s1 & s2 & -> & Hm)].
      * by exists [], (c :: s).
      * by exists (c :: s1), s2.
    + intros (s1 & s2 & Heq & Hm). destruct s1 as [|c' s1]; simpl in Heq.
      * left. by rewrite Heq.
      * injection Heq as -> ->. right. by exists s1, s2.
Qed.

Lemma match_star_only (s : list ascii) : match_tokens [GStar] s = true.
Proof. apply match_star. exists s, []. by rewrite app_nil_r. Qed.

Lemma match_nil (s : list ascii) : match_tokens [] s = true <-> s = [].
Proof. by destruct s. Qed.

Lemma match_lit (a : ascii) (ts : list glob_token) (s : list ascii) :
  match_tokens (GLit a :: ts) s = true <->
  exists s', s = a :: s' /\ match_tokens ts s' = true.
Proof.
  destruct s as [|c s].
  - split; [discriminate | by intros (? & [=] & _)].
  - change (match_tokens (GLit a :: ts) (c :: s))
      with (Ascii.eqb a c && match_tokens ts s).
    rewrite andb_true_iff, Ascii.eqb_eq. split.
    + intros [<- Hm]. by exists s.
    + by intros (s' & [= <- <-] & Hm).
Qed.

Lemma match_class2 (x1 x2 : ascii) (ts : list glob_token) (s : list ascii) :
  match_tokens (GClass false [x1; x2] :: ts) s = true <->
  exists c s', s = c :: s' /\ (c = x1 \/ c = x2) /\ match_tokens ts s' = true.
Proof.
  destruct s as [|c s].
  - split; [discriminate | by intros (? & ? & [=] & _)].
  - change (match_tokens (GClass false [x1; x2] :: ts) (c :: s))
      with (xorb false (Ascii.eqb x1 c || (Ascii.eqb x2 c || false)) && match_tokens ts s).
    rewrite xorb_false_l, orb_false_r, andb_true_iff, orb_true_iff, !Ascii.eqb_eq. split.
    + intros [Hc Hm]. exists c, s. split; [done|]. split; [|done].
      destruct Hc as [<- | <-]; auto.
    + intros (c' & s' & [= <- <-] & Hc & Hm). split; [|done].
      destruct Hc as [-> | ->]; auto.
Qed.

(** A dot and three letters, each in one of two cases. *)
Lemma match_extension (x1 x2 y1 y2 z1 z2 : ascii) (s : list ascii) :
  match_tokens [GLit "."; GClass false [x1; x2]; GClass false [y1; y2];
                GClass false [z1; z2]] s = true <->
  exists c1 c2 c3,
    s = ["."%char; c1; c2; c3] /\
    (c1 = x1 \/ c1 = x2) /\ (c2 = y1 \/ c2 = y2) /\ (c3 = z1 \/ c3 = z2).
Proof.
  rewrite match_lit. split.
  - intros (s1 & -> & Hm). apply match_class2 in Hm as (c1 & s2 & -> & H1 & Hm).
    apply match_class2 in Hm as (c2 & s3 & -> & H2 & Hm).
    apply match_class2 in Hm as (c3 & s4 & -> & H3 & Hm).
    apply match_nil in Hm as ->. by exists c1, c2, c3.
  - intros (c1 & c2 & c3 & -> & H1 & H2 & H3). eexists. split; [done|].
    apply match_class2. eexists _, _. split; [done|]. split; [done|].
    apply match_class2. eexists _, _. split; [done|]. split; [done|].
    apply match_class2. eexists _, _. split; [done|]. split; [done|]. done.
Qed.

Lemma list_ascii_app (a b : string) :
  list_ascii_of_string (a +:+ b) = list_ascii_of_string a ++ list_ascii_of_string b.
Proof. induction a as [|c a IH]; simpl; [done | by rewrite IH]. Qed.

Lemma string_of_list_app (a b : list ascii) :
  string_of_list_ascii (a ++ b) = string_of_list_ascii a +:+ string_of_list_ascii b.
Proof. induction a as [|c a IH]; simpl; [done | by rewrite IH]. Qed.

(** A name matches [*.[Xx][Yy][Zz]] when it is any text, the empty one
    included, followed by a dot and the three letters in either case. *)
Lemma fnmatch_extension (x1 x2 y1 y2 z1 z2 : ascii) (nm : string) :
  match_tokens [GStar; GLit "."; GClass false [x1; x2]; GClass false [y1; y2];
                GClass false [z1; z2]] (list_ascii_of_string nm) = true <->
  exists stem c1 c2 c3,
    nm = stem +:+ String "." (String c1 (String c2 (String c3 ""))) /\
    (c1 = x1 \/ c1 = x2) /\ (c2 = y1 \/ c2 = y2) /\ (c3 = z1 \/ c3 = z2).
Proof.
  rewrite match_star. split.
  - intros (s1 & s2 & Heq & Hm). apply match_extension in Hm as (c1 & c2 & c3 & -> & Hc).
    exists (string_of_list_ascii s1), c1, c2, c3. split; [|done].
    rewrite <- (string_of_list_ascii_of_string nm), Heq. by rewrite string_of_list_app.
  - intros (stem & c1 & c2 & c3 & -> & Hc).
    exists (list_ascii_of_string stem), ["."%char; c1; c2; c3].
    split; [by rewrite list_ascii_app|]. apply match_extension. by exists c1, c2, c3.
Qed.

(** X3.  The default patterns.  The directory and subdirectory
    patterns match every name.  The CSV pattern matches exactly the
    names that end in a dot followed by [csv] in any mix of cases, and
    the raw-array pattern the same with [npy]; nothing is asked of what
    precedes the dot, which may be empty or start with a dot. *)
Theorem default_patterns (nm : string) :
  fnmatch nm Csv.GLOB_DIRECTORY_PATTERN = true /\
  fnmatch nm Csv.GLOB_SUBDIRECTORY_PATTERN = true /\
  (fnmatch nm Csv.GLOB_CSV_PATTERN = true <->
   exists stem c1 c2 c3,
     nm = stem +:+ String "." (String c1 (String c2 (String c3 ""))) /\
     (c1 = "C" \/ c1 = "c")%char /\ (c2 = "S" \/ c2 = "s")%char /\
     (c3 = "V" \/ c3 = "v")%char) /\
  (fnmatch nm Npy.GLOB_NPY_PATTERN = true <->
   exists stem c1 c2 c3,
     nm = stem +:+ String "." (String c1 (String c2 (String c3 ""))) /\
     (c1 = "N" \/ c1 = "n")%char /\ (c2 = "P" \/ c2 = "p")%char /\
     (c3 = "Y" \/ c3 = "y")%char).
Proof.
  split; [apply match_star_only|]. split; [apply match_star_only|].
  split; apply fnmatch_extension.
Qed.

(** ** What the body of the experiment loop can return *)

Section Outcomes.
Context `{Libs}.
Variable args : Csv.arguments.

Lemma stat_size_missing {V : Type} (p : Path) (w : world) (v : V) :
  lookup_path p (tree w) = None ->
  stat_size p w v = (Raise (LibraryError (Stat p)), logged [Stat p] w, v).
Proof. intros Hp. unfold stat_size, bind, log, read_tree. simpl. by rewrite Hp. Qed.

Lemma sizes_loop_returns (files : list Path) (w w1 : world) (v v1 : Csv.variables) :
  for_each files
    (fun file =>
       modify (Csv.assign_csv_filename file) ;;
       size <- stat_size file ;;
       modify (Csv.add_original size))%run w v = (Return tt, w1, v1) ->
  w1 = logged (map Stat files) w /\ v1 = after_sizes (tree w) files v.
Proof.
  revert w v. induction files as [|f files IH]; intros w v; simpl.
  - intros [= <- <-]. by rewrite logged_nil.
  - unfold bind at 1. unfold bind at 1. unfold modify at 1.
    unfold bind at 1. destruct (lookup_path f (tree w)) as [x|] eqn:Hx.
    + rewrite (stat_size_eq f x) by done. unfold modify at 1.
      intros Hrest. apply IH in Hrest as [-> ->]. split.
      * by rewrite logged_logged.
      * simpl. unfold size_at. by rewrite Hx.
    + rewrite stat_size_missing by done. discriminate.
Qed.

Lemma read_all_returns (files : list Path) (dfs : list DataFrame) (w w1 : world)
    (v v1 : Csv.variables) :
  comprehension files
    (fun file =>
       read_csv file (if given (Csv.datetimes args) then Csv.datetimes args else None)
                     (if given (Csv.index args) then Csv.index args else None)) w v
    = (Return dfs, w1, v1) ->
  w1 = logged (map ReadCsv files) w /\ v1 = v /\
  Forall2 (fun f df => parsed args (tree w) f = Some df) files dfs.
Proof.
  revert dfs w. induction files as [|f files IH]; intros dfs w; simpl.
  - intros [= <- <- <-]. by rewrite logged_nil.
  - unfold bind at 1. rewrite read_csv_eq.
    destruct (parsed args (tree w) f) as [df|] eqn:Hf; [|discriminate].
    unfold bind at 1.
    destruct (comprehension files _ (logged [ReadCsv f] w) v) as [[[dfs'|e] w2] v2] eqn:Hrest;
      [|discriminate].
    intros [= <- <- <-]. apply IH in Hrest as (-> & -> & Hall).
    rewrite logged_logged. split; [done|]. split; [done|]. by constructor.
Qed.

(** The conversion returns only after recording an empty experiment,
    or after reading every file and writing the output. *)
Lemma csv_convert_returns (e : Path) (w w' : world) (v v' : Csv.variables) :
  Csv.convert args e w v = (Return tt, w', v') ->
  let files := sort (matching e (Csv.csv_pattern args) (tree w)) in
  (files = [] /\ tree w' = tree w /\
   v' = Csv.append_empty
          (str e +:+ ": No files matching '" +:+ Csv.csv_pattern args +:+ "'") v) \/
  (files <> [] /\
   exists dfs bytes,
     Forall2 (fun f df => parsed args (tree w) f = Some df) files dfs /\
     parquet_bytes (written_table args dfs) (Csv.parquet_engine args)
       (Csv.parquet_compression args) = Some bytes /\
     write_file (with_suffix e ".parquet") bytes (tree w) = Some (tree w') /\
     v' = Csv.count_converted
            (Csv.add_parquet (Z.of_nat (String.length bytes))
               (after_sizes (tree w) files v))).
Proof.
  unfold Csv.convert. unfold bind at 1. rewrite glob_eq.
  destruct (globbed e (Csv.csv_pattern args) (tree w)) as [found|e0] eqn:Hglob;
    [|simpl; discriminate].
  rewrite (globbed_matching _ _ _ _ Hglob). simpl.
  destruct (sort found) as [|f0 files0] eqn:Hsort.
  - intros [= <- <-]. by left.
  - set (files := f0 :: files0). unfold bind at 1.
    destruct (for_each files _ _ v) as [[[[]|e1] w1] v1] eqn:Hsizes; [|discriminate].
    apply sizes_loop_returns in Hsizes as [-> ->].
    unfold bind at 1, try_except.
    destruct (comprehension files _ _ _) as [[[dfs|e2] w2] v2] eqn:Hread.
    + apply read_all_returns in Hread as (-> & -> & Hall).
      rewrite to_parquet_then_stat.
      destruct (parquet_bytes _ _ _) as [bytes|] eqn:Hbytes; [|discriminate].
      destruct (write_file _ bytes _) as [t'|] eqn:Hwrite; [|discriminate].
      unfold bind, modify. intros [= <- <-]. right. split; [done|].
      exists dfs, bytes. done.
    + unfold bind, get. destruct (Csv.csv_filename v2); discriminate.
Qed.

Lemma csv_experiment_returns (e : Path) (w w' : world) (v v' : Csv.variables) :
  Csv.experiment args e w v = (Return tt, w', v') ->
  (is_Some (lookup_path (with_suffix e ".parquet") (tree w)) /\
   Csv.overwrite args = false /\ tree w' = tree w /\ v' = Csv.count_skipped v) \/
  Csv.convert args e (logged [PathExists (with_suffix e ".parquet")] w) v
    = (Return tt, w', v').
Proof.
  destruct (decide (is_Some (lookup_path (with_suffix e ".parquet") (tree w)))) as [Hex|Hno];
    [destruct (Csv.overwrite args) eqn:Hov|].
  - rewrite csv_experiment_proceeds by auto. by right.
  - rewrite csv_experiment_skipped by done. intros [= <- <-]. by left.
  - rewrite csv_experiment_proceeds; [by right|]. left.
    destruct (lookup_path _ (tree w)); [|done]. destruct Hno. by eexists.
Qed.

(** X4.  When the body of the experiment loop returns, one of three
    things has happened, and nothing else: the output existed and
    overwrite was off, and the experiment was counted as skipped; or no
    file matched, and the experiment was recorded as empty; or every
    matching file was read, and the table made of all of them was
    written to the output path and counted.  In the first two cases
    the file tree is as it was.  An experiment is never passed over in
    silence. *)
Theorem experiment_outcomes (e : Path) (w w' : world) (v v' : Csv.variables) :
  Csv.experiment args e w v = (Return tt, w', v') ->
  let files := sort (matching e (Csv.csv_pattern args) (tree w)) in
  (is_Some (lookup_path (with_suffix e ".parquet") (tree w)) /\
   Csv.overwrite args = false /\ tree w' = tree w /\ v' = Csv.count_skipped v) \/
  (files = [] /\ tree w' = tree w /\
   v' = Csv.append_empty
          (str e +:+ ": No files matching '" +:+ Csv.csv_pattern args +:+ "'") v) \/
  (files <> [] /\
   exists dfs bytes,
     Forall2 (fun f df => parsed args (tree w) f = Some df) files dfs /\
     parquet_bytes (written_table args dfs) (Csv.parquet_engine args)
       (Csv.parquet_compression args) = Some bytes /\
     write_file (with_suffix e ".parquet") bytes (tree w) = Some (tree w') /\
     lookup_path (with_suffix e ".parquet") (tree w') = Some (File bytes) /\
     v' = Csv.count_converted
            (Csv.add_parquet (Z.of_nat (String.length bytes))
               (after_sizes (tree w) files v))).
Proof.
  intros Hret files. apply csv_experiment_returns in Hret as [Hskip|Hconv]; [by left|].
  right. apply csv_convert_returns in Hconv as [Hempty|(Hfiles & dfs & bytes & Hall & Hb & Hw & Hv)].
  - by left.
  - right. split; [done|]. exists dfs, bytes.
    repeat split; try done. by eapply lookup_write_file.
Qed.

(** X5.  Once an experiment has been converted, the body of the loop
    skips, overwrite being off, every experiment directory with the
    same derived output path (the same directory again, or [E.ext]
    after [E]): it is counted as skipped and nothing is read or
    written. *)
Theorem converted_then_skipped (e e' : Path) (w w' w'' : world)
    (v v' v'' : Csv.variables) :
  Csv.overwrite args = false ->
  sort (matching e (Csv.csv_pattern args) (tree w)) <> [] ->
  Csv.convert args e w v = (Return tt, w', v') ->
  tree w'' = tree w' ->
  with_suffix e' ".parquet" = with_suffix e ".parquet" ->
  Csv.experiment args e' w'' v'' =
  (Return tt, logged [PathExists (with_suffix e ".parquet")] w'', Csv.count_skipped v'').
Proof.
  intros Hov Hfiles Hconv Htree Hout.
  apply csv_convert_returns in Hconv as [[Hempty _]|(_ & dfs & bytes & _ & _ & Hw & _)];
    [done|].
  rewrite <- Hout. apply csv_experiment_skipped; [|done].
  rewrite Hout, Htree. apply lookup_write_file in Hw. by eexists.
Qed.
End Outcomes.

Lemma experiment_outcomes_witness :
  let r := @Csv.experiment Sample.libs Csv.defaults ["C1"; "E1"] (at_start fresh_tree)
             Csv.initial in
  let files := sort (matching (H := Sample.libs) ["C1"; "E1"] Csv.GLOB_CSV_PATTERN fresh_tree) in
  (is_Some (lookup_path ["C1"; "E1.parquet"] fresh_tree) /\
   false = false /\ tree r.1.2 = fresh_tree /\ r.2 = Csv.count_skipped Csv.initial) \/
  (files = [] /\ tree r.1.2 = fresh_tree /\
   r.2 = Csv.append_empty "C1/E1: No files matching '*.[Cc][Ss][Vv]'" Csv.initial) \/
  (files <> [] /\
   exists dfs bytes,
     Forall2 (fun f df => @parsed Sample.libs Csv.defaults fresh_tree f = Some df) files dfs /\
     Sample.encode (@written_table Sample.libs Csv.defaults dfs) "fastparquet" "gzip"
       = Some bytes /\
     write_file ["C1"; "E1.parquet"] bytes fresh_tree = Some (tree r.1.2) /\
     lookup_path ["C1"; "E1.parquet"] (tree r.1.2) = Some (File bytes) /\
     r.2 = Csv.count_converted
             (Csv.add_parquet (Z.of_nat (String.length bytes))
                (after_sizes fresh_tree files Csv.initial))).
Proof.
  intros r files.
  apply (@experiment_outcomes Sample.libs Csv.defaults ["C1"; "E1"] (at_start fresh_tree)
           r.1.2 Csv.initial r.2).
  vm_compute. reflexivity.
Defined.

Lemma converted_then_skipped_witness :
  let r := @Csv.convert Sample.libs Csv.defaults ["C1"; "E1"] (at_start fresh_tree)
             Csv.initial in
  @Csv.experiment Sample.libs Csv.defaults ["C1"; "E1.old"] r.1.2 r.2 =
  (Return tt, logged [PathExists ["C1"; "E1.parquet"]] r.1.2, Csv.count_skipped r.2).
Proof.
  intros r.
  apply (@converted_then_skipped Sample.libs Csv.defaults ["C1"; "E1"] ["C1"; "E1.old"]
           (at_start fresh_tree) r.1.2 r.1.2 Csv.initial r.2 r.2).
  - reflexivity.
  - vm_compute. discriminate.
  - vm_compute. reflexivity.
  - reflexivity.
  - vm_compute. reflexivity.
Defined.

(** ** Counting *)

Section Adds.
Context `{Libs} {V : Type}.
Implicit Types f : V -> Z.

Lemma adds_keeps {A} f (m : M V A) : (forall c, keeps (fun v => f v = c) m) -> adds f 0 m.
Proof.
  intros Hk w v. specialize (Hk (f v) w v eq_refl).
  destruct (m w v) as [[[a|e] w'] v']; [|done]. lia.
Qed.

Lemma adds_ret {A} f (a : A) : adds f 0 (ret a).
Proof. intros w v. simpl. lia. Qed.

Lemma adds_raise {A} f n (e : exn) : adds f n (raise (A := A) e).
Proof. by intros w v. Qed.

Lemma adds_modify f n (g : V -> V) : (forall v, f (g v) = f v + n) -> adds f n (modify g).
Proof. intros Hg w v. simpl. apply Hg. Qed.

Lemma adds_bind {A B} f a b (m : M V A) (k : A -> M V B) :
  adds f a m -> (forall x, adds f b (k x)) -> adds f (a + b) (bind m k).
Proof.
  intros Hm Hk w v. unfold bind. specialize (Hm w v).
  destruct (m w v) as [[[x|e] w'] v']; [|done].
  specialize (Hk x w' v'). destruct (k x w' v') as [[[y|e] w''] v'']; [|done]. lia.
Qed.

Lemma adds_try {A} f n (m : M V A) (handler : exn -> M V A) :
  adds f n m ->
  (forall e w v, exists e' w' v', handler e w v = (Raise e', w', v')) ->
  adds f n (try_except m handler).
Proof.
  intros Hm Hh w v. unfold try_except. specialize (Hm w v).
  destruct (m w v) as [[[a|e] w'] v']; [done|].
  by destruct (Hh e w' v') as (e' & w'' & v'' & ->).
Qed.

Lemma adds_for_each {A} f n (l : list A) (body : A -> M V unit) :
  (forall x, adds f n (body x)) -> adds f (Z.of_nat (length l) * n) (for_each l body).
Proof.
  intros Hbody. induction l as [|x l IH]; simpl length.
  - intros w v. simpl. lia.
  - replace (Z.of_nat (S (length l)) * n) with (n + Z.of_nat (length l) * n) by lia.
    simpl. apply adds_bind; auto.
Qed.

Lemma adds_weaken {A} f n n' (m : M V A) : n = n' -> adds f n m -> adds f n' m.
Proof. by intros ->. Qed.
End Adds.

Section Counting.
Context `{Libs}.

Lemma csv_keeps_convert_simple (J : Csv.variables -> Prop) (args : Csv.arguments) (e : Path) :
  (forall v p, J v -> J (Csv.assign_csv_filename p v)) ->
  (forall v n, J v -> J (Csv.add_original n v)) ->
  (forall v s, J v -> J (Csv.append_empty s v)) ->
  (forall v n, J v -> J (Csv.count_converted (Csv.add_parquet n v))) ->
  keeps J (Csv.convert args e).
Proof.
  intros Hassign Horig Hempty Hconv.
  unfold Csv.convert. apply keeps_bind; [apply keeps_glob|]. intros found.
  destruct (sort found) as [|f0 files0]; [apply keeps_modify; auto|].
  apply keeps_bind.
  { apply keeps_for_each. intros file. apply keeps_bind; [apply keeps_modify; auto|].
    intros _. apply keeps_bind; [apply keeps_stat_size|]. intros size.
    apply keeps_modify; auto. }
  intros _. apply keeps_bind.
  { apply keeps_try.
    - apply keeps_comprehension. intros file. apply keeps_read_csv.
    - intros err w v. unfold bind, get. destruct (Csv.csv_filename v); by eexists _, _, _. }
  intros dataframes w v HJ. rewrite to_parquet_then_stat.
  destruct (parquet_bytes _ _ _) as [bytes|]; [|done].
  destruct (write_file _ bytes (tree w)); [|done].
  unfold bind, modify; simpl. auto.
Qed.

Lemma npy_keeps_convert_simple (J : Npy.variables -> Prop) (args : Npy.arguments)
    (fmt : gmap string format_value) (f : Path) :
  (forall v n, J v -> J (Npy.add_original n v)) ->
  (forall v n, J v -> J (Npy.count_converted (Npy.add_parquet n v))) ->
  keeps J (Npy.convert args fmt f).
Proof.
  intros Horig Hconv.
  unfold Npy.convert. apply keeps_bind; [apply keeps_stat_size|]. intros size.
  apply keeps_bind; [apply keeps_modify; auto|]. intros _.
  apply keeps_bind; [apply keeps_load|]. intros array.
  apply keeps_bind.
  { apply keeps_try.
    - destruct (Npy.mapping fmt array); [apply keeps_ret | apply keeps_raise].
    - intros err w v. unfold bind, write_text, bind, log, read_tree. simpl.
      destruct (write_file _ _ (tree w)); by eexists _, _, _. }
  intros dataframe w v HJ. rewrite to_parquet_then_stat.
  destruct (parquet_bytes _ _ _) as [bytes|]; [|done].
  destruct (write_file _ bytes (tree w)); [|done].
  unfold bind, modify; simpl. auto.
Qed.

(** X6.  With overwrite requested the tabular script skips nothing:
    whatever outputs exist, a traversal that returns leaves the count of
    skipped files where it was (at zero, in a run). *)
Theorem csv_overwrite_never_skips (args : Csv.arguments) (w w' : world)
    (v v' : Csv.variables) :
  Csv.overwrite args = true ->
  Csv.scan args w v = (Return tt, w', v') ->
  Csv.num_files_skipped v' = Csv.num_files_skipped v.
Proof.
  intros Hov Hscan.
  assert (keeps (fun v0 => Csv.num_files_skipped v0 = Csv.num_files_skipped v)
            (Csv.scan args)) as Hkeeps.
  { unfold Csv.scan. apply keeps_bind; [apply keeps_glob|]. intros items.
    apply keeps_bind; [apply keeps_directories|]. intros campaign_directories.
    apply keeps_bind.
    { apply keeps_for_each. intros c. unfold Csv.campaign.
      apply keeps_bind; [apply keeps_glob|]. intros items'.
      apply keeps_bind; [apply keeps_directories|]. intros experiment_directories.
      apply keeps_bind.
      { apply keeps_for_each. intros e. unfold Csv.experiment.
        apply keeps_bind; [apply keeps_exists|]. intros present.
        rewrite Hov, andb_false_r. by apply csv_keeps_convert_simple. }
      intros _. destruct experiment_directories; [by apply keeps_modify | apply keeps_ret]. }
    intros _. destruct campaign_directories; [apply keeps_raise | apply keeps_ret]. }
  specialize (Hkeeps w v eq_refl). by rewrite Hscan in Hkeeps.
Qed.

(** X7.  With overwrite requested the array script skips nothing. *)
Theorem npy_overwrite_never_skips (args : Npy.arguments) (fmt : gmap string format_value)
    (w w' : world) (v v' : Npy.variables) :
  Npy.overwrite args = true ->
  Npy.scan args fmt w v = (Return tt, w', v') ->
  Npy.num_files_skipped v' = Npy.num_files_skipped v.
Proof.
  intros Hov Hscan.
  assert (keeps (fun v0 => Npy.num_files_skipped v0 = Npy.num_files_skipped v)
            (Npy.scan args fmt)) as Hkeeps.
  { unfold Npy.scan. apply keeps_bind; [apply keeps_glob|]. intros files.
    apply keeps_for_each. intros f. unfold Npy.file.
    apply keeps_bind; [apply keeps_exists|]. intros present.
    rewrite Hov, andb_false_r. by apply npy_keeps_convert_simple. }
  specialize (Hkeeps w v eq_refl). by rewrite Hscan in Hkeeps.
Qed.

Lemma csv_adds_experiment (args : Csv.arguments) (e : Path) :
  adds csv_handled 1 (Csv.experiment args e).
Proof.
  unfold Csv.experiment. apply (adds_bind csv_handled 0 1).
  { apply adds_keeps. intros c. apply keeps_exists. }
  intros present. destruct (present && negb (Csv.overwrite args)).
  { apply adds_modify. intros v. unfold csv_handled; simpl. lia. }
  unfold Csv.convert. apply (adds_bind csv_handled 0 1).
  { apply adds_keeps. intros c. apply keeps_glob. }
  intros found. destruct (sort found) as [|f0 files0].
  { apply adds_modify. intros v. unfold csv_handled; simpl.
    rewrite length_app. simpl. lia. }
  apply (adds_bind csv_handled 0 1).
  { apply adds_keeps. intros c. apply keeps_for_each. intros file.
    apply keeps_bind; [by apply keeps_modify|]. intros _.
    apply keeps_bind; [apply keeps_stat_size|]. intros size. by apply keeps_modify. }
  intros _. apply (adds_bind csv_handled 0 1).
  { apply adds_try.
    - apply adds_keeps. intros c. apply keeps_comprehension. intros file.
      apply keeps_read_csv.
    - intros err w v. unfold bind, get. destruct (Csv.csv_filename v); by eexists _, _, _. }
  intros dataframes w v. rewrite to_parquet_then_stat.
  destruct (parquet_bytes _ _ _) as [bytes|]; [|done].
  destruct (write_file _ bytes (tree w)); [|done].
  unfold bind, modify, csv_handled; simpl. lia.
Qed.

Lemma csv_adds_experiments (args : Csv.arguments) (ds : list Path) (entry : string) :
  adds csv_handled (Z.of_nat (Nat.max 1 (length ds)))
    (for_each ds (Csv.experiment args) ;;
     match ds with
     | [] => modify (Csv.append_empty entry)
     | _ :: _ => ret tt
     end)%run.
Proof.
  destruct ds as [|d ds].
  - apply (adds_bind csv_handled 0 1); [apply adds_ret|]. intros _.
    apply adds_modify. intros v0. unfold csv_handled; simpl.
    rewrite length_app. simpl. lia.
  - apply (adds_weaken csv_handled (Z.of_nat (length (d :: ds)) * 1 + 0)).
    { simpl length. lia. }
    apply adds_bind; [apply adds_for_each, csv_adds_experiment|].
    intros _. apply adds_ret.
Qed.

(** X8.  Every experiment directory of a campaign is accounted for
    once.  When the body of the campaign loop returns, the number of
    experiments converted, skipped or recorded as empty has grown by
    the number of experiment directories of the campaign, or by one,
    for the entry of the campaign itself, if it has none. *)
Theorem campaign_accounts_for_experiments (args : Csv.arguments) (c : Path)
    (w w' : world) (v v' : Csv.variables) :
  Csv.campaign args c w v = (Return tt, w', v') ->
  csv_handled v' =
  csv_handled v +
  Z.of_nat
    (Nat.max 1 (length (kept (tree w) (matching c (Csv.subdirectory_pattern args) (tree w))))).
Proof.
  intros Hret.
  destruct (globbed c (Csv.subdirectory_pattern args) (tree w)) as [items|e0] eqn:Hglob.
  - rewrite (globbed_matching _ _ _ _ Hglob).
    rewrite (csv_campaign_eq args c w v items Hglob) in Hret.
    pose proof (csv_adds_experiments args (kept (tree w) items)
                  (str c +:+ ": No subdirectories matching '" +:+
                   Csv.subdirectory_pattern args +:+ "'")
                  (logged (Glob c (Csv.subdirectory_pattern args) :: map IsDir items) w)
                  v) as Hadds.
    by rewrite Hret in Hadds.
  - exfalso. revert Hret. unfold Csv.campaign. unfold bind at 1.
    rewrite glob_eq, Hglob. simpl. discriminate.
Qed.

Lemma npy_adds_file (args : Npy.arguments) (fmt : gmap string format_value) (f : Path) :
  adds npy_handled 1 (Npy.file args fmt f).
Proof.
  unfold Npy.file. apply (adds_bind npy_handled 0 1).
  { apply adds_keeps. intros c. apply keeps_exists. }
  intros present. destruct (present && negb (Npy.overwrite args)).
  { apply adds_modify. intros v. unfold npy_handled; simpl. lia. }
  unfold Npy.convert. apply (adds_bind npy_handled 0 1).
  { apply adds_keeps. intros c. apply keeps_stat_size. }
  intros size. apply (adds_bind npy_handled 0 1).
  { apply adds_modify. intros v. unfold npy_handled; simpl. lia. }
  intros _. apply (adds_bind npy_handled 0 1).
  { apply adds_keeps. intros c. apply keeps_load. }
  intros array. apply (adds_bind npy_handled 0 1).
  { apply adds_try.
    - destruct (Npy.mapping fmt array); [apply adds_ret | apply adds_raise].
    - intros err w v. unfold bind, write_text, bind, log, read_tree. simpl.
      destruct (write_file _ _ (tree w)); by eexists _, _, _. }
  intros dataframe w v. rewrite to_parquet_then_stat.
  destruct (parquet_bytes _ _ _) as [bytes|]; [|done].
  destruct (write_file _ bytes (tree w)); [|done].
  unfold bind, modify, npy_handled; simpl. lia.
Qed.

(** X9.  When the traversal of the array script returns, every file
    the glob matched has been converted or skipped: the two counts
    together have grown by the number of matches. *)
Theorem npy_accounts_for_files (args : Npy.arguments) (fmt : gmap string format_value)
    (w w' : world) (v v' : Npy.variables) :
  Npy.scan args fmt w v = (Return tt, w', v') ->
  Npy.num_files_converted v' + Npy.num_files_skipped v' =
  Npy.num_files_converted v + Npy.num_files_skipped v +
  Z.of_nat (length (matching (Npy.start_directory args) (Npy.npy_pattern args) (tree w))).
Proof.
  unfold Npy.scan. unfold bind at 1. rewrite glob_eq.
  destruct (globbed (Npy.start_directory args) (Npy.npy_pattern args) (tree w))
    as [files|e0] eqn:Hglob; [|simpl; discriminate].
  rewrite (globbed_matching _ _ _ _ Hglob). intros Hret.
  pose proof (adds_for_each npy_handled 1 files
                (Npy.file args fmt) (npy_adds_file args fmt)
                (logged [Glob (Npy.start_directory args) (Npy.npy_pattern args)] w) v)
    as Hadds.
  rewrite Hret in Hadds. unfold npy_handled in Hadds. lia.
Qed.
End Counting.

Lemma csv_overwrite_never_skips_witness :
  Csv.num_files_skipped
    (@Csv.scan Sample.libs csv_overwrite (at_start rerun_tree) Csv.initial).2 = 0.
Proof.
  apply (@csv_overwrite_never_skips Sample.libs csv_overwrite (at_start rerun_tree)
           (@Csv.scan Sample.libs csv_overwrite (at_start rerun_tree) Csv.initial).1.2
           Csv.initial).
  - reflexivity.
  - vm_compute. reflexivity.
Defined.

Lemma npy_overwrite_never_skips_witness :
  Npy.num_files_skipped
    (@Npy.scan Sample.libs npy_overwrite Npy.default_format (at_start rerun_tree)
       Npy.initial).2 = 0.
Proof.
  apply (@npy_overwrite_never_skips Sample.libs npy_overwrite Npy.default_format
           (at_start rerun_tree)
           (@Npy.scan Sample.libs npy_overwrite Npy.default_format (at_start rerun_tree)
              Npy.initial).1.2
           Npy.initial).
  - reflexivity.
  - vm_compute. reflexivity.
Defined.

Lemma campaign_accounts_for_experiments_witness :
  csv_handled
    (@Csv.campaign Sample.libs Csv.defaults ["C1"] (at_start rerun_tree) Csv.initial).2 = 1.
Proof.
  apply (@campaign_accounts_for_experiments Sample.libs Csv.defaults ["C1"]
           (at_start rerun_tree)
           (@Csv.campaign Sample.libs Csv.defaults ["C1"] (at_start rerun_tree)
              Csv.initial).1.2
           Csv.initial).
  vm_compute. reflexivity.
Defined.

Lemma npy_accounts_for_files_witness :
  let v' := (@Npy.scan Sample.libs Npy.defaults Npy.default_format (at_start fresh_tree)
               Npy.initial).2 in
  Npy.num_files_converted v' + Npy.num_files_skipped v' = 1.
Proof.
  intros v'.
  apply (@npy_accounts_for_files Sample.libs Npy.defaults Npy.default_format
           (at_start fresh_tree)
           (@Npy.scan Sample.libs Npy.defaults Npy.default_format (at_start fresh_tree)
              Npy.initial).1.2
           Npy.initial).
  vm_compute. reflexivity.
Defined.

(** ** What a run leaves alone *)

Lemma get_entry_dict_set_other (nm n : string) (x : node) (es : list (string * node)) :
  n <> nm -> get_entry n (dict_set nm x es) = get_entry n es.
Proof.
  intros Hne. induction es as [|[l y] es IH]; simpl.
  - by destruct (String.eqb_spec nm n); [subst|].
  - destruct (String.eqb_spec l nm) as [->|Hl]; simpl.
    + by destruct (String.eqb_spec nm n); [subst|].
    + by destruct (String.eqb l n).
Qed.

(** A write changes the content of no other file. *)
Lemma read_file_write_file (p q : Path) (data : string) (t t' : node) :
  write_file p data t = Some t' -> q <> p -> read_file q t' = read_file q t.
Proof.
  revert q t t'. induction p as [|nm p IH]; intros q t t'; [by destruct t|].
  destruct t as [|es]; [by destruct p|].
  destruct p as [|nm' p].
  - simpl. intros Hw Hq.
    assert (t' = Dir (dict_set nm (File data) es) /\
            forall es', get_entry nm es <> Some (Dir es')) as [-> Hnd].
    { destruct (get_entry nm es) as [[|]|]; by inversion Hw. }
    destruct q as [|n q]; [done|]. unfold read_file. simpl.
    destruct (String.eqb_spec n nm) as [->|Hn].
    + rewrite get_entry_dict_set. destruct q as [|n' q]; [done|]. simpl.
      destruct (get_entry nm es) as [[d|es']|]; [done | by destruct (Hnd es') | done].
    + by rewrite get_entry_dict_set_other.
  - change (write_file (nm :: nm' :: p) data (Dir es))
      with (match get_entry nm es with
            | Some x =>
                match write_file (nm' :: p) data x with
                | Some x' => Some (Dir (dict_set nm x' es))
                | None => None
                end
            | None => None
            end).
    destruct (get_entry nm es) as [x|] eqn:Hx; [|done].
    destruct (write_file (nm' :: p) data x) as [x'|] eqn:Hw; [|done].
    intros [= <-] Hq. destruct q as [|n q]; [done|]. unfold read_file. simpl.
    destruct (String.eqb_spec n nm) as [->|Hn].
    + rewrite get_entry_dict_set, Hx. apply (IH q x x' Hw). congruence.
    + by rewrite get_entry_dict_set_other.
Qed.

Lemma path_is_child (p : Path) : p <> [] -> p = child (removelast p) (name p).
Proof. intros Hp. unfold child, name. by apply app_removelast_last. Qed.

Lemma name_with_suffix (p : Path) (suf : string) :
  p <> [] -> ends_with suf (name (with_suffix p suf)).
Proof.
  intros Hp. rewrite (path_is_child p Hp), with_suffix_child, name_child. by eexists.
Qed.

Lemma name_format_file (p : Path) :
  p <> [] -> ends_with "_format.yml" (name (Npy.format_file p)).
Proof.
  intros Hp. unfold Npy.format_file, with_name. destruct p as [|x p']; [done|].
  unfold name at 1. rewrite List.last_last. by eexists.
Qed.

Section Always.
Context `{Libs} {V : Type} (R : world -> world -> Prop).
Context `{!Reflexive R, !Transitive R}.
Hypothesis R_logged : forall w c, R w (logged [c] w).

Lemma always_ret {A} (a : A) : always R (ret (V := V) a).
Proof. intros w v. simpl. reflexivity. Qed.

Lemma always_raise {A} (e : exn) : always R (raise (V := V) (A := A) e).
Proof. intros w v. simpl. reflexivity. Qed.

Lemma always_get : always R (get (V := V)).
Proof. intros w v. simpl. reflexivity. Qed.

Lemma always_modify (f : V -> V) : always R (modify f).
Proof. intros w v. simpl. reflexivity. Qed.

Lemma always_read_tree : always R (read_tree (V := V)).
Proof. intros w v. simpl. reflexivity. Qed.

Lemma always_log (c : call) : always R (log (V := V) c).
Proof. intros w v. apply R_logged. Qed.

Lemma always_bind {A B} (m : M V A) (k : A -> M V B) :
  always R m -> (forall a, always R (k a)) -> always R (bind m k).
Proof.
  intros Hm Hk w v. unfold bind. specialize (Hm w v).
  destruct (m w v) as [[[a|e] w'] v']; simpl in *; [|done].
  etrans; [exact Hm | apply Hk].
Qed.

Lemma always_try {A} (m : M V A) (handler : exn -> M V A) :
  always R m -> (forall e, always R (handler e)) -> always R (try_except m handler).
Proof.
  intros Hm Hh w v. unfold try_except. specialize (Hm w v).
  destruct (m w v) as [[[a|e] w'] v']; simpl in *; [done|].
  etrans; [exact Hm | apply Hh].
Qed.

Lemma always_for_each {A} (l : list A) (body : A -> M V unit) :
  (forall x, always R (body x)) -> always R (for_each l body).
Proof.
  intros Hbody. induction l as [|x l IH]; simpl; [apply always_ret|].
  apply always_bind; auto.
Qed.

Lemma always_comprehension {A B} (l : list A) (f : A -> M V B) :
  (forall x, always R (f x)) -> always R (comprehension l f).
Proof.
  intros Hf. induction l as [|x l IH]; simpl; [apply always_ret|].
  apply always_bind; [auto|]. intros y. apply always_bind; [auto|]. intros ys.
  apply always_ret.
Qed.

Lemma always_glob (dir : Path) (pattern : string) : always R (glob (V := V) dir pattern).
Proof.
  unfold glob. apply always_bind; [apply always_log|]. intros _.
  apply always_bind; [apply always_read_tree|]. intros t.
  destruct (globbed dir pattern t); [apply always_ret | apply always_raise].
Qed.

Lemma always_is_dir (p : Path) : always R (is_dir (V := V) p).
Proof.
  unfold is_dir. apply always_bind; [apply always_log|]. intros _.
  apply always_bind; [apply always_read_tree|]. intros t. apply always_ret.
Qed.

Lemma always_exists (p : Path) : always R (exists_ (V := V) p).
Proof.
  unfold exists_. apply always_bind; [apply always_log|]. intros _.
  apply always_bind; [apply always_read_tree|]. intros t. apply always_ret.
Qed.

Lemma always_directories (items : list Path) : always R (directories (V := V) items).
Proof.
  induction items as [|item rest IH]; simpl; [apply always_ret|].
  apply always_bind; [apply always_is_dir|]. intros d.
  apply always_bind; [apply IH|]. intros kept. apply always_ret.
Qed.

Lemma always_stat_size (p : Path) : always R (stat_size (V := V) p).
Proof.
  unfold stat_size. apply always_bind; [apply always_log|]. intros _.
  apply always_bind; [apply always_read_tree|]. intros t.
  destruct (lookup_path p t); [apply always_ret | apply always_raise].
Qed.

Lemma always_read_csv (p : Path) (parse_dates index_col : option string) :
  always R (read_csv (V := V) p parse_dates index_col).
Proof.
  unfold read_csv. apply always_bind; [apply always_log|]. intros _.
  apply always_bind; [apply always_read_tree|]. intros t.
  destruct (lookup_path p t) as [[data|]|]; try apply always_raise.
  destruct (pandas_read_csv data parse_dates index_col);
    [apply always_ret | apply always_raise].
Qed.

Lemma always_load (p : Path) : always R (load (V := V) p).
Proof.
  unfold load. apply always_bind; [apply always_log|]. intros _.
  apply always_bind; [apply always_read_tree|]. intros t.
  destruct (lookup_path p t) as [[data|]|]; try apply always_raise.
  destruct (numpy_load data); [apply always_ret | apply always_raise].
Qed.

Lemma always_open_text (p : Path) : always R (open_text (V := V) p).
Proof.
  unfold open_text. apply always_bind; [apply always_log|]. intros _.
  apply always_bind; [apply always_read_tree|]. intros t.
  destruct (lookup_path p t) as [[data|]|]; try apply always_raise. apply always_ret.
Qed.

Lemma always_write (p : Path) (data : string) (c : call) :
  may_write R p ->
  always R (t <- read_tree (V := V) ;;
            match write_file p data t with
            | Some t' => set_tree t'
            | None => raise (LibraryError c)
            end).
Proof.
  intros Hp w v. unfold bind, read_tree. simpl.
  destruct (write_file p data (tree w)) as [t'|] eqn:Hw; simpl; [|reflexivity].
  by apply (Hp w data t').
Qed.

Lemma always_to_parquet (df : DataFrame) (p : Path) (engine compression : string) :
  may_write R p -> always R (to_parquet (V := V) df p engine compression).
Proof.
  intros Hp. unfold to_parquet. apply always_bind; [apply always_log|]. intros _.
  destruct (parquet_bytes df engine compression) as [data|].
  - by apply always_write.
  - apply always_bind; [apply always_read_tree|]. intros t. apply always_raise.
Qed.

Lemma always_write_text (p : Path) (text : string) :
  may_write R p -> always R (write_text (V := V) p text).
Proof.
  intros Hp. unfold write_text. apply always_bind; [apply always_log|]. intros _.
  by apply always_write.
Qed.

Lemma always_print (o : output) : (forall w, R w (printed o w)) -> always R (print (V := V) o).
Proof. intros Hprint w v. apply Hprint. Qed.
End Always.

Section Frames_of_runs.
Context `{Libs} (R : world -> world -> Prop).
Context `{!Reflexive R, !Transitive R}.
Hypothesis R_logged : forall w c, R w (logged [c] w).
Hypothesis R_parquet : forall p, may_write R (with_suffix p ".parquet").

Lemma csv_always_convert (args : Csv.arguments) (e : Path) : always R (Csv.convert args e).
Proof.
  unfold Csv.convert. apply (always_bind R); [by apply (always_glob R)|]. intros found.
  destruct (sort found) as [|f0 files0]; [by apply (always_modify R)|].
  apply (always_bind R).
  { apply (always_for_each R). intros file. apply (always_bind R); [by apply (always_modify R)|].
    intros _. apply (always_bind R); [by apply (always_stat_size R)|]. intros size.
    by apply (always_modify R). }
  intros _. apply (always_bind R).
  { apply (always_try R).
    - apply (always_comprehension R). intros file. by apply (always_read_csv R).
    - intros err. apply (always_bind R); [by apply (always_get R)|]. intros v.
      destruct (Csv.csv_filename v); by apply (always_raise R). }
  intros dataframes. apply (always_bind R); [by apply (always_to_parquet R)|]. intros _.
  apply (always_bind R); [by apply (always_stat_size R)|]. intros size.
  apply (always_bind R); [|intros _]; by apply (always_modify R).
Qed.

Lemma csv_always_scan (args : Csv.arguments) : always R (Csv.scan args).
Proof.
  unfold Csv.scan. apply (always_bind R); [by apply (always_glob R)|]. intros items.
  apply (always_bind R); [by apply (always_directories R)|]. intros campaign_directories.
  apply (always_bind R).
  { apply (always_for_each R). intros c. unfold Csv.campaign.
    apply (always_bind R); [by apply (always_glob R)|]. intros items'.
    apply (always_bind R); [by apply (always_directories R)|]. intros experiment_directories.
    apply (always_bind R).
    { apply (always_for_each R). intros e. unfold Csv.experiment.
      apply (always_bind R); [by apply (always_exists R)|]. intros present.
      destruct (present && negb (Csv.overwrite args)); [by apply (always_modify R)|].
      apply csv_always_convert. }
    intros _. destruct experiment_directories; [by apply (always_modify R) | by apply (always_ret R)]. }
  intros _. destruct campaign_directories; [by apply (always_raise R) | by apply (always_ret R)].
Qed.

Lemma csv_always_final_feedback (args : Csv.arguments) :
  (forall w o, R w (printed o w)) -> always R (Csv.final_feedback args).
Proof.
  intros Hprint. unfold Csv.final_feedback. apply (always_bind R); [by apply (always_get R)|].
  intros v. repeat case_match; (by apply (always_raise R)) || (by apply (always_print R)).
Qed.

Lemma csv_always_main (args : Csv.arguments) :
  (forall w o, R w (printed o w)) -> always R (Csv.main args).
Proof.
  intros Hprint. unfold Csv.main. apply (always_bind R); [by apply (always_print R)|]. intros _.
  apply (always_bind R); [apply csv_always_scan|]. intros _.
  apply (always_bind R); [by apply csv_always_final_feedback|]. intros _.
  destruct (Csv.verbose args); [|by apply (always_ret R)].
  apply (always_bind R); [by apply (always_get R)|]. intros v.
  apply (always_bind R); [|intros _]; by apply (always_print R).
Qed.

Hypothesis R_template : forall p, may_write R (Npy.format_file p).

Lemma npy_always_scan (args : Npy.arguments) (fmt : gmap string format_value) :
  always R (Npy.scan args fmt).
Proof.
  unfold Npy.scan. apply (always_bind R); [by apply (always_glob R)|]. intros files.
  apply (always_for_each R). intros f. unfold Npy.file.
  apply (always_bind R); [by apply (always_exists R)|]. intros present.
  destruct (present && negb (Npy.overwrite args)); [by apply (always_modify R)|].
  unfold Npy.convert. apply (always_bind R); [by apply (always_stat_size R)|]. intros size.
  apply (always_bind R); [by apply (always_modify R)|]. intros _.
  apply (always_bind R); [by apply (always_load R)|]. intros array.
  apply (always_bind R).
  { apply (always_try R).
    - destruct (Npy.mapping fmt array); [by apply (always_ret R) | by apply (always_raise R)].
    - intros err. apply (always_bind R); [by apply (always_write_text R)|]. intros _.
      by apply (always_raise R). }
  intros dataframe. apply (always_bind R); [by apply (always_to_parquet R)|]. intros _.
  apply (always_bind R); [by apply (always_stat_size R)|]. intros size'.
  apply (always_bind R); [|intros _]; by apply (always_modify R).
Qed.

Lemma npy_always_final_feedback (args : Npy.arguments) :
  (forall w o, R w (printed o w)) -> always R (Npy.final_feedback args).
Proof.
  intros Hprint. unfold Npy.final_feedback. apply (always_bind R); [by apply (always_get R)|].
  intros v. repeat case_match; (by apply (always_raise R)) || (by apply (always_print R)).
Qed.

Lemma npy_always_main (args : Npy.arguments) :
  (forall w o, R w (printed o w)) -> always R (Npy.main args).
Proof.
  intros Hprint. unfold Npy.main. apply (always_bind R).
  { unfold Npy.load_format. apply (always_bind R).
    - destruct (Npy.format args); [by apply (always_open_text R) | by apply (always_ret R)].
    - intros text. destruct (safe_load text); [by apply (always_ret R) | by apply (always_raise R)]. }
  intros fmt. unfold Npy.script. apply (always_bind R); [by apply (always_print R)|]. intros _.
  apply (always_bind R); [apply npy_always_scan|]. intros _.
  by apply npy_always_final_feedback.
Qed.
End Frames_of_runs.

#[local] Instance same_files_refl (spared : string -> Prop) : Reflexive (same_files spared).
Proof. by intros w q Hq. Qed.

#[local] Instance same_files_trans (spared : string -> Prop) : Transitive (same_files spared).
Proof. intros w1 w2 w3 H12 H23 q Hq. by rewrite H23, H12. Qed.

Lemma same_files_may_write (spared : string -> Prop) (p : Path) :
  (p <> [] -> ~ spared (name p)) -> may_write (same_files spared) p.
Proof.
  intros Hp w data t' Hw q Hq. simpl. apply (read_file_write_file p q data); [done|].
  intros ->. destruct p as [|x p']; [by destruct (tree w)|]. by apply Hp.
Qed.

(** X10.  The tabular script touches no file but its outputs: whatever
    the command line and the start directory, and whether the run ends
    normally or with an exception, every path whose name does not end
    in [.parquet] holds after the run the file it held before (or is
    still not a file).  In particular no CSV file is changed, removed
    or created. *)
Theorem csv_run_keeps_other_files `{Libs} (args : Csv.arguments) (t : node) (q : Path) :
  ~ ends_with ".parquet" (name q) ->
  read_file q (tree (Csv.run args t).1.2) = read_file q t.
Proof.
  intros Hq.
  apply (csv_always_main (same_files (fun nm => ~ ends_with ".parquet" nm))); try done.
  intros p. apply same_files_may_write. intros Hp Hsp. apply Hsp, name_with_suffix.
  by intros ->.
Qed.

(** X11.  The array script touches no file but its outputs and the
    format template: every path whose name ends neither in [.parquet]
    nor in [_format.yml] holds after the run the file it held before,
    whether the run ends normally or with an exception. *)
Theorem npy_run_keeps_other_files `{Libs} (args : Npy.arguments) (t : node) (q : Path) :
  ~ ends_with ".parquet" (name q) -> ~ ends_with "_format.yml" (name q) ->
  read_file q (tree (Npy.run args t).1.2) = read_file q t.
Proof.
  intros Hq1 Hq2.
  apply (npy_always_main
           (same_files (fun nm => ~ ends_with ".parquet" nm /\ ~ ends_with "_format.yml" nm)));
    try done.
  - intros p. apply same_files_may_write. intros Hp [Hsp _]. apply Hsp, name_with_suffix.
    by intros ->.
  - intros p. apply same_files_may_write. intros Hp [_ Hsp]. apply Hsp, name_format_file.
    by intros ->.
Qed.

Lemma not_ends_with_shorter (ending nm : string) :
  (String.length nm < String.length ending)%nat -> ~ ends_with ending nm.
Proof.
  intros Hlt [stem ->]. rewrite string_app_length in Hlt. lia.
Qed.

Lemma csv_run_keeps_other_files_witness :
  read_file ["C1"; "E1"; "a.csv"]
    (tree (@Csv.run Sample.libs Csv.defaults fresh_tree).1.2) = Some "345".
Proof.
  apply (@csv_run_keeps_other_files Sample.libs Csv.defaults fresh_tree ["C1"; "E1"; "a.csv"]).
  apply not_ends_with_shorter. simpl. lia.
Defined.

Lemma npy_run_keeps_other_files_witness :
  read_file ["a.npy"] (tree (@Npy.run Sample.libs Npy.defaults narrow_tree).1.2) = Some "123".
Proof.
  apply (@npy_run_keeps_other_files Sample.libs Npy.defaults narrow_tree ["a.npy"]);
    apply not_ends_with_shorter; simpl; lia.
Defined.

(** ** What a run prints *)

#[local] Instance same_output_refl : Reflexive same_output.
Proof. by intros w. Qed.

#[local] Instance same_output_trans : Transitive same_output.
Proof. intros w1 w2 w3 H12 H23. unfold same_output in *. congruence. Qed.

Lemma same_output_may_write (p : Path) : may_write same_output p.
Proof. by intros w data t' Hw. Qed.

(** X12.  What the tabular script prints, from any state: the header
    first; the traversal prints nothing; a run that ends normally then
    prints exactly one summary line and, with [--verbose], an empty
    line and the recorded locations joined by newlines (one empty line
    when there are none); a run that ends with an exception has printed
    the header and nothing else. *)
Theorem csv_main_output `{Libs} (args : Csv.arguments) (w0 : world) (v0 : Csv.variables) :
  match Csv.main args w0 v0 with
  | (Return _, w, v) =>
      exists o, stdout w = stdout w0 ++ [csv_header args; o] ++ csv_verbose_lines args v
  | (Raise _, w, _) => stdout w = stdout w0 ++ [csv_header args]
  end.
Proof.
  unfold Csv.main. unfold bind at 1. unfold print at 1.
  fold (csv_header args). fold (printed (csv_header args) w0).
  pose proof (csv_always_scan same_output (fun w c => eq_refl) (fun p => same_output_may_write _) args
                (printed (csv_header args) w0) v0) as Hscan.
  unfold bind at 1.
  destruct (Csv.scan args (printed (csv_header args) w0) v0) as [[[[]|e] w1] v1];
    unfold same_output in Hscan; simpl in Hscan; [|done].
  unfold bind at 1. unfold Csv.final_feedback, bind at 1, get at 1.
  unfold csv_verbose_lines.
  repeat case_match; simplify_eq/=; unfold bind, get, print, raise, ret in *; simplify_eq/=;
    rewrite ?Hscan; try done; eexists; by rewrite <- ?app_assoc.
Qed.

(** X13.  What the array script prints once the format is loaded: the
    header, nothing during the traversal, and one summary line when the
    run ends normally; a run that ends with an exception has printed
    the header and nothing else. *)
Theorem npy_script_output `{Libs} (args : Npy.arguments) (fmt : gmap string format_value)
    (w0 : world) (v0 : Npy.variables) :
  match Npy.script args fmt w0 v0 with
  | (Return _, w, _) => exists o, stdout w = stdout w0 ++ [npy_header args; o]
  | (Raise _, w, _) => stdout w = stdout w0 ++ [npy_header args]
  end.
Proof.
  unfold Npy.script. unfold bind at 1. unfold print at 1.
  fold (npy_header args). fold (printed (npy_header args) w0).
  pose proof (npy_always_scan same_output (fun w c => eq_refl) (fun p => same_output_may_write _)
                (fun p => same_output_may_write _) args fmt (printed (npy_header args) w0) v0) as Hscan.
  unfold bind at 1.
  destruct (Npy.scan args fmt (printed (npy_header args) w0) v0) as [[[[]|e] w1] v1];
    unfold same_output in Hscan; simpl in Hscan; [|done].
  unfold Npy.final_feedback, bind at 1, get at 1.
  repeat case_match; simplify_eq/=; unfold print, raise, ret in *; simplify_eq/=;
    rewrite ?Hscan; try done; eexists; by rewrite <- ?app_assoc.
Qed.

(** ** The columns of an array, by position *)

Lemma dict_set_fresh {A} (nm : string) (s : A) (d : list (string * A)) :
  nm ∉ d.*1 -> dict_set nm s d = d ++ [(nm, s)].
Proof.
  induction d as [|[l x] d IH]; simpl; [done|].
  rewrite not_elem_of_cons. intros [Hne Hnotin].
  destruct (String.eqb_spec l nm); [by subst|]. by rewrite IH.
Qed.

Lemma lookup_column_dict_set (l : string) (x : Series) (cols : list (string * Series)) :
  lookup_column l (dict_set l x cols) = Some x.
Proof.
  induction cols as [|[l0 s0] cols IH]; simpl.
  - by rewrite String.eqb_refl.
  - destruct (String.eqb l0 l) eqn:E; simpl; by rewrite E.
Qed.

Lemma lookup_column_dict_set_other (l n : string) (x : Series) (cols : list (string * Series)) :
  n <> l -> lookup_column n (dict_set l x cols) = lookup_column n cols.
Proof.
  intros Hne. induction cols as [|[l0 s0] cols IH]; simpl.
  - by destruct (String.eqb_spec l n); [subst|].
  - destruct (String.eqb_spec l0 l) as [->|Hl]; simpl.
    + by destruct (String.eqb_spec l n); [subst|].
    + by destruct (String.eqb l0 n).
Qed.

Lemma labels_dict_set (l : string) (x s : Series) (cols : list (string * Series)) :
  lookup_column l cols = Some s -> (dict_set l x cols).*1 = cols.*1.
Proof.
  induction cols as [|[l0 s0] cols IH]; simpl; [done|].
  destruct (String.eqb l0 l); [done|]. intros Hl. cbn. by rewrite IH.
Qed.

Section Positions.
Context `{Libs}.

Lemma columns_of_zip (names : list string) (cs : list Series) :
  Npy.columns_of (zip names (map Column cs)) = Some (zip names cs).
Proof.
  revert cs. induction names as [|nm names IH]; intros [|c cs]; simpl; try done.
  by rewrite IH.
Qed.

Lemma column_dict_matrix (d0 : dtype) (ncols : nat) (rows : list (list cell))
    (names : list string) (idx : nat) (d : list (string * slice)) :
  NoDup names ->
  (forall nm, nm ∈ names -> nm ∉ d.*1) ->
  (idx + length names <= ncols)%nat ->
  Npy.column_dict (Matrix d0 ncols rows) idx names d =
  Return (d ++ zip names (map Column (map (column_at d0 rows) (seq idx (length names))))).
Proof.
  revert idx d. induction names as [|nm names IH]; intros idx d Hnd Hfresh Hle; simpl in *.
  - by rewrite app_nil_r.
  - apply NoDup_cons in Hnd as [Hnm Hnd].
    destruct (Nat.ltb_spec idx ncols) as [_|Hout]; [|lia].
    fold (column_at d0 rows idx).
    rewrite dict_set_fresh by (apply Hfresh; by left).
    rewrite IH; [by rewrite <- app_assoc | done | | lia].
    intros nm' Hin. rewrite fmap_app, not_elem_of_app. split.
    + apply Hfresh. by right.
    + simpl. rewrite list_elem_of_singleton. by intros ->.
Qed.

(** The loop over the date columns converts each of them once, from
    the column the table had, and leaves the others and the order of
    the labels alone. *)
Lemma convert_dates_columns (items : list (string * string)) (df df' : DataFrame) :
  NoDup items.*1 ->
  Npy.convert_dates items df = Return df' ->
  labels df' = labels df /\
  forall nm,
    (nm ∉ items.*1 -> getitem df' nm = getitem df nm) /\
    (forall unit, (nm, unit) ∈ items ->
       exists s s', getitem df nm = Some s /\ pandas_to_datetime s unit = Some s' /\
                    getitem df' nm = Some s').
Proof.
  revert df. induction items as [|[n u] items IH]; intros df Hnd; simpl.
  - intros [= <-]. split; [done|]. intros nm. split; [done|].
    intros unit Hin. by apply elem_of_nil in Hin.
  - apply NoDup_cons in Hnd as [Hn Hnd].
    destruct (getitem df n) as [s|] eqn:Hget; [|done].
    destruct (pandas_to_datetime s u) as [s'|] eqn:Hconv; [|done].
    intros Hrest. destruct (IH _ Hnd Hrest) as [Hlabels Hcols]. split.
    { rewrite Hlabels. unfold labels, setitem; simpl. by eapply labels_dict_set. }
    intros nm. destruct (Hcols nm) as [Hother Hdate]. split.
    + rewrite not_elem_of_cons. intros [Hne Hnotin]. rewrite Hother by done.
      unfold getitem, setitem; simpl. by apply lookup_column_dict_set_other.
    + intros unit. rewrite elem_of_cons. intros [[= -> ->]|Hin].
      * exists s, s'. split; [done|]. split; [done|].
        destruct (Hcols n) as [Hkeep _]. rewrite Hkeep by done.
        unfold getitem, setitem; simpl. apply lookup_column_dict_set.
      * destruct (Hdate unit Hin) as (s1 & s1' & Hget1 & Hconv1 & Hget1').
        exists s1, s1'. split; [|done]. rewrite <- Hget1.
        unfold getitem, setitem; simpl. symmetry. apply lookup_column_dict_set_other.
        intros ->. apply Hn. by apply (list_elem_of_fmap_2 fst _ (n, unit)).
Qed.

(** X14.  The array script names the columns of an array by position.
    For a format whose [columns] are distinct names and whose
    [date_column] has distinct keys, and a two-dimensional array with
    at least as many columns as names (columns beyond the names are
    dropped without notice): when the mapping returns a table, its
    labels are the names in the order of the format, the column under
    the [i]-th name is column [i] of the array when the name is no date
    column, and what [pandas.to_datetime] made of column [i] with the
    unit of the format when it is one. *)
Theorem mapping_by_position (fmt : gmap string format_value) (names : list string)
    (items : list (string * string)) (d0 : dtype) (ncols : nat) (rows : list (list cell))
    (df : DataFrame) :
  fmt !! "columns" = Some (FList names) ->
  fmt !! "date_column" = Some (FDict items) ->
  NoDup names ->
  NoDup items.*1 ->
  (length names <= ncols)%nat ->
  Npy.mapping fmt (Matrix d0 ncols rows) = Return df ->
  labels df = names /\
  forall i nm, names !! i = Some nm ->
    (nm ∉ items.*1 -> getitem df nm = Some (column_at d0 rows i)) /\
    (forall unit, (nm, unit) ∈ items ->
       exists s', pandas_to_datetime (column_at d0 rows i) unit = Some s' /\
                  getitem df nm = Some s').
Proof.
  intros Hcols Hdates Hnames Hkeys Hle. unfold Npy.mapping, Npy.column_names, Npy.date_items.
  rewrite Hcols, Hdates.
  rewrite column_dict_matrix; [| done | intros nm _; apply not_elem_of_nil | simpl; lia].
  set (cs := map (column_at d0 rows) (seq 0 (length names))) in *.
  unfold Npy.DataFrame_of. simpl. rewrite columns_of_zip.
  set (table := {| df_index := _; df_columns := zip names cs |}).
  intros Hconv. apply convert_dates_columns in Hconv as [Hlabels Hcolumns]; [|done].
  assert (length names <= length cs)%nat as Hlen.
  { unfold cs. by rewrite length_map, length_seq. }
  assert ((zip names cs).*1 = names) as Hfst by (by apply fst_zip).
  split.
  { rewrite Hlabels. unfold labels, table; simpl. exact Hfst. }
  intros i nm Hi.
  assert (getitem table nm = Some (column_at d0 rows i)) as Hget.
  { unfold getitem, table; simpl. apply lookup_column_Some; [by rewrite Hfst|].
    apply (list_elem_of_lookup_2 _ i). apply lookup_zip_with_Some.
    exists nm, (column_at d0 rows i). split; [done|]. split; [done|].
    unfold cs. rewrite list_lookup_fmap, lookup_seq_lt; [done|].
    by apply lookup_lt_Some in Hi. }
  destruct (Hcolumns nm) as [Hother Hdate]. split.
  - intros Hnot. by rewrite Hother.
  - intros unit Hin. destruct (Hdate unit Hin) as (s & s' & Hs & Hconv & Hs').
    exists s'. split; [|done]. rewrite Hget in Hs. by injection Hs as <-.
Qed.
End Positions.

Lemma mapping_by_position_witness :
  labels
    match @Npy.mapping Sample.libs Npy.default_format
            (Matrix float64 5 [[Num 1; Num 2; Num 3; Num 4; Num 5]]) with
    | Return df => df
    | Raise _ => sample_table
    end = ["Time"; "Current"; "Voltage"; "Temperature"].
Proof.
  refine (proj1 (@mapping_by_position Sample.libs Npy.default_format
                   ["Time"; "Current"; "Voltage"; "Temperature"] [("Time", "s")]
                   float64 5 [[Num 1; Num 2; Num 3; Num 4; Num 5]] _ _ _ _ _ _ _)).
  - vm_compute. reflexivity.
  - vm_compute. reflexivity.
  - apply (bool_decide_unpack _). vm_compute. exact I.
  - apply (bool_decide_unpack _). vm_compute. exact I.
  - simpl. lia.
  - vm_compute. reflexivity.
Defined.

Lemma mapping_column_count_witness :
  @Npy.mapping Sample.libs Npy.default_format (Matrix float64 3 [[Num 1; Num 2; Num 3]]) =
  Raise IndexError.
Proof.
  apply (@mapping_column_count Sample.libs Npy.default_format
           ["Time"; "Current"; "Voltage"; "Temperature"]).
  - vm_compute. reflexivity.
  - simpl. lia.
Defined.

Lemma sample_parquet_not_empty (df : DataFrame) (engine compression bytes : string) :
  @parquet_bytes Sample.libs df engine compression = Some bytes -> bytes <> "".
Proof. intros [= <-]. discriminate. Qed.

Lemma csv_summary_printed_witness :
  exists o,
    Csv.final_feedback Csv.defaults
      (@Csv.scan Sample.libs Csv.defaults (at_start fresh_tree) Csv.initial).1.2
      (@Csv.scan Sample.libs Csv.defaults (at_start fresh_tree) Csv.initial).2 =
    (Return tt,
     printed o (@Csv.scan Sample.libs Csv.defaults (at_start fresh_tree) Csv.initial).1.2,
     (@Csv.scan Sample.libs Csv.defaults (at_start fresh_tree) Csv.initial).2).
Proof.
  apply (@csv_summary_printed Sample.libs sample_parquet_not_empty Csv.defaults
           (at_start fresh_tree)).
  vm_compute. reflexivity.
Defined.

Lemma npy_summary_printed_witness :
  exists o,
    Npy.final_feedback Npy.defaults
      (@Npy.scan Sample.libs Npy.defaults Npy.default_format (at_start fresh_tree)
         Npy.initial).1.2
      (@Npy.scan Sample.libs Npy.defaults Npy.default_format (at_start fresh_tree)
         Npy.initial).2 =
    (Return tt,
     printed o (@Npy.scan Sample.libs Npy.defaults Npy.default_format (at_start fresh_tree)
                  Npy.initial).1.2,
     (@Npy.scan Sample.libs Npy.defaults Npy.default_format (at_start fresh_tree)
        Npy.initial).2).
Proof.
  apply (@npy_summary_printed Sample.libs sample_parquet_not_empty Npy.defaults
           Npy.default_format (at_start fresh_tree)).
  vm_compute. reflexivity.
Defined.

Lemma npy_convert_success_witness :
  (@Npy.convert Sample.libs Npy.defaults Npy.default_format ["a.npy"]
     (at_start fresh_tree) Npy.initial).2 =
  Npy.count_converted (Npy.add_parquet 40 (Npy.add_original 4 Npy.initial)).
Proof.
  erewrite (@npy_convert_success Sample.libs Npy.defaults Npy.default_format ["a.npy"]
              (at_start fresh_tree) Npy.initial);
    [ | reflexivity ..].
  reflexivity.
Defined.

Lemma csv_convert_read_failure_witness :
  (@Csv.convert Sample.libs Csv.defaults ["C1"; "E1"] (at_start unreadable_tree)
     Csv.initial).1.1 =
  Raise (Exception "Failed to read 'C1/E1/b.csv'.").
Proof.
  rewrite (@csv_convert_read_failure Sample.libs Csv.defaults ["C1"; "E1"]
             (at_start unreadable_tree) Csv.initial
             [] [["C1"; "E1"; "b.csv"]] ["C1"; "E1"; "a.csv"] []).
  - reflexivity.
  - vm_compute. reflexivity.
  - repeat constructor; by eexists.
  - constructor.
  - reflexivity.
Defined.

Lemma csv_no_campaign_raises_witness :
  exists w,
    @Csv.run Sample.libs Csv.defaults (Dir [("notes.txt", File "x")]) =
      (Raise (AttributeError "directory"), w, Csv.initial) /\
    tree w = Dir [("notes.txt", File "x")].
Proof.
  apply (@csv_no_campaign_raises Sample.libs Csv.defaults (Dir [("notes.txt", File "x")])
           [["notes.txt"]]).
  - reflexivity.
  - reflexivity.
Defined.

Lemma npy_run_aborts_witness :
  (@Npy.run_with Sample.libs Npy.defaults Npy.default_format
     (Dir [("a.npy", File "123"); ("b.npy", File "1234")])).1.1 =
  Raise (Exception (Npy.does_not_fit ["a.npy"])).
Proof.
  erewrite (@npy_run_aborts Sample.libs Npy.defaults Npy.default_format
              (Dir [("a.npy", File "123"); ("b.npy", File "1234")])
              [] [["b.npy"]] ["a.npy"]);
    [ | reflexivity ..].
  reflexivity.
Defined.

(** ** The totals after a conversion *)

(** X22.  When the conversion of an experiment with at least one
    matching file returns: the original total has grown by the sizes
    of all the matching files, as they were before the output was
    written; the Parquet total has grown by the size of the output as
    it is afterwards; one more file is counted as converted; the count
    of skipped files and the recorded locations are unchanged. *)
Theorem csv_conversion_totals `{Libs} (args : Csv.arguments) (e : Path) (w w' : world)
    (v v' : Csv.variables) :
  sort (matching e (Csv.csv_pattern args) (tree w)) <> [] ->
  Csv.convert args e w v = (Return tt, w', v') ->
  Csv.original_sizes v' =
    Csv.original_sizes v +
    foldr Z.add 0
      (map (size_at (tree w)) (sort (matching e (Csv.csv_pattern args) (tree w)))) /\
  Csv.parquet_sizes v' =
    Csv.parquet_sizes v + size_at (tree w') (with_suffix e ".parquet") /\
  Csv.num_files_converted v' = Csv.num_files_converted v + 1 /\
  Csv.num_files_skipped v' = Csv.num_files_skipped v /\
  Csv.empty_directories v' = Csv.empty_directories v.
Proof.
  intros Hfiles Hconv. apply csv_convert_returns in Hconv.
  destruct Hconv as [[Hnone _]|(_ & dfs & bytes & _ & _ & Hwrite & ->)]; [done|].
  apply lookup_write_file in Hwrite. unfold size_at at 2. rewrite Hwrite.
  destruct (after_sizes_fields (tree w)
              (sort (matching e (Csv.csv_pattern args) (tree w))) v)
    as (H1 & H2 & H3 & H4 & H5 & _).
  simpl. by rewrite H1, H2, H3, H4, H5.
Qed.

Lemma csv_conversion_totals_witness :
  Csv.original_sizes
    (@Csv.convert Sample.libs Csv.defaults ["C1"; "E1"] (at_start fresh_tree) Csv.initial).2
  = 5.
Proof.
  refine (proj1 (@csv_conversion_totals Sample.libs Csv.defaults ["C1"; "E1"]
                   (at_start fresh_tree)
                   (@Csv.convert Sample.libs Csv.defaults ["C1"; "E1"] (at_start fresh_tree)
                      Csv.initial).1.2
                   Csv.initial _ _ _)).
  - vm_compute. discriminate.
  - vm_compute. reflexivity.
Defined.
